(** * QcOpenAirMap3: the ModuleAir historical-data side panel

    A shallow embedding of the historical-data view controller
    ([ModuleAirSidePanel]) and of the historical fetch of
    [ModuleAirService], with the properties the specification states
    about them.

    Conventions of the embedding.
    - A calendar date string ["YYYY-MM-DD"] is its UTC day number (days
      since the epoch): [new Date(s).getTime()] is that number times
      [MS_PER_DAY], and [d.toISOString().split("T")[0]] is the floor of
      [d.getTime()] by [MS_PER_DAY].  Instants are milliseconds ([Z]).
    - JavaScript numbers are IEEE binary64 values ([float]).
    - React state is a record; an event handler runs to completion and
      the component re-renders before the next event, so the [state] a
      handler closes over is the current one.  The updaters passed to
      [setState] are applied in the order in which React queues them;
      where an updater itself calls [setState], that order depends on
      when React runs it, which the event says.
    - Asynchronous work (animation-frame callbacks, pending promises) is
      kept in explicit queues of the panel; the environment picks which
      one runs next.
    - The store [historicalData] and the table [pollutants] are objects
      used as maps, and a lookup in them is the lookup of an own
      property: the names of the members every object inherits
      ([constructor], [toString], ...) are taken not to be pollutant
      codes.  Where the code looks up other keys, in the mapping of
      [convertTimeStepToFreq] and in the elements of a response, the
      inherited members are part of the model.
    - A render that throws unmounts the component.  Two throws are part
      of the model: that of a render whose hooks differ from those of the
      render before, and that of the [stats] memo. *)

From Stdlib Require Import ZArith QArith Floats Ascii String List Bool Lia.
From stdpp Require Import gmap strings pretty.
Import ListNotations.

Open Scope string_scope.
Open Scope Z_scope.

(** ** JavaScript helpers *)

(** [Array.prototype.includes] on an array of strings. *)
Definition includes (l : list string) (x : string) : bool :=
  existsb (String.eqb x) l.

(** [Array.prototype.join]. *)
Definition join (sep : string) (l : list string) : string :=
  String.concat sep l.

(** [Math.ceil(a / b)] for integers [a] and [b > 0]. *)
Definition ceilDiv (a b : Z) : Z := - ((- a) / b).

(** [a > b] on rationals. *)
Definition Qgtb (a b : Q) : bool := negb (Qle_bool a b).

Definition MS_PER_HOUR : Z := 1000 * 60 * 60.
Definition MS_PER_DAY : Z := 24 * 60 * 60 * 1000.

(** [new Date(dateString).getTime()] for a calendar date. *)
Definition getTime (day : Z) : Z := day * MS_PER_DAY.

(** [new Date(ms).toISOString().split("T")[0]]. *)
Definition isoDate (ms : Z) : Z := ms / MS_PER_DAY.

(** ** Data model *)

(** An entry of [constants/pollutants]; only the fields the panel and the
    service read. *)
Record PollutantConfig := {
  p_name : string;
  p_unit : option string;
  supportedTimeSteps : option (list string);
}.

Inductive Preset := P3h | P24h | P7d | P30d.

Inductive RangeType := preset_t | custom_t.

Record CustomRange := { startDate : Z; endDate : Z }.

(** [TimeRange] of [HistoricalTimeRangeSelector]:
    [{ type; preset?; custom? }]. *)
Record TimeRange := {
  type : RangeType;
  preset : option Preset;
  custom : option CustomRange;
}.

Record Adjusted := { adjustedRange : TimeRange; wasAdjusted : bool }.

(** A JSON value as the panel and the service inspect it. *)
Inductive RawValue :=
| RUndefined
| RNull
| RBool (b : bool)
| RNumber (f : float)
| RString (s : string)
| ROther.

(** [HistoricalDataPoint]; a [null] or [undefined] value is [None]. *)
Record HistoricalDataPoint := {
  dp_timestamp : RawValue;
  dp_value : option float;
  dp_unit : string;
}.

Record StationVariable := {
  label : string;
  code_iso : string;
  en_service : bool;
}.

Record StationInfo := {
  station_id : string;
  station_name : string;
  variables : list (string * StationVariable);
}.

Record ChartControls := {
  selectedPollutants : list string;
  timeRange : TimeRange;
  timeStep : string;
}.

Record SidePanelState := {
  isOpen : bool;
  selectedStation : option StationInfo;
  chartControls : ChartControls;
  historicalData : gmap string (list HistoricalDataPoint);
  loading : bool;
  error : option string;
  infoMessage : option string;
}.

(** The argument of [ModuleAirService.fetchHistoricalData]; the two
    timestamps are instants. *)
Record FetchParams := {
  sensorId : string;
  pollutant : string;
  fp_timeStep : string;
  fp_startDate : Z;
  fp_endDate : Z;
}.

(** A call of [loadHistoricalData] suspended in its loop of fetches. *)
Record LoadCall := {
  load_station : StationInfo;
  load_pollutants : list string;
  load_timeRange : TimeRange;
  load_timeStep : string;
  load_startDate : Z;
  load_endDate : Z;
}.

(** The closure handed to [requestAnimationFrame] by the station effect. *)
Record FrameCallback := {
  loadKey : string;
  frame_station : StationInfo;
  frame_pollutants : list string;
  frame_timeRange : TimeRange;
  frame_timeStep : string;
}.

(** How a suspended [loadHistoricalData] resumes: every fetch of the loop
    fulfilled, with the series each pollutant received, or one of them
    rejected with an error. *)
Inductive LoadOutcome :=
| LoadFulfilled (responses : string -> list HistoricalDataPoint)
| LoadRejected (err : string).

Inductive FetchOutcome :=
| FetchFulfilled (data : list HistoricalDataPoint)
| FetchRejected (err : string).

(** Where a component is in its life: not yet rendered; mounted; or
    unmounted by React after a render that threw. *)
Inductive Life := BeforeMount | Mounted | Unmounted.

(** One [ModuleAirSidePanel]: where it is in its life, the props of its
    last render, React state, refs, and the asynchronous work it has
    scheduled. *)
Record Panel := {
  life : Life;
  props_isOpen : bool;
  props_selectedStation : option StationInfo;
  state : SidePanelState;
  isLoading : bool;
  loadingRef : bool;
  initialLoadDoneRef : option string;
  stationIdRef : option string;
  frames : list FrameCallback;
  loads : list LoadCall;
  fetches : list FetchParams;
  infoTimers : nat;
  unhandledRejections : list string;
}.

(** What happens to the panel.  A change of range or of step comes with
    the moment at which React runs the updater the handler passes to
    [setState]: at the call itself, which React does when the component
    has no update pending, or in the render that follows. *)
Inductive Event :=
| PropsChange (open : bool) (station : option StationInfo)
| AnimationFrame
| LoadSettles (i : nat) (outcome : LoadOutcome)
| FetchSettles (i : nat) (outcome : FetchOutcome)
| PollutantToggle (code : string)
| TimeRangeChange (atCall : bool) (range : TimeRange)
| TimeStepChange (atCall : bool) (step : string)
| InfoTimeout.

Record Stats := {
  s_avg : float;
  s_max : float;
  s_min : float;
  s_unit : string;
}.

Definition presetName (p : Preset) : string :=
  match p with P3h => "3h" | P24h => "24h" | P7d => "7d" | P30d => "30d" end.

(** The [presetDays] table of [adjustTimeRangeIfNeeded] and
    [isTimeStepValidForCurrentRange]. *)
Definition presetDays (p : Preset) : Q :=
  match p with
  | P3h => 1 # 8
  | P24h => 1
  | P7d => 7
  | P30d => 30
  end.

Definition MODULEAIR_TIMESTEP_OPTIONS : list string :=
  ["instantane"; "quartHeure"; "heure"; "jour"].

(** ** State updates

    [setState (prev => ({ ...prev, ... }))] and assignments to refs. *)

Definition setState (f : SidePanelState -> SidePanelState) (w : Panel) : Panel :=
  {| life := life w;
     props_isOpen := props_isOpen w;
     props_selectedStation := props_selectedStation w;
     state := f (state w);
     isLoading := isLoading w;
     loadingRef := loadingRef w;
     initialLoadDoneRef := initialLoadDoneRef w;
     stationIdRef := stationIdRef w;
     frames := frames w;
     loads := loads w;
     fetches := fetches w;
     infoTimers := infoTimers w;
     unhandledRejections := unhandledRejections w |}.

Definition withLoading (l : bool) (e : option string) (st : SidePanelState)
    : SidePanelState :=
  {| isOpen := isOpen st; selectedStation := selectedStation st;
     chartControls := chartControls st; historicalData := historicalData st;
     loading := l; error := e; infoMessage := infoMessage st |}.

Definition withHistoricalData (d : gmap string (list HistoricalDataPoint))
    (st : SidePanelState) : SidePanelState :=
  {| isOpen := isOpen st; selectedStation := selectedStation st;
     chartControls := chartControls st; historicalData := d;
     loading := loading st; error := error st; infoMessage := infoMessage st |}.

Definition withControls (c : ChartControls) (info : option string)
    (st : SidePanelState) : SidePanelState :=
  {| isOpen := isOpen st; selectedStation := selectedStation st;
     chartControls := c; historicalData := historicalData st;
     loading := loading st; error := error st; infoMessage := info |}.

Definition withSession (o : bool) (s : option StationInfo) (st : SidePanelState)
    : SidePanelState :=
  {| isOpen := o; selectedStation := s;
     chartControls := chartControls st; historicalData := historicalData st;
     loading := loading st; error := error st; infoMessage := infoMessage st |}.

(** [setIsLoading(l); loadingRef.current = l]. *)
Definition setLatch (l : bool) (w : Panel) : Panel :=
  {| life := life w;
     props_isOpen := props_isOpen w;
     props_selectedStation := props_selectedStation w;
     state := state w;
     isLoading := l;
     loadingRef := l;
     initialLoadDoneRef := initialLoadDoneRef w;
     stationIdRef := stationIdRef w;
     frames := frames w;
     loads := loads w;
     fetches := fetches w;
     infoTimers := infoTimers w;
     unhandledRejections := unhandledRejections w |}.

Definition setRefs (done : option string) (sid : option string) (w : Panel)
    : Panel :=
  {| life := life w;
     props_isOpen := props_isOpen w;
     props_selectedStation := props_selectedStation w;
     state := state w;
     isLoading := isLoading w;
     loadingRef := loadingRef w;
     initialLoadDoneRef := done;
     stationIdRef := sid;
     frames := frames w;
     loads := loads w;
     fetches := fetches w;
     infoTimers := infoTimers w;
     unhandledRejections := unhandledRejections w |}.

Definition setProps (o : bool) (s : option StationInfo) (w : Panel) : Panel :=
  {| life := life w;
     props_isOpen := o;
     props_selectedStation := s;
     state := state w;
     isLoading := isLoading w;
     loadingRef := loadingRef w;
     initialLoadDoneRef := initialLoadDoneRef w;
     stationIdRef := stationIdRef w;
     frames := frames w;
     loads := loads w;
     fetches := fetches w;
     infoTimers := infoTimers w;
     unhandledRejections := unhandledRejections w |}.

Definition setLife (l : Life) (w : Panel) : Panel :=
  {| life := l;
     props_isOpen := props_isOpen w;
     props_selectedStation := props_selectedStation w;
     state := state w;
     isLoading := isLoading w;
     loadingRef := loadingRef w;
     initialLoadDoneRef := initialLoadDoneRef w;
     stationIdRef := stationIdRef w;
     frames := frames w;
     loads := loads w;
     fetches := fetches w;
     infoTimers := infoTimers w;
     unhandledRejections := unhandledRejections w |}.

(** The scheduled work: animation frames, suspended loads, pending
    incremental fetches, info-message timers, unhandled rejections. *)
Definition setPending (fr : list FrameCallback) (ls : list LoadCall)
    (fs : list FetchParams) (tm : nat) (un : list string) (w : Panel) : Panel :=
  {| life := life w;
     props_isOpen := props_isOpen w;
     props_selectedStation := props_selectedStation w;
     state := state w;
     isLoading := isLoading w;
     loadingRef := loadingRef w;
     initialLoadDoneRef := initialLoadDoneRef w;
     stationIdRef := stationIdRef w;
     frames := fr;
     loads := ls;
     fetches := fs;
     infoTimers := tm;
     unhandledRejections := un |}.

Definition pushFrame (cb : FrameCallback) (w : Panel) : Panel :=
  setPending (frames w ++ [cb]) (loads w) (fetches w) (infoTimers w)
             (unhandledRejections w) w.

Definition pushLoad (c : LoadCall) (w : Panel) : Panel :=
  setPending (frames w) (loads w ++ [c]) (fetches w) (infoTimers w)
             (unhandledRejections w) w.

Definition pushFetch (f : FetchParams) (w : Panel) : Panel :=
  setPending (frames w) (loads w) (fetches w ++ [f]) (infoTimers w)
             (unhandledRejections w) w.

Definition pushTimer (w : Panel) : Panel :=
  setPending (frames w) (loads w) (fetches w) (S (infoTimers w))
             (unhandledRejections w) w.

(** [table[code]] on a configuration table. *)
Definition lookupPollutant (table : list (string * PollutantConfig))
    (code : string) : option PollutantConfig :=
  snd <$> List.find (fun e => String.eqb (fst e) code) table.

(** ** Completions

    A statement completes normally with a value or abruptly with a thrown
    error; a promise of an [async] function fulfils or rejects likewise. *)

Inductive Completion (A : Type) :=
| Normal (a : A)
| Throw (err : string).

Arguments Normal {A} a.
Arguments Throw {A} err.

Definition bind {A B} (c : Completion A) (k : A -> Completion B) : Completion B :=
  match c with
  | Normal a => k a
  | Throw err => Throw err
  end.

(** [try { body } catch (error) { handler }]. *)
Definition tryCatch {A} (body : Completion A) (handler : string -> Completion A)
    : Completion A :=
  match body with
  | Normal a => Normal a
  | Throw err => handler err
  end.

#[global] Instance completion_bind : MBind Completion :=
  fun A B k c => bind c k.

Fixpoint mapM {A B} (f : A -> Completion B) (l : list A) : Completion (list B) :=
  match l with
  | [] => Normal []
  | a :: rest =>
    b ← f a;
    bs ← mapM f rest;
    Normal (b :: bs)
  end.

(** ** Strings *)

Definition upperChar (c : ascii) : ascii :=
  let n := nat_of_ascii c in
  if (97 <=? n)%nat && (n <=? 122)%nat then ascii_of_nat (n - 32) else c.

Definition lowerChar (c : ascii) : ascii :=
  let n := nat_of_ascii c in
  if (65 <=? n)%nat && (n <=? 90)%nat then ascii_of_nat (n + 32) else c.

Fixpoint mapString (f : ascii -> ascii) (s : string) : string :=
  match s with
  | EmptyString => EmptyString
  | String c rest => String (f c) (mapString f rest)
  end.

(** [toUpperCase] and [toLowerCase], on ASCII text. *)
Definition toUpperCase : string -> string := mapString upperChar.
Definition toLowerCase : string -> string := mapString lowerChar.

(** [s.replace(pattern, replacement)] with a string pattern: the first
    occurrence only. *)
Fixpoint replace (pattern replacement s : string) : string :=
  if String.prefix pattern s then
    replacement ++ String.substring (String.length pattern)
                     (String.length s - String.length pattern) s
  else
    match s with
    | EmptyString => EmptyString
    | String c rest => String c (replace pattern replacement rest)
    end.

(** ** The historical fetch of [ModuleAirService] *)

Module ModuleAirService.

Record ModuleAirSensorConfig := {
  cfg_sensorId : string;
  token : string;
  campagne : string;
}.

(** An element of the response array: [null] (or [undefined]), on which a
    property access throws; an object, with its own properties; or any
    other value (a number, a string, a boolean, an array), with the value
    of each of its properties. *)
Inductive JsonPoint :=
| PointNull
| PointObject (fields : list (string * RawValue))
| PointOther (member : string -> RawValue).

Inductive Json :=
| JArray (points : list JsonPoint)
| JOther.

(** [`-${n}h`] or [`-${n}d`]. *)
Inductive Start :=
| Hours (n : Z)
| Days (n : Z).

(** The names of the members every object inherits from
    [Object.prototype]; each of them is a function or an object. *)
Definition objectPrototypeKeys : list string :=
  [ "constructor"; "hasOwnProperty"; "isPrototypeOf"; "propertyIsEnumerable";
    "toLocaleString"; "toString"; "valueOf"; "__proto__";
    "__defineGetter__"; "__defineSetter__";
    "__lookupGetter__"; "__lookupSetter__" ].

(** What [convertTimeStepToFreq] returns: a frequency code or, for a time
    step that names a member the mapping inherits, that member. *)
Inductive Freq :=
| FreqCode (code : string)
| InheritedMember (key : string).

(** The query of the [dataNebuleAir] request. *)
Record Request := {
  capteurID : string;
  start : Start;
  stop : string;
  freq : Freq;
  req_token : string;
  req_campagne : string;
}.

(** [mapping[timeStep] || "2m"], on an object literal. *)
Definition convertTimeStepToFreq (timeStep : string) : Freq :=
  if String.eqb timeStep "instantane" then FreqCode "2m"
  else if String.eqb timeStep "deuxMin" then FreqCode "2m"
  else if String.eqb timeStep "quartHeure" then FreqCode "15m"
  else if String.eqb timeStep "heure" then FreqCode "1h"
  else if String.eqb timeStep "jour" then FreqCode "1d"
  else if includes objectPrototypeKeys timeStep then InheritedMember timeStep
  else FreqCode "2m".

(** [point[key]]: an own property of an object, else the member it
    inherits under that name, else [undefined]. *)
Definition getProp (point : JsonPoint) (key : string) : Completion RawValue :=
  match point with
  | PointNull => Throw "TypeError"
  | PointObject fields =>
    Normal (match List.find (fun e => String.eqb (fst e) key) fields with
            | Some e => snd e
            | None =>
              if includes objectPrototypeKeys key then ROther else RUndefined
            end)
  | PointOther member => Normal (member key)
  end.

Definition isNullish (v : RawValue) : bool :=
  match v with
  | RUndefined | RNull => true
  | _ => false
  end.

Definition truthy (v : RawValue) : bool :=
  match v with
  | RUndefined | RNull => false
  | RBool b => b
  | RNumber f =>
    negb (PrimFloat.is_nan f || PrimFloat.is_zero f)
  | RString s => negb (String.eqb s "")
  | ROther => true
  end.

(** [point[k1] ?? point[k2] ?? ...]. *)
Fixpoint coalesce (point : JsonPoint) (keys : list string) : Completion RawValue :=
  match keys with
  | [] => Normal RUndefined
  | [key] => getProp point key
  | key :: rest =>
    v ← getProp point key;
    if isNullish v then coalesce point rest else Normal v
  end.

(** [point[k1] || point[k2] || ...]. *)
Fixpoint firstTruthy (point : JsonPoint) (keys : list string) : Completion RawValue :=
  match keys with
  | [] => Normal RUndefined
  | [key] => getProp point key
  | key :: rest =>
    v ← getProp point key;
    if truthy v then Normal v else firstTruthy point rest
  end.

(** The keys under which the reading of a pollutant is looked for. *)
Definition readingKeys (code : string) : list string :=
  [ toUpperCase code;
    code;
    toLowerCase code;
    toUpperCase code;
    replace "pm" "PM" code;
    replace "25" "2.5" (replace "pm" "PM" code);
    replace "1" "1.0" (replace "pm" "PM" code);
    replace "temp" "TEMP" code;
    replace "hum" "HUM" code ].

(** [val !== undefined && val !== null && val !== "-1"]. *)
Definition isReading (val : RawValue) : bool :=
  match val with
  | RUndefined | RNull => false
  | RString s => negb (String.eqb s "-1")
  | _ => true
  end.

Section Service.

Variable pollutants : list (string * PollutantConfig).

(** [config/moduleAirSensors.json]. *)
Variable sensors : list ModuleAirSensorConfig.

(** The built-in [parseFloat]. *)
Variable parseFloat : RawValue -> float.

(** [BaseDataService.makeRequest]: the parsed response, or a throw. *)
Variable makeRequest : Request -> Completion Json.

(** [(val ...) ? parseFloat(val) : 0]. *)
Definition readingValue (val : RawValue) : float :=
  if isReading val then parseFloat val else 0%float.

(** The callback of [response.map]. *)
Definition mapPoint (code : string) (point : JsonPoint)
    : Completion HistoricalDataPoint :=
  val ← coalesce point (readingKeys code);
  ts ← firstTruthy point ["time"; "timestamp"; "date_debut"];
  Normal {| dp_timestamp := ts;
            dp_value := Some (readingValue val);
            dp_unit := default "" (lookupPollutant pollutants code ≫= p_unit) |}.

(** [p => !isNaN(p.value)]. *)
Definition notNaN (p : HistoricalDataPoint) : bool :=
  match dp_value p with
  | Some f => negb (PrimFloat.is_nan f)
  | None => true
  end.

Definition buildRequest (now : Z) (config : ModuleAirSensorConfig)
    (params : FetchParams) : Request :=
  let timeDiffMs := now - fp_startDate params in
  let timeDiffHours := ceilDiv timeDiffMs (1000 * 60 * 60) in
  {| capteurID := cfg_sensorId config;
     start := if timeDiffHours <=? 24 then Hours timeDiffHours
              else Days (ceilDiv timeDiffMs (1000 * 60 * 60 * 24));
     stop := "now";
     freq := convertTimeStepToFreq (fp_timeStep params);
     req_token := token config;
     req_campagne := campagne config |}.

(** The promise [fetchHistoricalData] returns: [Normal] when it fulfils,
    [Throw] when it rejects. *)
Definition fetchHistoricalData (now : Z) (params : FetchParams)
    : Completion (list HistoricalDataPoint) :=
  match List.find (fun s => String.eqb (cfg_sensorId s) (sensorId params)) sensors with
  | None => Normal []
  | Some config =>
    let request := buildRequest now config params in
    tryCatch
      (response ← makeRequest request;
       match response with
       | JOther => Normal []
       | JArray points =>
         mappedData ← mapM (mapPoint (pollutant params)) points;
         Normal (List.filter notNaN mappedData)
       end)
      (fun _ => Normal [])
  end.

End Service.

(** ** The other methods of the service *)

(** [MeasurementDevice], as [mapToMeasurementDevice] fills it. *)
Record MeasurementDevice := {
  dev_id : RawValue;
  dev_name : RawValue;
  dev_latitude : float;
  dev_longitude : float;
  dev_source : string;
  dev_pollutant : string;
  dev_value : float;
  dev_unit : string;
  dev_timestamp : RawValue;
  dev_status : string;
  dev_qualityLevel : string;
  dev_address : RawValue;
  dev_departmentId : RawValue;
}.

(** What [fetchSiteInfo] adds to the variables when the metadata request
    answers. *)
Record SiteDetails := {
  lastSeenSec : RawValue;
  site_address : RawValue;
  site_departmentId : RawValue;
}.

Record SiteInfo := {
  site_variables : list (string * StationVariable);
  site_details : option SiteDetails;
}.

Definition supportedPollutants : list string :=
  ["PM1"; "PM25"; "PM10"; "CO2"; "COV"; "TEMP"; "HUM"].

(** [variables[key] = value] on an object kept in insertion order. *)
Fixpoint setKey {A} (key : string) (value : A) (entries : list (string * A))
    : list (string * A) :=
  match entries with
  | [] => [(key, value)]
  | (k, v) :: rest =>
    if String.eqb k key then (k, value) :: rest
    else (k, v) :: setKey key value rest
  end.

(** [data.departement_id || data.cp?.substring(0, 2)]: a [cp] that is
    neither nullish nor a string has no [substring] to call. *)
Definition departmentOf (data : JsonPoint) : Completion RawValue :=
  dep ← getProp data "departement_id";
  if truthy dep then Normal dep
  else
    cp ← getProp data "cp";
    match cp with
    | RUndefined | RNull => Normal RUndefined
    | RString s => Normal (RString (String.substring 0 2 s))
    | _ => Throw "TypeError"
    end.

(** The loop of [fetchData], one sensor after the other. *)
Fixpoint foldM {A B} (f : B -> A -> Completion B) (l : list A) (b : B)
    : Completion B :=
  match l with
  | [] => Normal b
  | a :: rest =>
    b' ← f b a;
    foldM f rest b'
  end.

(** [formatDateForHistorical], on instants: the first or the last
    millisecond of the UTC day of the instant. *)
Definition formatDateForHistorical (date : Z) (isEnd : bool) : Z :=
  if isEnd
  then date / MS_PER_DAY * MS_PER_DAY
       + (23 * 60 * 60 * 1000 + 59 * 60 * 1000 + 59 * 1000 + 999)
  else date / MS_PER_DAY * MS_PER_DAY.

Section Devices.

Variable pollutants : list (string * PollutantConfig).

(** The thresholds column of [constants/pollutants]. *)
Variable Thresholds : Type.
Variable thresholdsOf : string -> option Thresholds.

(** [getAirQualityLevel] of [utils]. *)
Variable getAirQualityLevel : float -> Thresholds -> string.

Variable sensors : list ModuleAirSensorConfig.

Variable parseFloat : RawValue -> float.

(** The text of a value inside a template literal. *)
Variable toText : RawValue -> string.

(** [this.sourceCode], set by the constructor of [BaseDataService]. *)
Variable sourceCode : string.

(** [this.makeRequest] on the metadata URL of a sensor. *)
Variable requestMetadata : ModuleAirSensorConfig -> Completion Json.

Definition mapToMeasurementDevice (data : JsonPoint) (selectedPollutant : string)
    (config : ModuleAirSensorConfig) : Completion (option MeasurementDevice) :=
  latitude ← getProp data "latitude";
  longitude ← getProp data "longitude";
  let lat := parseFloat latitude in
  let lon := parseFloat longitude in
  if PrimFloat.is_nan lat || PrimFloat.is_nan lon
     || PrimFloat.eqb lat 0 || PrimFloat.eqb lon 0
  then Normal None
  else
    valueStr ← getProp data (toUpperCase selectedPollutant);
    let value := if isReading valueStr then Some (parseFloat valueStr) else None in
    let qualityLevel :=
      match value, thresholdsOf selectedPollutant with
      | Some v, Some thresholds => getAirQualityLevel v thresholds
      | _, _ => "default"
      end in
    sensorId ← getProp data "sensorId";
    nomSite ← getProp data "nom_site";
    time ← getProp data "time";
    connected ← getProp data "connected";
    address ← firstTruthy data ["nom_site"; "localisation"; "adresse"];
    department ← departmentOf data;
    Normal (Some
      {| dev_id := sensorId;
         dev_name := if truthy nomSite then nomSite
                     else RString ("ModuleAir " ++ toText sensorId);
         dev_latitude := lat;
         dev_longitude := lon;
         dev_source := sourceCode;
         dev_pollutant := selectedPollutant;
         dev_value := default 0%float value;
         dev_unit := default "" (lookupPollutant pollutants selectedPollutant ≫= p_unit);
         dev_timestamp := time;
         dev_status :=
           match value with
           | None => "inactive"
           | Some _ => if truthy connected then "active" else "inactive"
           end;
         dev_qualityLevel := qualityLevel;
         dev_address := address;
         dev_departmentId := department |}).

(** One round of the loop of [fetchData], with its own [try]. *)
Definition collectDevice (selectedPollutant : string)
    (devices : list MeasurementDevice) (config : ModuleAirSensorConfig)
    : Completion (list MeasurementDevice) :=
  tryCatch
    (response ← requestMetadata config;
     match response with
     | JArray (data :: _) =>
       device ← mapToMeasurementDevice data selectedPollutant config;
       match device with
       | Some d => Normal (devices ++ [d])%list
       | None => Normal devices
       end
     | _ => Normal devices
     end)
    (fun _ => Normal devices).

(** [fetchData]; the outer [catch] throws the error again. *)
Definition fetchData (selectedPollutant : string) (sources : list string)
    : Completion (list MeasurementDevice) :=
  tryCatch
    (if negb (includes sources "moduleair"
              || includes sources "communautaire.moduleair")
     then Normal []
     else foldM (collectDevice selectedPollutant) sensors [])
    (fun error => Throw error).

Definition fetchSiteVariables (sensorId : string) : list (string * StationVariable) :=
  fold_left
    (fun variables pollutant =>
       match lookupPollutant pollutants (toLowerCase pollutant) with
       | Some pollutantConfig =>
         setKey (toLowerCase pollutant)
                {| label := p_name pollutantConfig;
                   code_iso := pollutant;
                   en_service := true |}
                variables
       | None => variables
       end)
    supportedPollutants [].

Definition fetchSiteInfo (sensorId : string) : Completion SiteInfo :=
  let variables := fetchSiteVariables sensorId in
  let bare := {| site_variables := variables; site_details := None |} in
  match List.find (fun s => String.eqb (cfg_sensorId s) sensorId) sensors with
  | Some config =>
    tryCatch
      (response ← requestMetadata config;
       match response with
       | JArray (first :: _) =>
         seen ← getProp first "last_seen_sec";
         address ← firstTruthy first ["nom_site"; "localisation"; "adresse"];
         department ← departmentOf first;
         Normal {| site_variables := variables;
                   site_details :=
                     Some {| lastSeenSec := seen;
                             site_address := address;
                             site_departmentId := department |} |}
       | _ => Normal bare
       end)
      (fun _ => Normal bare)
  | None => Normal bare
  end.

End Devices.

End ModuleAirService.

(** What a suspended [loadHistoricalData] resumes with when its fetches
    go through a given service: the first rejection, else the series
    received. *)
Definition outcomeVia
    (fetch : FetchParams -> Completion (list HistoricalDataPoint))
    (call : LoadCall) : LoadOutcome :=
  let paramsOf code :=
    {| sensorId := station_id (load_station call);
       pollutant := code;
       fp_timeStep := load_timeStep call;
       fp_startDate := load_startDate call;
       fp_endDate := load_endDate call |} in
  match mapM (fun code => fetch (paramsOf code)) (load_pollutants call) with
  | Throw err => LoadRejected err
  | Normal _ =>
    LoadFulfilled (fun code =>
      match fetch (paramsOf code) with
      | Normal data => data
      | Throw _ => []
      end)
  end.

(** ** Sample configurations

    Values of the configuration tables used by the worked examples at the
    end of the file. *)

Definition allSteps : option (list string) :=
  Some ["instantane"; "quartHeure"; "heure"; "jour"].

Definition samplePollutants : list (string * PollutantConfig) :=
  [ ("pm25", {| p_name := "PM2.5"; p_unit := Some "µg/m³";
                supportedTimeSteps := allSteps |});
    ("pm10", {| p_name := "PM10"; p_unit := Some "µg/m³";
                supportedTimeSteps := allSteps |});
    ("co2",  {| p_name := "CO2"; p_unit := Some "ppm";
                supportedTimeSteps := Some ["heure"; "jour"] |});
    ("temp", {| p_name := "Temperature"; p_unit := Some "°C";
                supportedTimeSteps := Some ["instantane"; "quartHeure"] |}) ].

(** The history limits of the specification's scenario: one day of
    instantaneous samples, thirty days of hourly ones, no limit
    otherwise. *)
Definition sampleMaxHistoryDays (timeStep : string) : option Z :=
  if String.eqb timeStep "instantane" then Some 1
  else if String.eqb timeStep "heure" then Some 30
  else None.

(** Two stations whose channels are all in service. *)
Definition inService (code : string) : string * StationVariable :=
  (code, {| label := code; code_iso := toUpperCase code; en_service := true |}).

Definition stationA : StationInfo :=
  {| station_id := "A"; station_name := "Station_A";
     variables := [inService "pm25"; inService "pm10"; inService "co2";
                   inService "temp"] |}.

Definition stationB : StationInfo :=
  {| station_id := "B"; station_name := "Station_B";
     variables := [inService "pm25"; inService "pm10"; inService "co2";
                   inService "temp"] |}.

Definition sample (v : float) : HistoricalDataPoint :=
  {| dp_timestamp := RString "2024-01-01T00:00:00Z";
     dp_value := Some v; dp_unit := "µg/m³" |}.

Definition missingSample : HistoricalDataPoint :=
  {| dp_timestamp := RString "2024-01-01T00:00:00Z";
     dp_value := None; dp_unit := "µg/m³" |}.

Definition seriesOfA : list HistoricalDataPoint :=
  [sample 10; sample 20; sample 30].

Definition seriesOfB : list HistoricalDataPoint := [sample 1].

(** A browser whose local time is UTC. *)
Definition utc (ms : Z) : Z := ms.

Definition last24h : TimeRange :=
  {| type := preset_t; preset := Some P24h; custom := None |}.

Definition last7d : TimeRange :=
  {| type := preset_t; preset := Some P7d; custom := None |}.

Definition answerOfA : LoadOutcome := LoadFulfilled (fun _ => seriesOfA).

(** Station A is selected and its initial load is dispatched at the next
    animation frame. *)
Definition openOnA : list (Z * Event) :=
  [(0, PropsChange true (Some stationA)); (16, AnimationFrame)].

(** The load of station A, as it is suspended after [openOnA]. *)
Definition loadOfA : LoadCall :=
  {| load_station := stationA;
     load_pollutants := ["pm25"];
     load_timeRange := last24h;
     load_timeStep := "heure";
     load_startDate := 16 - 24 * 60 * 60 * 1000;
     load_endDate := 16 |}.

(** Station B is selected while the load of station A is suspended. *)
Definition thenSelectB : list (Z * Event) :=
  (openOnA ++ [(100, PropsChange true (Some stationB))])%list.

(** On station B the seven-day range is chosen, the load of station A
    settles, and the seven-day range is chosen again. *)
Definition sevenDaysTwice : list (Z * Event) :=
  (thenSelectB ++
   [(150, TimeRangeChange false last7d);
    (200, LoadSettles 0 answerOfA);
    (250, TimeRangeChange false last7d)])%list.

(** Station A is loaded and shown. *)
Definition readyOnA : list (Z * Event) :=
  (openOnA ++ [(200, LoadSettles 0 answerOfA)])%list.

(** A reload of station A, for the seven-day range, is rejected. *)
Definition reloadRejected : list (Z * Event) :=
  (readyOnA ++
   [(300, TimeRangeChange false last7d);
    (400, LoadSettles 0 (LoadRejected "HTTP 500"))])%list.

(** PM10 is switched on and, before its fetch settles, off again. *)
Definition pm10OnThenOff : list (Z * Event) :=
  (readyOnA ++ [(300, PollutantToggle "pm10"); (310, PollutantToggle "pm10")])%list.

(** The temperature channel is switched on at the hourly step. *)
Definition temperatureOn : list (Z * Event) :=
  (readyOnA ++ [(300, PollutantToggle "temp")])%list.

(** The reload of station A for the seven-day range, as it is suspended
    in [reloadRejected]. *)
Definition reloadOfA : LoadCall :=
  {| load_station := stationA;
     load_pollutants := ["pm25"];
     load_timeRange := last7d;
     load_timeStep := "heure";
     load_startDate := 300 - 7 * 24 * 60 * 60 * 1000;
     load_endDate := 300 |}.

(** Station A is shown and the seven-day reload is suspended. *)
Definition reloading : list (Z * Event) :=
  (readyOnA ++ [(300, TimeRangeChange false last7d)])%list.

Definition sampleSensors : list ModuleAirService.ModuleAirSensorConfig :=
  [ {| ModuleAirService.cfg_sensorId := "A";
       ModuleAirService.token := "secret";
       ModuleAirService.campagne := "2024" |} ].

(** [parseFloat] on the values of the examples: a number is itself. *)
Definition sampleParseFloat (v : RawValue) : float :=
  match v with
  | RNumber f => f
  | _ => PrimFloat.nan
  end.

(** A response with one reading, one [null] reading, one ["-1"] reading,
    and one reading that is absent. *)
Definition sampleResponse : list ModuleAirService.JsonPoint :=
  [ ModuleAirService.PointObject
      [("time", RString "2024-01-01T00:00:00Z"); ("PM25", RNumber 12%float)];
    ModuleAirService.PointObject
      [("time", RString "2024-01-01T01:00:00Z"); ("PM25", RNull)];
    ModuleAirService.PointObject
      [("time", RString "2024-01-01T02:00:00Z"); ("PM25", RString "-1")];
    ModuleAirService.PointObject
      [("time", RString "2024-01-01T03:00:00Z")] ].

Definition sampleMakeRequest (request : ModuleAirService.Request)
    : Completion ModuleAirService.Json :=
  Normal (ModuleAirService.JArray sampleResponse).

Definition failingMakeRequest (request : ModuleAirService.Request)
    : Completion ModuleAirService.Json :=
  Throw "NetworkError".

Definition paramsOfA : FetchParams :=
  {| sensorId := "A"; pollutant := "pm25"; fp_timeStep := "heure";
     fp_startDate := 0; fp_endDate := 3600000 |}.

(** Station A is shown with its seven-day series, then the instantaneous
    step is chosen, which the policy corrects. *)
Definition correctedOnA : list (Z * Event) :=
  (readyOnA ++
   [(300, TimeRangeChange false last7d);
    (400, LoadSettles 0 answerOfA);
    (500, TimeStepChange false "instantane")])%list.

(** PM10 is switched on at station A and its fetch is pending. *)
Definition pm10Pending : list (Z * Event) :=
  (readyOnA ++ [(300, PollutantToggle "pm10")])%list.

Definition fetchOfPm10 : FetchParams :=
  {| sensorId := "A"; pollutant := "pm10"; fp_timeStep := "heure";
     fp_startDate := 300 - 24 * 60 * 60 * 1000; fp_endDate := 300 |}.

(** The fetch of PM10 is pending when a reload is rejected. *)
Definition rejectedWithPm10Pending : list (Z * Event) :=
  (pm10Pending ++
   [(400, TimeRangeChange false last7d);
    (500, LoadSettles 0 (LoadRejected "HTTP 500"))])%list.

(** PM2.5, the only selected pollutant, is switched off. *)
Definition nothingSelected : list (Z * Event) :=
  (readyOnA ++ [(300, PollutantToggle "pm25")])%list.

(** A response whose second element is [null]. *)
Definition responseWithNull : list ModuleAirService.JsonPoint :=
  [ ModuleAirService.PointObject
      [("time", RString "2024-01-01T00:00:00Z"); ("PM25", RNumber 12%float)];
    ModuleAirService.PointNull ].

Definition nullMakeRequest (request : ModuleAirService.Request)
    : Completion ModuleAirService.Json :=
  Normal (ModuleAirService.JArray responseWithNull).

Definition sensorA : ModuleAirService.ModuleAirSensorConfig :=
  {| ModuleAirService.cfg_sensorId := "A";
     ModuleAirService.token := "secret";
     ModuleAirService.campagne := "2024" |}.

Definition sensorB : ModuleAirService.ModuleAirSensorConfig :=
  {| ModuleAirService.cfg_sensorId := "B";
     ModuleAirService.token := "secret";
     ModuleAirService.campagne := "2024" |}.

(** The metadata of sensor A: located, connected, without PM2.5 reading. *)
Definition metadataOfA : ModuleAirService.JsonPoint :=
  ModuleAirService.PointObject
    [ ("sensorId", RString "A");
      ("latitude", RNumber 45%float);
      ("longitude", RNumber 5%float);
      ("PM25", RString "-1");
      ("connected", RBool true);
      ("time", RString "2024-01-01T00:00:00Z");
      ("cp", RString "38000") ].

(** The metadata request answers for sensor A and throws for any other. *)
Definition sampleRequestMetadata (config : ModuleAirService.ModuleAirSensorConfig)
    : Completion ModuleAirService.Json :=
  if String.eqb (ModuleAirService.cfg_sensorId config) "A"
  then Normal (ModuleAirService.JArray [metadataOfA])
  else Throw "NetworkError".

Definition sampleToText (v : RawValue) : string :=
  match v with
  | RString s => s
  | _ => "undefined"
  end.

Definition noThresholds (code : string) : option unit := None.

Definition anyLevel (value : float) (thresholds : unit) : string := "bon".

(** A station whose variables are those the service gives for a site. *)
Definition siteA : StationInfo :=
  {| station_id := "A"; station_name := "Station_A";
     variables := ModuleAirService.fetchSiteVariables samplePollutants "A" |}.

Definition dateOf (instant : Z) : string := "01/01/2024".

(** An engine that accepts 65535 arguments in a call. *)
Definition sampleArgumentsLimit : N := 65535.

Section Panel.

(** [pollutants] of [constants/pollutants], in [Object.entries] order. *)
Variable pollutants : list (string * PollutantConfig).

(** [getMaxHistoryDays], imported from
    [controls/HistoricalTimeRangeSelector]: the maximum retrievable
    history of a time step, a whole number of days, or [null] ([None])
    when unbounded. *)
Variable getMaxHistoryDays : string -> option Z.

(** The [initialPollutant] prop. *)
Variable initialPollutant : string.

(** The instant of a local wall-clock time, for the date-time strings
    without offset that [getDateRange] parses. *)
Variable localTimeToUtc : Z -> Z.

(** [pollutants[code]]. *)
Definition pollutantConfig (code : string) : option PollutantConfig :=
  lookupPollutant pollutants code.

(** ** Range/step policy *)

Definition getSupportedTimeStepsForPollutants
    (pollutantCodes : list string) : list string :=
  match pollutantCodes with
  | [] => MODULEAIR_TIMESTEP_OPTIONS
  | _ =>
    fold_left
      (fun acc code =>
         match pollutantConfig code with
         | Some cfg =>
           match supportedTimeSteps cfg with
           | Some steps =>
             if (0 <? length steps)%nat
             then List.filter (fun timeStep => includes steps timeStep) acc
             else acc
           | None => acc
           end
         | None => acc
         end)
      pollutantCodes MODULEAIR_TIMESTEP_OPTIONS
  end.

Definition getInitialTimeStepForPollutants
    (pollutantCodes : list string) (fallback : string) : string :=
  let supported := getSupportedTimeStepsForPollutants pollutantCodes in
  match supported with
  | [] => fallback
  | first :: _ => if includes supported fallback then fallback else first
  end.

(** [!maxDays]: [null] and [0] are falsy. *)
Definition maxDaysOf (timeStep : string) : option Z :=
  match getMaxHistoryDays timeStep with
  | Some maxDays => if maxDays =? 0 then None else Some maxDays
  | None => None
  end.

Definition adjustTimeRangeIfNeeded
    (now : Z) (timeRange : TimeRange) (timeStep : string) : Adjusted :=
  match maxDaysOf timeStep with
  | None => {| adjustedRange := timeRange; wasAdjusted := false |}
  | Some maxDays =>
    match type timeRange, preset timeRange, custom timeRange with
    | preset_t, Some p, _ =>
      if Qgtb (presetDays p) (inject_Z maxDays) then
        let maxStartDate := now - maxDays * 24 * 60 * 60 * 1000 in
        {| adjustedRange :=
             {| type := custom_t; preset := None;
                custom := Some {| startDate := isoDate maxStartDate;
                                  endDate := isoDate now |} |};
           wasAdjusted := true |}
      else {| adjustedRange := timeRange; wasAdjusted := false |}
    | custom_t, _, Some c =>
      let daysDiff :=
        ceilDiv (getTime (endDate c) - getTime (startDate c))
                (1000 * 60 * 60 * 24) in
      if maxDays <? daysDiff then
        let maxStartDate := getTime (endDate c) - maxDays * 24 * 60 * 60 * 1000 in
        {| adjustedRange :=
             {| type := custom_t; preset := None;
                custom := Some {| startDate := isoDate maxStartDate;
                                  endDate := endDate c |} |};
           wasAdjusted := true |}
      else {| adjustedRange := timeRange; wasAdjusted := false |}
    | _, _, _ => {| adjustedRange := timeRange; wasAdjusted := false |}
    end
  end.

(** [isTimeStepValidForCurrentRange], with the current range as an
    argument. *)
Definition isTimeStepValidForRange
    (timeRange : TimeRange) (timeStep : string) : bool :=
  match maxDaysOf timeStep with
  | None => true
  | Some maxDays =>
    match type timeRange, preset timeRange, custom timeRange with
    | preset_t, Some p, _ => Qle_bool (presetDays p) (inject_Z maxDays)
    | custom_t, _, Some c =>
      ceilDiv (getTime (endDate c) - getTime (startDate c))
              (1000 * 60 * 60 * 24) <=? maxDays
    | _, _, _ => true
    end
  end.

(** ** The view controller *)

Definition isPollutantAvailable (station : option StationInfo)
    (pollutantCode : string) : bool :=
  match station with
  | Some st =>
    existsb (fun e => String.eqb (fst e) pollutantCode && en_service (snd e))
            (variables st)
  | None => false
  end.

Definition getAvailablePollutants (station : option StationInfo) : list string :=
  match station with
  | None => []
  | Some _ =>
    map fst (List.filter (fun e => isPollutantAvailable station (fst e)) pollutants)
  end.

(** The pair [(startDate, endDate)] of instants. *)
Definition getDateRange (now : Z) (timeRange : TimeRange) : Z * Z :=
  match type timeRange, custom timeRange with
  | custom_t, Some c =>
    (localTimeToUtc (getTime (startDate c)),
     localTimeToUtc (getTime (endDate c) + (MS_PER_DAY - 1)))
  | _, _ =>
    let startDate :=
      match preset timeRange with
      | Some P3h => now - 3 * 60 * 60 * 1000
      | Some P24h => now - 24 * 60 * 60 * 1000
      | Some P7d => now - 7 * 24 * 60 * 60 * 1000
      | Some P30d => now - 30 * 24 * 60 * 60 * 1000
      | None => now - 24 * 60 * 60 * 1000
      end in
    (startDate, now)
  end.

Definition loadErrorMessage : string :=
  "Erreur lors du chargement des données historiques".

(** [newHistoricalData] once the loop over [pollutants] has run. *)
Definition newHistoricalData (pollutantCodes : list string)
    (responses : string -> list HistoricalDataPoint)
    : gmap string (list HistoricalDataPoint) :=
  fold_left (fun acc code => <[code := responses code]> acc) pollutantCodes ∅.

(** The continuation of [loadHistoricalData] after its last [await]: the
    end of the [try] block, or the [catch] block. *)
Definition loadContinuation (call : LoadCall) (outcome : LoadOutcome)
    (w : Panel) : Panel :=
  match outcome with
  | LoadFulfilled responses =>
    setLatch false
      (setState (fun prev =>
         withLoading false (error prev)
           (withHistoricalData
              (newHistoricalData (load_pollutants call) responses) prev)) w)
  | LoadRejected _ =>
    setLatch false
      (setState (fun prev => withLoading false (Some loadErrorMessage) prev) w)
  end.

(** [loadHistoricalData], up to its first [await]; with no pollutant the
    loop body never runs and the call completes at once. *)
Definition loadHistoricalData (now : Z) (station : StationInfo)
    (pollutantCodes : list string) (range : TimeRange) (step : string)
    (w : Panel) : Panel :=
  let w1 := setState (fun prev => withLoading true None prev) w in
  let dates := getDateRange now range in
  let call := {| load_station := station; load_pollutants := pollutantCodes;
                 load_timeRange := range; load_timeStep := step;
                 load_startDate := fst dates; load_endDate := snd dates |} in
  match pollutantCodes with
  | [] => loadContinuation call (LoadFulfilled (fun _ => [])) w1
  | _ => pushLoad call w1
  end.

Definition presetRange (p : Preset) : TimeRange :=
  {| type := preset_t; preset := Some p; custom := None |}.

Definition rangeDescriptor (range : TimeRange) : string :=
  match type range, preset range with
  | preset_t, Some p => presetName p
  | preset_t, None => "undefined"
  | custom_t, _ => "custom"
  end.

Definition makeLoadKey (stationId : string) (pollutantCodes : list string)
    (range : TimeRange) (step : string) : string :=
  stationId ++ "-" ++ join "," pollutantCodes ++ "-" ++ rangeDescriptor range
            ++ "-" ++ step.

Definition refIs (r : option string) (x : string) : bool :=
  match r with Some y => String.eqb y x | None => false end.

(** [selectedPollutants] of the station effect: the initial pollutant
    when the station has it, else the first available one, else none. *)
Definition initialSelection (station : StationInfo) : list string :=
  let availablePollutants := getAvailablePollutants (Some station) in
  if includes availablePollutants initialPollutant
  then [initialPollutant]
  else match availablePollutants with
       | first :: _ => [first]
       | [] => []
       end.

(** The effect on [isOpen], [selectedStation], [initialPollutant]. *)
Definition stationEffect (w : Panel) : Panel :=
  if negb (props_isOpen w) then
    setLatch false
      (setRefs None None
         (setState (fun prev =>
            withLoading false None
              (withHistoricalData ∅ (withSession false None prev))) w))
  else
    match props_selectedStation w with
    | None => w
    | Some station =>
      let currentStationId := station_id station in
      let isNewStation := negb (refIs (stationIdRef w) currentStationId) in
      if isNewStation then
        let selected := initialSelection station in
        let nextTimeStep :=
          getInitialTimeStepForPollutants selected
            (timeStep (chartControls (state w))) in
        let initialTimeRange := presetRange P24h in
        let w1 :=
          setState (fun prev =>
            withLoading false None
              (withHistoricalData ∅
                 (withControls
                    {| selectedPollutants := selected;
                       timeStep := nextTimeStep;
                       timeRange := initialTimeRange |}
                    (infoMessage prev)
                    (withSession (props_isOpen w) (Some station) prev))))
            (setRefs (initialLoadDoneRef w) (Some currentStationId) w) in
        let w2 := setRefs None (stationIdRef w1) w1 in
        if (0 <? length selected)%nat && negb (loadingRef w2) then
          let key := makeLoadKey (station_id station) selected
                                 initialTimeRange nextTimeStep in
          if negb (refIs (initialLoadDoneRef w2) key) then
            pushFrame {| loadKey := key; frame_station := station;
                         frame_pollutants := selected;
                         frame_timeRange := initialTimeRange;
                         frame_timeStep := nextTimeStep |} w2
          else w2
        else w2
      else
        setState (withSession (props_isOpen w) (Some station)) w
    end.

(** The callback of [requestAnimationFrame]. *)
Definition runFrame (now : Z) (cb : FrameCallback) (w : Panel) : Panel :=
  if negb (loadingRef w) && negb (refIs (initialLoadDoneRef w) (loadKey cb)) then
    loadHistoricalData now (frame_station cb) (frame_pollutants cb)
      (frame_timeRange cb) (frame_timeStep cb)
      (setRefs (Some (loadKey cb)) (stationIdRef w) (setLatch true w))
  else w.

Definition toggleSelection (selected : list string) (code : string) : list string :=
  if includes selected code
  then List.filter (fun p => negb (String.eqb p code)) selected
  else selected ++ [code].

Definition handlePollutantToggle (now : Z) (code : string) (w : Panel) : Panel :=
  let w1 :=
    setState (fun prev =>
      withControls
        {| selectedPollutants :=
             toggleSelection (selectedPollutants (chartControls prev)) code;
           timeRange := timeRange (chartControls prev);
           timeStep := timeStep (chartControls prev) |}
        (infoMessage prev) prev) w in
  match props_selectedStation w, historicalData (state w) !! code with
  | Some station, None =>
    let dates := getDateRange now (timeRange (chartControls (state w))) in
    pushFetch {| sensorId := station_id station;
                 pollutant := code;
                 fp_timeStep := timeStep (chartControls (state w));
                 fp_startDate := fst dates;
                 fp_endDate := snd dates |} w1
  | _, _ => w1
  end.

(** The [.then] callback of the fetch started by [handlePollutantToggle];
    the promise chain has no rejection handler. *)
Definition fetchContinuation (params : FetchParams) (outcome : FetchOutcome)
    (w : Panel) : Panel :=
  match outcome with
  | FetchFulfilled data =>
    setState (fun prev =>
      withHistoricalData (<[pollutant params := data]> (historicalData prev)) prev) w
  | FetchRejected err =>
    setPending (frames w) (loads w) (fetches w) (infoTimers w)
               (unhandledRejections w ++ [err]) w
  end.

Definition adjustedMessage (maxDays : Z) : string :=
  "La période a été automatiquement ajustée à " ++ pretty maxDays
  ++ " jours maximum pour le pas de temps sélectionné.".

(** The updater the two change handlers pass to [setState]: it starts the
    timer of the info message, calls [loadHistoricalData], and returns
    the state with the new controls.  Run in a render, its result is the
    state on which the [setState] calls of [loadHistoricalData] then act.
    Run at the call, those [setState] calls are queued first and the
    result of the updater, computed from the state before them, is queued
    last and replaces what they made. *)
Definition applyControls (now : Z) (atCall : bool) (adjusted : Adjusted)
    (step : string) (w : Panel) : Panel :=
  let prev := state w in
  let notice :=
    if wasAdjusted adjusted
    then adjustedMessage <$> maxDaysOf step
    else None in
  let result :=
    withControls
      {| selectedPollutants := selectedPollutants (chartControls prev);
         timeRange := adjustedRange adjusted;
         timeStep := step |}
      notice prev in
  let w1 := match notice with Some _ => pushTimer w | None => w end in
  if atCall then
    let w2 :=
      match props_selectedStation w with
      | Some station =>
        loadHistoricalData now station (selectedPollutants (chartControls prev))
          (adjustedRange adjusted) step w1
      | None => w1
      end in
    setState (fun _ => result) w2
  else
    let w2 := setState (fun _ => result) w1 in
    match props_selectedStation w with
    | Some station =>
      loadHistoricalData now station (selectedPollutants (chartControls prev))
        (adjustedRange adjusted) step w2
    | None => w2
    end.

Definition handleTimeRangeChange (now : Z) (atCall : bool) (range : TimeRange)
    (w : Panel) : Panel :=
  let step := timeStep (chartControls (state w)) in
  applyControls now atCall (adjustTimeRangeIfNeeded now range step) step w.

Definition supportedTimeSteps_memo (w : Panel) : list string :=
  getSupportedTimeStepsForPollutants (selectedPollutants (chartControls (state w))).

Definition handleTimeStepChange (now : Z) (atCall : bool) (step : string)
    (w : Panel) : Panel :=
  if negb (includes (supportedTimeSteps_memo w) step) then w
  else
    applyControls now atCall
      (adjustTimeRangeIfNeeded now (timeRange (chartControls (state w))) step)
      step w.

(** The callback of the five-second timer. *)
Definition clearInfoMessage (w : Panel) : Panel :=
  match infoTimers w with
  | O => w
  | S n =>
    setState (fun current =>
      withControls (chartControls current) None current)
      (setPending (frames w) (loads w) (fetches w) n (unhandledRejections w) w)
  end.

(** ** Statistics *)

(** [v !== null && !isNaN(v)]. *)
Definition isNumeric (v : option float) : bool :=
  match v with
  | Some f => negb (PrimFloat.is_nan f)
  | None => false
  end.

(** The number a value stands for in arithmetic. *)
Definition toNumber (v : option float) : float :=
  match v with Some f => f | None => 0%float end.

(** One step of [Math.max]. *)
Definition maxStep (highest number : float) : float :=
  if PrimFloat.is_nan highest then highest
  else if PrimFloat.is_nan number then PrimFloat.nan
  else match PrimFloat.classify number, PrimFloat.classify highest with
       | PZero, NZero => number
       | _, _ => if PrimFloat.ltb highest number then number else highest
       end.

(** One step of [Math.min]. *)
Definition minStep (lowest number : float) : float :=
  if PrimFloat.is_nan lowest then lowest
  else if PrimFloat.is_nan number then PrimFloat.nan
  else match PrimFloat.classify number, PrimFloat.classify lowest with
       | NZero, PZero => number
       | _, _ => if PrimFloat.ltb number lowest then number else lowest
       end.

Definition mathMax (values : list (option float)) : float :=
  fold_left (fun highest v => maxStep highest (toNumber v)) values
            PrimFloat.neg_infinity.

Definition mathMin (values : list (option float)) : float :=
  fold_left (fun lowest v => minStep lowest (toNumber v)) values
            PrimFloat.infinity.

(** [a || b] on strings. *)
Definition orElse (a b : string) : string :=
  if String.eqb a "" then b else a.

Definition numberOfNat (n : nat) : float :=
  PrimFloat.of_uint63 (Uint63.of_Z (Z.of_nat n)).

(** The number of arguments beyond which the engine refuses a call with
    a [RangeError]; the language sets no such bound, every engine has
    one. *)
Variable argumentsLimit : N.

(** The [stats] memo, which every render of a panel that shows a station
    runs.  [Math.max(...values)] is a call with one argument for each
    value. *)
Definition stats (st : SidePanelState) : Completion (option Stats) :=
  match selectedPollutants (chartControls st) with
  | [] => Normal None
  | selectedPollutant :: _ =>
    if String.eqb selectedPollutant "" then Normal None
    else
      match historicalData st !! selectedPollutant with
      | None => Normal None
      | Some data =>
        match data with
        | [] => Normal None
        | first :: _ =>
          let values := List.filter isNumeric (map dp_value data) in
          match values with
          | [] => Normal None
          | _ =>
            let sum :=
              fold_left (fun a b => PrimFloat.add a (toNumber b)) values 0%float in
            let avg := PrimFloat.div sum (numberOfNat (length values)) in
            if (argumentsLimit <? N.of_nat (length values))%N
            then Throw "RangeError"
            else
              Normal (Some
                {| s_avg := avg;
                   s_max := mathMax values;
                   s_min := mathMin values;
                   s_unit :=
                     orElse (dp_unit first)
                       (orElse
                          (default "" (pollutantConfig selectedPollutant ≫= p_unit))
                          "µg/m³") |})
          end
        end
      end
  end.

(** Removal of the element at an index. *)
Definition removeAt {A} (i : nat) (l : list A) : list A :=
  take i l ++ drop (S i) l.

(** Whether a render with these props gets past the early return
    [if (!isOpen || !selectedStation) return null] and so calls the
    [stats] memo, one hook more than a render that returns there. *)
Definition shown (o : bool) (station : option StationInfo) : bool :=
  o && bool_decide (is_Some station).

(** A change of the props renders the component and then runs the station
    effect.  The first one is the mount.  After it, a render whose hooks
    are not those of the last render throws: React unmounts the component
    and the effect does not run.  The work an unmounted component had
    scheduled still runs; React ignores the [setState] calls it makes, so
    from then on [state] is what those calls would have made of it, and
    nothing renders it. *)
Definition changeProps (o : bool) (station : option StationInfo) (w : Panel)
    : Panel :=
  match life w with
  | BeforeMount => stationEffect (setLife Mounted (setProps o station w))
  | Mounted =>
    if Bool.eqb (shown o station)
                (shown (props_isOpen w) (props_selectedStation w))
    then stationEffect (setProps o station w)
    else setLife Unmounted w
  | Unmounted => w
  end.

Definition isMounted (w : Panel) : bool :=
  match life w with Mounted => true | _ => false end.

(** Whether the render of the panel, as it is, throws: the [stats] memo
    of a panel that shows a station does, on more values than the engine
    accepts as arguments. *)
Definition renderThrows (w : Panel) : bool :=
  isMounted w
  && shown (props_isOpen w) (props_selectedStation w)
  && match stats (state w) with Throw _ => true | Normal _ => false end.

(** The render that follows an event: when it throws, React unmounts the
    component. *)
Definition rerender (w : Panel) : Panel :=
  setLife (if renderThrows w then Unmounted else life w) w.

(** What an event runs: the station effect, a callback, a continuation
    or a handler. *)
Definition handle (now : Z) (e : Event) (w : Panel) : Panel :=
  match e with
  | PropsChange o station => changeProps o station w
  | AnimationFrame =>
    match frames w with
    | cb :: rest =>
      runFrame now cb
        (setPending rest (loads w) (fetches w) (infoTimers w)
                    (unhandledRejections w) w)
    | [] => w
    end
  | LoadSettles i outcome =>
    match loads w !! i with
    | Some call =>
      loadContinuation call outcome
        (setPending (frames w) (removeAt i (loads w)) (fetches w)
                    (infoTimers w) (unhandledRejections w) w)
    | None => w
    end
  | FetchSettles i outcome =>
    match fetches w !! i with
    | Some params =>
      fetchContinuation params outcome
        (setPending (frames w) (loads w) (removeAt i (fetches w))
                    (infoTimers w) (unhandledRejections w) w)
    | None => w
    end
  | PollutantToggle code => handlePollutantToggle now code w
  | TimeRangeChange atCall range => handleTimeRangeChange now atCall range w
  | TimeStepChange atCall s => handleTimeStepChange now atCall s w
  | InfoTimeout => clearInfoMessage w
  end.

(** The panel once an event has been handled and the component rendered
    again. *)
Definition step (now : Z) (e : Event) (w : Panel) : Panel :=
  rerender (handle now e w).

(** A run: events with the instant at which each is handled. *)
Fixpoint run (events : list (Z * Event)) (w : Panel) : Panel :=
  match events with
  | [] => w
  | (now, e) :: rest => run rest (step now e w)
  end.

(** The panel before its first render: the initial value of [useState]
    and of the refs, nothing scheduled.  The first [PropsChange] mounts
    it, and the station effect runs for the first time. *)
Definition initialPanel : Panel :=
  {| life := BeforeMount;
     props_isOpen := false;
     props_selectedStation := None;
     state :=
       {| isOpen := false;
          selectedStation := None;
          chartControls :=
            {| selectedPollutants := [initialPollutant];
               timeRange := presetRange P24h;
               timeStep :=
                 getInitialTimeStepForPollutants
                   (if String.eqb initialPollutant "" then [] else [initialPollutant])
                   "heure" |};
          historicalData := ∅;
          loading := false;
          error := None;
          infoMessage := None |};
     isLoading := false;
     loadingRef := false;
     initialLoadDoneRef := None;
     stationIdRef := None;
     frames := [];
     loads := [];
     fetches := [];
     infoTimers := 0;
     unhandledRejections := [] |}.

(** ** What the rendered panel lets the user do

    The component renders nothing unless mounted and open with a
    station; the chart and its controls are replaced by a spinner while
    [state.loading] and by the error notice while [state.error] is set. *)
Definition controlsRendered (w : Panel) : bool :=
  isMounted w
  && props_isOpen w
  && bool_decide (is_Some (props_selectedStation w))
  && negb (loading (state w))
  && bool_decide (error (state w) = None).

(** Whether the environment can deliver an event to the panel: a control
    must be rendered and not disabled, and asynchronous work must have
    been scheduled. *)
Definition enabled (e : Event) (w : Panel) : bool :=
  match e with
  | PropsChange _ _ => true
  | AnimationFrame => bool_decide (frames w <> [])
  | LoadSettles i _ => bool_decide (is_Some (loads w !! i))
  | FetchSettles i _ => bool_decide (is_Some (fetches w !! i))
  | PollutantToggle code =>
    controlsRendered w
    && includes (map fst pollutants) code
    && isPollutantAvailable (props_selectedStation w) code
  | TimeRangeChange _ _ => controlsRendered w
  | TimeStepChange _ s =>
    controlsRendered w
    && includes MODULEAIR_TIMESTEP_OPTIONS s
    && includes (supportedTimeSteps_memo w) s
    && isTimeStepValidForRange (timeRange (chartControls (state w))) s
  | InfoTimeout => bool_decide (infoTimers w <> O)
  end.

Fixpoint feasible (events : list (Z * Event)) (w : Panel) : bool :=
  match events with
  | [] => true
  | (now, e) :: rest => enabled e w && feasible rest (step now e w)
  end.

(** ** The age of the last emission *)

(** [Date.prototype.toLocaleDateString], on an instant. *)
Variable toLocaleDateString : Z -> string.

(** [`Il y a ${n} unit${n > 1 ? 's' : ''}`]. *)
Definition ilYA (n : Z) (unit : string) : string :=
  "Il y a " ++ pretty n ++ " " ++ unit ++ (if 1 <? n then "s" else "").

(** [formatLastSeen], for a whole number of seconds. *)
Definition formatLastSeen (now : Z) (lastSeenSec : option Z) : option string :=
  match lastSeenSec with
  | None => None
  | Some sec =>
    let lastSeenDate := now - sec * 1000 in
    let diffInMinutes := sec / 60 in
    let diffInHours := diffInMinutes / 60 in
    let diffInDays := diffInHours / 24 in
    Some
      (if diffInMinutes <? 1 then "Il y a moins d'une minute"
       else if diffInMinutes <? 60 then ilYA diffInMinutes "minute"
       else if diffInHours <? 24 then ilYA diffInHours "heure"
       else if diffInDays <? 7 then ilYA diffInDays "jour"
       else "Dernière émission : " ++ toLocaleDateString lastSeenDate)
  end.

(** ** Notions the specification uses *)

(** Whether the declaration of a pollutant admits a time step.  A code
    with no entry, or an entry with no or an empty [supportedTimeSteps],
    declares nothing and admits every step. *)
Definition admitsStep (code timeStep : string) : bool :=
  match pollutantConfig code with
  | Some cfg =>
    match supportedTimeSteps cfg with
    | Some steps =>
      if (0 <? length steps)%nat then includes steps timeStep else true
    | None => true
    end
  | None => true
  end.

(** The intersection of the declared sets of a selection, starting from
    the full enumerated set. *)
Definition declaredIntersection (pollutantCodes : list string) : list string :=
  List.filter (fun timeStep => forallb (fun code => admitsStep code timeStep) pollutantCodes)
              MODULEAIR_TIMESTEP_OPTIONS.

(** [supportedSteps] as the specification words it: the intersection, and
    the full enumerated set when the intersection is empty. *)
Definition supportedSteps_spec (pollutantCodes : list string) : list string :=
  match declaredIntersection pollutantCodes with
  | [] => MODULEAIR_TIMESTEP_OPTIONS
  | steps => steps
  end.

(** The [ChartControls] invariant: the active step is in the supported
    set of the selection, and the active range fits the history the
    active step retains. *)
Definition stepSupported (c : ChartControls) : bool :=
  includes (getSupportedTimeStepsForPollutants (selectedPollutants c)) (timeStep c).

Definition rangeFitsStep (c : ChartControls) : bool :=
  isTimeStepValidForRange (timeRange c) (timeStep c).

Definition controlsInvariant (c : ChartControls) : bool :=
  stepSupported c && rangeFitsStep c.

(** The request key of a suspended load and of a pending incremental
    fetch, in the format of [loadKey]. *)
Definition requestKey (call : LoadCall) : string :=
  makeLoadKey (station_id (load_station call)) (load_pollutants call)
              (load_timeRange call) (load_timeStep call).

(** The events of a session in which the panel stays open and the user
    changes neither the time range nor the time step. *)
Definition keepsLatch (e : Event) : bool :=
  match e with
  | PropsChange o _ => o
  | TimeRangeChange _ _ | TimeStepChange _ _ => false
  | _ => true
  end.

(** The three numbers of the statistics. *)
Definition statsNumbers (st : SidePanelState)
    : Completion (option (float * float * float)) :=
  match stats st with
  | Normal s => Normal ((fun s => (s_avg s, s_max s, s_min s)) <$> s)
  | Throw err => Throw err
  end.

(** A sample is missing when its value is [null] or is not a number. *)
Definition isMissing (d : HistoricalDataPoint) : bool :=
  match dp_value d with
  | None => true
  | Some v => PrimFloat.is_nan v
  end.

(** The values of the samples that are not missing, in their order. *)
Definition presentValues (data : list HistoricalDataPoint) : list float :=
  flat_map (fun d => match dp_value d with
                     | Some v => if PrimFloat.is_nan v then [] else [v]
                     | None => []
                     end) data.

(** The state with another series for one pollutant. *)
Definition withSeries (code : string) (data : list HistoricalDataPoint)
    (st : SidePanelState) : SidePanelState :=
  withHistoricalData (<[code := data]> (historicalData st)) st.

(** The latch and the suspended loads agree: no load is suspended while
    [loadingRef] is clear, exactly one while it is set. *)
Definition latchInvariant (w : Panel) : Prop :=
  (loadingRef w = false /\ loads w = [])
  \/ (loadingRef w = true /\ exists call, loads w = [call]).

(** The flags of a panel agree with the work it has scheduled: the
    spinner and the latch are set only while a load is suspended, the
    [isLoading] state follows the latch, and the notice is shown only
    while one of its timers is pending. *)
Definition flagsInvariant (w : Panel) : Prop :=
  (loading (state w) = true -> loads w <> [])
  /\ (loadingRef w = true -> loads w <> [])
  /\ isLoading w = loadingRef w
  /\ (infoMessage (state w) <> None -> infoTimers w <> 0%nat).

(** A panel takes a station when it is about to be mounted, or is mounted
    and shows one. *)
Definition takesStation (w : Panel) : Prop :=
  life w = BeforeMount
  \/ (life w = Mounted
      /\ shown (props_isOpen w) (props_selectedStation w) = true).

(** The events that come from the rendered controls or from the
    settlement of scheduled work, as opposed to a change of props or an
    animation frame. *)
Definition fromControlsOrSettlement (e : Event) : bool :=
  match e with
  | PropsChange _ _ | AnimationFrame => false
  | _ => true
  end.

(** * Properties *)

(** ** Range/step policy *)

Lemma ceilDiv_days (e s : Z) :
  ceilDiv (getTime e - getTime s) (1000 * 60 * 60 * 24) = e - s.
Proof.
  unfold ceilDiv, getTime, MS_PER_DAY.
  replace (- (e * (24 * 60 * 60 * 1000) - s * (24 * 60 * 60 * 1000)))
    with ((s - e) * (1000 * 60 * 60 * 24)) by lia.
  rewrite Z.div_mul by lia. lia.
Qed.

Lemma isoDate_back (ms k : Z) :
  isoDate (ms - k * 24 * 60 * 60 * 1000) = isoDate ms - k.
Proof.
  unfold isoDate, MS_PER_DAY.
  replace (ms - k * 24 * 60 * 60 * 1000)
    with (ms + (- k) * (24 * 60 * 60 * 1000)) by lia.
  rewrite Z.div_add by lia. lia.
Qed.

Lemma isoDate_getTime (d : Z) : isoDate (getTime d) = d.
Proof. unfold isoDate, getTime, MS_PER_DAY. apply Z.div_mul. lia. Qed.

(** A range the policy corrected spans exactly the maximum history. *)
Lemma corrected_range_fits (maxDays e : Z) :
  (maxDays <? ceilDiv (getTime e - getTime (e - maxDays)) (1000 * 60 * 60 * 24))
  = false.
Proof. rewrite ceilDiv_days. apply Z.ltb_ge. lia. Qed.

(** C7: reconciling the range that [adjustTimeRangeIfNeeded] produced, at
    the same time step and at any later instant, returns that range
    unchanged and reports no correction. *)
Theorem adjustTimeRangeIfNeeded_idempotent
    (now later : Z) (range : TimeRange) (step : string) :
  adjustTimeRangeIfNeeded later
    (adjustedRange (adjustTimeRangeIfNeeded now range step)) step
  = {| adjustedRange := adjustedRange (adjustTimeRangeIfNeeded now range step);
       wasAdjusted := false |}.
Proof.
  unfold adjustTimeRangeIfNeeded.
  destruct (maxDaysOf step) as [maxDays|]; simpl; [|done].
  destruct range as [[] [p|] [c|]]; simpl; try done.
  all: match goal with
       | |- context [Qgtb ?a ?b] => destruct (Qgtb a b) eqn:Hgt
       | |- context [?a <? ?b] => destruct (a <? b) eqn:Hlt
       end; simpl;
    rewrite ?Hgt, ?Hlt, ?isoDate_back, ?isoDate_getTime, ?corrected_range_fits;
    done.
Qed.

(** ** Supported time steps *)

Lemma filter_twice {A} (p q : A -> bool) (l : list A) :
  List.filter q (List.filter p l) = List.filter (fun x => p x && q x) l.
Proof.
  induction l as [|x l IH]; simpl; [done|].
  destruct (p x); simpl; [destruct (q x)|]; by rewrite IH.
Qed.

Lemma filter_all {A} (l : list A) : List.filter (fun _ => true) l = l.
Proof. induction l as [|x l IH]; simpl; by rewrite ?IH. Qed.

(** One round of the [reduce] keeps the steps the pollutant admits. *)
Lemma narrow_by_pollutant (acc : list string) (code : string) :
  match pollutantConfig code with
  | Some cfg =>
    match supportedTimeSteps cfg with
    | Some steps =>
      if (0 <? length steps)%nat
      then List.filter (fun timeStep => includes steps timeStep) acc
      else acc
    | None => acc
    end
  | None => acc
  end = List.filter (admitsStep code) acc.
Proof.
  unfold admitsStep.
  destruct (pollutantConfig code) as [cfg|]; [|by rewrite filter_all].
  destruct (supportedTimeSteps cfg) as [steps|]; [|by rewrite filter_all].
  destruct (0 <? length steps)%nat; [done|by rewrite filter_all].
Qed.

Lemma reduce_is_filter (codes acc : list string) :
  fold_left
    (fun acc code =>
       match pollutantConfig code with
       | Some cfg =>
         match supportedTimeSteps cfg with
         | Some steps =>
           if (0 <? length steps)%nat
           then List.filter (fun timeStep => includes steps timeStep) acc
           else acc
         | None => acc
         end
       | None => acc
       end) codes acc
  = List.filter (fun timeStep => forallb (fun code => admitsStep code timeStep) codes) acc.
Proof.
  revert acc. induction codes as [|code codes IH]; intros acc; simpl.
  - by rewrite filter_all.
  - rewrite IH, narrow_by_pollutant. apply filter_twice.
Qed.

Lemma supported_is_intersection (codes : list string) :
  getSupportedTimeStepsForPollutants codes = declaredIntersection codes.
Proof.
  unfold getSupportedTimeStepsForPollutants, declaredIntersection.
  destruct codes as [|code codes]; [done|].
  apply reduce_is_filter.
Qed.

Lemma includes_In (l : list string) (x : string) :
  includes l x = true <-> In x l.
Proof.
  unfold includes. rewrite existsb_exists. split.
  - intros (y & Hy & Heq). apply String.eqb_eq in Heq. by subst.
  - intros Hx. exists x. split; [done|]. apply String.eqb_refl.
Qed.

(** C4, as the code has it: the supported steps of a selection are the
    enumerated steps, in their order, that the declaration of every
    selected pollutant admits (a pollutant that declares no step, or no
    non-empty list, admits them all); the empty selection yields the full
    enumerated set; and the result is empty exactly when every enumerated
    step is refused by some selected pollutant: there is no fallback to
    the full set. *)
Theorem supported_steps_are_the_declared_intersection (codes : list string) :
  getSupportedTimeStepsForPollutants codes
  = List.filter (fun timeStep => forallb (fun code => admitsStep code timeStep) codes)
                MODULEAIR_TIMESTEP_OPTIONS
  /\ getSupportedTimeStepsForPollutants [] = MODULEAIR_TIMESTEP_OPTIONS
  /\ (getSupportedTimeStepsForPollutants codes = [] <->
      forall timeStep, In timeStep MODULEAIR_TIMESTEP_OPTIONS ->
        exists code, In code codes /\ admitsStep code timeStep = false).
Proof.
  split; [apply supported_is_intersection|]. split; [done|].
  rewrite supported_is_intersection. unfold declaredIntersection. split.
  - intros Hnil timeStep Hin.
    destruct (forallb (fun code => admitsStep code timeStep) codes) eqn:Hall.
    + assert (In timeStep []) as [].
      rewrite <- Hnil. apply filter_In. by split.
    + apply not_true_iff_false in Hall. rewrite forallb_forall in Hall.
      destruct (existsb (fun code => negb (admitsStep code timeStep)) codes) eqn:Hex.
      * apply existsb_exists in Hex as (code & Hcode & Hneg).
        exists code. split; [done|]. by apply negb_true_iff.
      * exfalso. apply Hall. intros code Hcode.
        apply not_true_iff_false in Hex. rewrite existsb_exists in Hex.
        destruct (admitsStep code timeStep) eqn:Hadm; [done|].
        exfalso. apply Hex. exists code. by rewrite Hadm.
  - intros Hrefused.
    destruct (List.filter _ MODULEAIR_TIMESTEP_OPTIONS) as [|timeStep rest] eqn:Hf;
      [done|].
    assert (In timeStep (timeStep :: rest)) as Hin by (left; done).
    rewrite <- Hf in Hin. apply filter_In in Hin as [Hopt Hall].
    destruct (Hrefused timeStep Hopt) as (code & Hcode & Hno).
    rewrite forallb_forall in Hall. rewrite (Hall code Hcode) in Hno. done.
Qed.

(** ** Settlement of a load *)

Lemma shown_station (station : StationInfo) : shown true (Some station) = true.
Proof. reflexivity. Qed.

Lemma setLife_same (w : Panel) (l : Life) : life w = l -> setLife l w = w.
Proof. intros <-. by destruct w. Qed.

(** A panel takes a station when it is about to be mounted or is mounted
    and shows one: the render does not throw and the effect runs. *)
Lemma changeProps_station (w : Panel) (station : StationInfo) :
  takesStation w ->
  changeProps true (Some station) w
  = stationEffect (setLife Mounted (setProps true (Some station) w)).
Proof.
  intros [Hlife|[Hlife Hshown]]; unfold changeProps; rewrite Hlife; [done|].
  rewrite Hshown, shown_station. simpl. f_equal.
  symmetry. by apply setLife_same.
Qed.

(** Selecting another station empties the store at that moment and leaves
    the suspended loads suspended. *)
Lemma new_station_clears_store (now : Z) (w : Panel) (station : StationInfo) :
  takesStation w ->
  refIs (stationIdRef w) (station_id station) = false ->
  historicalData (state (step now (PropsChange true (Some station)) w)) = ∅
  /\ selectedStation (state (step now (PropsChange true (Some station)) w))
     = Some station
  /\ loads (step now (PropsChange true (Some station)) w) = loads w
  /\ (loadingRef w = true ->
      frames (step now (PropsChange true (Some station)) w) = frames w).
Proof.
  intros Htakes Hnew. simpl. rewrite changeProps_station by done.
  unfold stationEffect. simpl. rewrite Hnew. simpl.
  destruct (loadingRef w); rewrite ?andb_false_r;
    repeat match goal with |- context [if ?b then _ else _] => destruct b end;
    repeat split; done.
Qed.

(** C1, as the code has it: the settlement of a suspended load is never
    discarded.  Whatever station is selected by then, a fulfilled load
    replaces the store with the series fetched for the pollutants of its
    own request and clears the loading flag, and a rejected one clears
    the loading flag and raises the error notice; neither touches the
    selected station or the controls.  Selecting another station on the
    shown panel empties the store at that moment, cancels no suspended
    load and, while the latch is set, schedules no load for the new
    station; so the load suspended for the former station, settling
    afterwards, fills the store of the panel that shows the new one. *)
Theorem load_settlement_is_applied_unconditionally
    (now : Z) (w : Panel) (i : nat) (call : LoadCall) (outcome : LoadOutcome) :
  loads w !! i = Some call ->
  (let w' := step now (LoadSettles i outcome) w in
   loading (state w') = false
   /\ selectedStation (state w') = selectedStation (state w)
   /\ chartControls (state w') = chartControls (state w)
   /\ match outcome with
      | LoadFulfilled responses =>
        historicalData (state w')
        = newHistoricalData (load_pollutants call) responses
        /\ error (state w') = error (state w)
      | LoadRejected _ =>
        historicalData (state w') = historicalData (state w)
        /\ error (state w') = Some loadErrorMessage
      end)
  /\ forall (station : StationInfo) (later : Z),
       life w = Mounted ->
       shown (props_isOpen w) (props_selectedStation w) = true ->
       refIs (stationIdRef w) (station_id station) = false ->
       let selected := step now (PropsChange true (Some station)) w in
       let settled := step later (LoadSettles i outcome) selected in
       historicalData (state selected) = ∅
       /\ selectedStation (state selected) = Some station
       /\ loads selected = loads w
       /\ (loadingRef w = true -> frames selected = frames w)
       /\ selectedStation (state settled) = Some station
       /\ match outcome with
          | LoadFulfilled responses =>
            historicalData (state settled)
            = newHistoricalData (load_pollutants call) responses
          | LoadRejected _ =>
            historicalData (state settled) = ∅
            /\ error (state settled) = Some loadErrorMessage
          end.
Proof.
  intros Hcall. split.
  - simpl. rewrite Hcall. destruct outcome; simpl; done.
  - intros station later Hlife Hshown Hnew selected settled.
    destruct (new_station_clears_store now w station
                (or_intror (conj Hlife Hshown)) Hnew)
      as (Hempty & Hstation & Hloads & Hframes).
    fold selected in Hempty, Hstation, Hloads, Hframes.
    repeat (split; [done|]).
    unfold settled. clearbody selected. simpl. rewrite Hloads, Hcall.
    destruct outcome; simpl; rewrite ?Hempty; done.
Qed.

(** C5, as the code has it: when a suspended load is rejected, the error
    notice is the fixed message, whatever the error was; the loading
    flag and the latch are cleared; the store is left as it was, hence
    empty when it was empty; the rejection is handled, so nothing is left
    unhandled. *)
Theorem rejected_load_raises_the_generic_notice
    (now : Z) (w : Panel) (i : nat) (call : LoadCall) (err : string) :
  loads w !! i = Some call ->
  let w' := step now (LoadSettles i (LoadRejected err)) w in
  error (state w') = Some loadErrorMessage
  /\ loading (state w') = false
  /\ loadingRef w' = false
  /\ isLoading w' = false
  /\ historicalData (state w') = historicalData (state w)
  /\ (historicalData (state w) = ∅ -> historicalData (state w') = ∅)
  /\ unhandledRejections w' = unhandledRejections w.
Proof.
  intros Hcall. simpl. rewrite Hcall. simpl. done.
Qed.

(** ** The initial-load latch *)

Lemma loadHistoricalData_loads (now : Z) (station : StationInfo)
    (codes : list string) (range : TimeRange) (stp : string) (w : Panel) :
  codes <> [] ->
  exists call,
    loads (loadHistoricalData now station codes range stp w) = (loads w ++ [call])%list
    /\ loadingRef (loadHistoricalData now station codes range stp w) = loadingRef w
    /\ load_station call = station
    /\ load_pollutants call = codes
    /\ load_timeRange call = range
    /\ load_timeStep call = stp.
Proof.
  intros Hcodes. unfold loadHistoricalData.
  destruct codes as [|code codes]; [done|]. simpl. eauto 10.
Qed.

Lemma loadHistoricalData_nothing_selected (now : Z) (station : StationInfo)
    (range : TimeRange) (stp : string) (w : Panel) :
  loads (loadHistoricalData now station [] range stp w) = loads w
  /\ loadingRef (loadHistoricalData now station [] range stp w) = false.
Proof. done. Qed.

Lemma stationEffect_keeps_latch (w : Panel) :
  props_isOpen w = true ->
  loads (stationEffect w) = loads w
  /\ loadingRef (stationEffect w) = loadingRef w.
Proof.
  intros Hopen. unfold stationEffect. rewrite Hopen. simpl.
  destruct (props_selectedStation w) as [station|]; [|done].
  repeat match goal with |- context [if ?b then _ else _] => destruct b end;
    done.
Qed.

Lemma changeProps_keeps_latch (station : option StationInfo) (w : Panel) :
  loads (changeProps true station w) = loads w
  /\ loadingRef (changeProps true station w) = loadingRef w.
Proof.
  unfold changeProps. destruct (life w); [| |done].
  - by apply (stationEffect_keeps_latch (setLife Mounted (setProps true station w))).
  - destruct (Bool.eqb _ _); [|done].
    by apply (stationEffect_keeps_latch (setProps true station w)).
Qed.

Lemma step_keeps_latch (now : Z) (e : Event) (w : Panel) :
  keepsLatch e = true ->
  latchInvariant w ->
  latchInvariant (step now e w).
Proof.
  intros Hkeep Hinv.
  assert (latchInvariant (handle now e w)) as Hhandled; [|done].
  destruct e as [o station| |i outcome|i outcome|code|atCall range|atCall stp|];
    simpl in Hkeep; try done; simpl.
  - subst o.
    destruct (changeProps_keeps_latch station w) as [Hl Hr].
    unfold latchInvariant. rewrite Hl, Hr. done.
  - destruct (frames w) as [|cb rest]; [done|].
    unfold runFrame. simpl.
    destruct Hinv as [[Hoff Hnone]|[Hon Hone]].
    + rewrite Hoff. simpl.
      destruct (refIs (initialLoadDoneRef w) (loadKey cb)); simpl.
      * left. done.
      * destruct (frame_pollutants cb) as [|code codes] eqn:Hcodes.
        -- left. done.
        -- right. unfold loadHistoricalData. simpl. rewrite Hnone.
           split; [done|]. eauto.
    + rewrite Hon. simpl. right. done.
  - destruct (loads w !! i) as [call|] eqn:Hcall; [|done].
    destruct Hinv as [[Hoff Hnone]|[Hon [call' Hone]]].
    + rewrite Hnone in Hcall. done.
    + rewrite Hone in Hcall. destruct i as [|i]; [|done].
      left. rewrite Hone. destruct outcome; done.
  - destruct (fetches w !! i) as [params|]; [|done].
    destruct outcome; done.
  - unfold handlePollutantToggle.
    destruct (props_selectedStation w) as [station|]; [|done].
    destruct (historicalData (state w) !! code); done.
  - unfold clearInfoMessage. destruct (infoTimers w); done.
Qed.

Lemma run_keeps_latch (events : list (Z * Event)) (w : Panel) :
  forallb (fun e => keepsLatch (snd e)) events = true ->
  latchInvariant w ->
  latchInvariant (run events w).
Proof.
  revert w. induction events as [|[now e] events IH]; intros w Hall Hinv;
    [done|].
  simpl in Hall. apply andb_true_iff in Hall as [He Hrest]. simpl.
  apply IH; [done|]. by apply step_keeps_latch.
Qed.

Lemma handleTimeRangeChange_dispatches
    (now : Z) (atCall : bool) (range : TimeRange) (w : Panel)
    (station : StationInfo) :
  props_selectedStation w = Some station ->
  selectedPollutants (chartControls (state w)) <> [] ->
  exists call,
    loads (handleTimeRangeChange now atCall range w) = (loads w ++ [call])%list
    /\ requestKey call
       = makeLoadKey (station_id station)
           (selectedPollutants (chartControls (state w)))
           (adjustedRange
              (adjustTimeRangeIfNeeded now range (timeStep (chartControls (state w)))))
           (timeStep (chartControls (state w))).
Proof.
  intros Hstation Hsel. unfold handleTimeRangeChange, applyControls.
  rewrite Hstation.
  destruct atCall; simpl.
  all: match goal with
       | |- context [loadHistoricalData ?n ?s ?c ?r ?t ?p] =>
         destruct (loadHistoricalData_loads n s c r t p Hsel)
           as (call & Hloads & _ & Hst & Hcodes & Hrange & Hstep)
       end;
    exists call; split;
    [ rewrite Hloads; destruct (if wasAdjusted _ then _ else _); done
    | unfold requestKey; by rewrite Hst, Hcodes, Hrange, Hstep ].
Qed.

(** C3, as the code has it: the only deduplication is the latch of the
    initial load.  In a session in which the panel stays open and the
    user changes neither the time range nor the time step, at most one
    load is ever suspended, so no two with equal keys are; the handler
    of a time-range change consults neither the latch nor a key and
    always dispatches, so a request with the key of the last admitted
    load is admitted again once that load has settled. *)
Theorem initial_load_is_latched (events : list (Z * Event)) :
  forallb (fun e => keepsLatch (snd e)) events = true ->
  (length (loads (run events initialPanel)) <= 1)%nat
  /\ forall now atCall range station,
       props_selectedStation (run events initialPanel) = Some station ->
       selectedPollutants (chartControls (state (run events initialPanel))) <> [] ->
       exists call,
         loads (handleTimeRangeChange now atCall range (run events initialPanel))
         = (loads (run events initialPanel) ++ [call])%list
         /\ requestKey call
            = makeLoadKey (station_id station)
                (selectedPollutants (chartControls (state (run events initialPanel))))
                (adjustedRange
                   (adjustTimeRangeIfNeeded now range
                      (timeStep (chartControls (state (run events initialPanel))))))
                (timeStep (chartControls (state (run events initialPanel)))).
Proof.
  intros Hall. split.
  - assert (latchInvariant (run events initialPanel)) as Hinv.
    { apply run_keeps_latch; [done|]. left. done. }
    destruct Hinv as [[_ Hnone]|[_ [call Hone]]].
    + rewrite Hnone. simpl. lia.
    + rewrite Hone. simpl. lia.
  - intros now atCall range station Hstation Hsel.
    destruct (handleTimeRangeChange_dispatches now atCall range _ station
                Hstation Hsel)
      as (call & Hloads & Hkey).
    eauto.
Qed.

(** ** Statistics *)

(** *** The order of the numbers *)

Ltac compare_cases :=
  repeat match goal with
         | |- context [Pos.compare_cont Eq ?a ?b] =>
           change (Pos.compare_cont Eq a b) with (Pos.compare a b)
         | H : context [Pos.compare_cont Eq ?a ?b] |- _ =>
           change (Pos.compare_cont Eq a b) with (Pos.compare a b) in H
         end;
  repeat match goal with
         | |- context [Z.compare ?a ?b] => destruct (Z.compare_spec a b)
         | H : context [Z.compare ?a ?b] |- _ => destruct (Z.compare_spec a b)
         | |- context [Pos.compare ?a ?b] => destruct (Pos.compare_spec a b)
         | H : context [Pos.compare ?a ?b] |- _ => destruct (Pos.compare_spec a b)
         end; simpl in *; try done; try lia.

Lemma SFleb_refl (x : spec_float) : x <> S754_nan -> SFleb x x = true.
Proof.
  unfold SFleb. destruct x as [[]|[]| |[] m e]; simpl; try done; intros _;
    compare_cases.
Qed.

Lemma SFleb_trans (x y z : spec_float) :
  SFleb x y = true -> SFleb y z = true -> SFleb x z = true.
Proof.
  unfold SFleb.
  destruct x as [[]|[]| |[] mx ex], y as [[]|[]| |[] my ey],
           z as [[]|[]| |[] mz ez]; simpl; try done.
  all: intros Hxy Hyz; compare_cases.
Qed.

Lemma SFltb_leb (x y : spec_float) : SFltb x y = true -> SFleb x y = true.
Proof. unfold SFltb, SFleb. by destruct (SFcompare x y) as [[]|]. Qed.

Lemma SFleb_total (x y : spec_float) :
  x <> S754_nan -> y <> S754_nan -> SFltb x y = false -> SFleb y x = true.
Proof.
  unfold SFltb, SFleb.
  destruct x as [[]|[]| |[] mx ex], y as [[]|[]| |[] my ey]; simpl; try done.
  all: intros _ _ Hxy; compare_cases.
Qed.

Lemma is_nan_spec (x : float) :
  PrimFloat.is_nan x = false <-> Prim2SF x <> S754_nan.
Proof.
  unfold PrimFloat.is_nan. rewrite FloatAxioms.eqb_spec, negb_false_iff. unfold SFeqb. split.
  - intros Heq Hnan. by rewrite Hnan in Heq.
  - intros Hnan. destruct (Prim2SF x) as [[]|[]| |[] m e]; simpl; try done;
      compare_cases.
Qed.

Lemma leb_refl (x : float) : PrimFloat.is_nan x = false -> PrimFloat.leb x x = true.
Proof. rewrite is_nan_spec, FloatAxioms.leb_spec. apply SFleb_refl. Qed.

Lemma leb_trans (x y z : float) :
  PrimFloat.leb x y = true -> PrimFloat.leb y z = true -> PrimFloat.leb x z = true.
Proof. rewrite !FloatAxioms.leb_spec. apply SFleb_trans. Qed.

Lemma leb_is_nan (x y : float) :
  PrimFloat.leb x y = true ->
  PrimFloat.is_nan x = false /\ PrimFloat.is_nan y = false.
Proof.
  rewrite FloatAxioms.leb_spec, !is_nan_spec. unfold SFleb.
  destruct (Prim2SF x), (Prim2SF y); done.
Qed.

Lemma maxStep_bounds (highest number : float) :
  PrimFloat.is_nan highest = false ->
  PrimFloat.is_nan number = false ->
  (maxStep highest number = highest \/ maxStep highest number = number)
  /\ PrimFloat.leb highest (maxStep highest number) = true
  /\ PrimFloat.leb number (maxStep highest number) = true.
Proof.
  intros Hh Hn. unfold maxStep. rewrite Hh, Hn.
  assert (PrimFloat.classify number = PZero ->
          PrimFloat.classify highest = NZero ->
          PrimFloat.leb highest number = true) as Hzeros.
  { rewrite !FloatAxioms.classify_spec, FloatAxioms.leb_spec. unfold SF64classify, SFclassify, SFleb.
    destruct (Prim2SF number) as [[]|[]| |[] mn en],
             (Prim2SF highest) as [[]|[]| |[] mh eh]; simpl; try done;
      repeat match goal with |- context [if ?b then _ else _] => destruct b end;
      done. }
  assert (PrimFloat.ltb highest number = true ->
          PrimFloat.leb highest number = true) as Hlt
    by (rewrite FloatAxioms.ltb_spec, FloatAxioms.leb_spec; apply SFltb_leb).
  assert (PrimFloat.ltb highest number = false ->
          PrimFloat.leb number highest = true) as Hge.
  { rewrite FloatAxioms.ltb_spec, FloatAxioms.leb_spec. apply SFleb_total; by apply is_nan_spec. }
  pose proof (leb_refl _ Hh). pose proof (leb_refl _ Hn).
  destruct (PrimFloat.classify number) eqn:Hcn;
    destruct (PrimFloat.classify highest) eqn:Hch;
    destruct (PrimFloat.ltb highest number); auto.
Qed.

Lemma minStep_bounds (lowest number : float) :
  PrimFloat.is_nan lowest = false ->
  PrimFloat.is_nan number = false ->
  (minStep lowest number = lowest \/ minStep lowest number = number)
  /\ PrimFloat.leb (minStep lowest number) lowest = true
  /\ PrimFloat.leb (minStep lowest number) number = true.
Proof.
  intros Hl Hn. unfold minStep. rewrite Hl, Hn.
  assert (PrimFloat.classify number = NZero ->
          PrimFloat.classify lowest = PZero ->
          PrimFloat.leb number lowest = true) as Hzeros.
  { rewrite !FloatAxioms.classify_spec, FloatAxioms.leb_spec. unfold SF64classify, SFclassify, SFleb.
    destruct (Prim2SF number) as [[]|[]| |[] mn en],
             (Prim2SF lowest) as [[]|[]| |[] ml el]; simpl; try done;
      repeat match goal with |- context [if ?b then _ else _] => destruct b end;
      done. }
  assert (PrimFloat.ltb number lowest = true ->
          PrimFloat.leb number lowest = true) as Hlt
    by (rewrite FloatAxioms.ltb_spec, FloatAxioms.leb_spec; apply SFltb_leb).
  assert (PrimFloat.ltb number lowest = false ->
          PrimFloat.leb lowest number = true) as Hge.
  { rewrite FloatAxioms.ltb_spec, FloatAxioms.leb_spec. apply SFleb_total; by apply is_nan_spec. }
  pose proof (leb_refl _ Hl). pose proof (leb_refl _ Hn).
  destruct (PrimFloat.classify number) eqn:Hcn;
    destruct (PrimFloat.classify lowest) eqn:Hcl;
    destruct (PrimFloat.ltb number lowest); auto.
Qed.

Lemma least_is_neg_infinity (v : float) :
  PrimFloat.leb v PrimFloat.neg_infinity = true -> v = PrimFloat.neg_infinity.
Proof.
  rewrite FloatAxioms.leb_spec. intros Hle. apply Prim2SF_inj.
  change (Prim2SF PrimFloat.neg_infinity) with (S754_infinity true) in *.
  unfold SFleb in Hle. by destruct (Prim2SF v) as [[]|[]| |[] m e].
Qed.

Lemma greatest_is_infinity (v : float) :
  PrimFloat.leb PrimFloat.infinity v = true -> v = PrimFloat.infinity.
Proof.
  rewrite FloatAxioms.leb_spec. intros Hle. apply Prim2SF_inj.
  change (Prim2SF PrimFloat.infinity) with (S754_infinity false) in *.
  unfold SFleb in Hle. by destruct (Prim2SF v) as [[]|[]| |[] m e].
Qed.

(** [Math.max] of numbers gives one of them, and none is greater. *)
Lemma fold_maxStep (values : list float) (highest : float) :
  PrimFloat.is_nan highest = false ->
  Forall (fun v => PrimFloat.is_nan v = false) values ->
  PrimFloat.is_nan (fold_left maxStep values highest) = false
  /\ (fold_left maxStep values highest = highest
      \/ In (fold_left maxStep values highest) values)
  /\ PrimFloat.leb highest (fold_left maxStep values highest) = true
  /\ forall v, In v values ->
       PrimFloat.leb v (fold_left maxStep values highest) = true.
Proof.
  intros Hh Hvalues. revert highest Hh.
  induction Hvalues as [|number values Hn _ IH]; intros highest Hh; simpl.
  - repeat split; [done|by left|by apply leb_refl|done].
  - destruct (maxStep_bounds highest number Hh Hn) as (Hchoice & Hhigh & Hnum).
    destruct (leb_is_nan _ _ Hhigh) as [_ Hstep].
    destruct (IH _ Hstep) as (Hnan & Hin & Hle & Hall).
    split; [done|]. split; [|split].
    + destruct Hin as [->|Hin]; [|by right; right].
      destruct Hchoice as [->| ->]; [by left|by right; left].
    + by apply (leb_trans _ _ _ Hhigh).
    + intros v [<-|Hv]; [by apply (leb_trans _ _ _ Hnum)|by apply Hall].
Qed.

(** [Math.min] of numbers gives one of them, and none is smaller. *)
Lemma fold_minStep (values : list float) (lowest : float) :
  PrimFloat.is_nan lowest = false ->
  Forall (fun v => PrimFloat.is_nan v = false) values ->
  PrimFloat.is_nan (fold_left minStep values lowest) = false
  /\ (fold_left minStep values lowest = lowest
      \/ In (fold_left minStep values lowest) values)
  /\ PrimFloat.leb (fold_left minStep values lowest) lowest = true
  /\ forall v, In v values ->
       PrimFloat.leb (fold_left minStep values lowest) v = true.
Proof.
  intros Hl Hvalues. revert lowest Hl.
  induction Hvalues as [|number values Hn _ IH]; intros lowest Hl; simpl.
  - repeat split; [done|by left|by apply leb_refl|done].
  - destruct (minStep_bounds lowest number Hl Hn) as (Hchoice & Hlow & Hnum).
    destruct (leb_is_nan _ _ Hlow) as [Hstep _].
    destruct (IH _ Hstep) as (Hnan & Hin & Hle & Hall).
    split; [done|]. split; [|split].
    + destruct Hin as [->|Hin]; [|by right; right].
      destruct Hchoice as [->| ->]; [by left|by right; left].
    + by apply (leb_trans _ _ _ Hle).
    + intros v [<-|Hv]; [by apply (leb_trans _ _ _ Hle)|by apply Hall].
Qed.

Lemma numeric_values (data : list HistoricalDataPoint) :
  List.filter isNumeric (map dp_value data) = map Some (presentValues data).
Proof.
  induction data as [|d data IH]; simpl; [done|].
  unfold isNumeric at 1. destruct (dp_value d) as [v|]; simpl; [|done].
  destruct (PrimFloat.is_nan v); simpl; by rewrite IH.
Qed.

Lemma fold_numbers (f : float -> float -> float) (values : list float)
    (start : float) :
  fold_left (fun a v => f a (toNumber v)) (map Some values) start
  = fold_left f values start.
Proof.
  revert start. induction values as [|v values IH]; intros start; simpl; [done|].
  apply IH.
Qed.

Lemma presentValues_of_present (data : list HistoricalDataPoint) :
  presentValues (List.filter (fun d => negb (isMissing d)) data)
  = presentValues data.
Proof.
  induction data as [|d data IH]; simpl; [done|].
  unfold isMissing at 1. destruct (dp_value d) as [v|] eqn:Hv; simpl; [|done].
  destruct (PrimFloat.is_nan v) eqn:Hnan; simpl; [done|].
  by rewrite Hv, Hnan, IH.
Qed.

Lemma presentValues_none (data : list HistoricalDataPoint) :
  Forall (fun d => isMissing d = true) data -> presentValues data = [].
Proof.
  induction 1 as [|d data Hd _ IH]; simpl; [done|].
  unfold isMissing in Hd. destruct (dp_value d) as [v|]; [|done].
  by rewrite Hd.
Qed.

Lemma presentValues_numbers (data : list HistoricalDataPoint) :
  Forall (fun v => PrimFloat.is_nan v = false) (presentValues data).
Proof.
  induction data as [|d data IH]; simpl; [constructor|].
  destruct (dp_value d) as [v|]; [|done].
  destruct (PrimFloat.is_nan v) eqn:Hnan; [done|]. by constructor.
Qed.

(** The three numbers, from the values of the samples that are not
    missing. *)
Lemma statsNumbers_of_values
    (st : SidePanelState) (primary : string) (others : list string)
    (data : list HistoricalDataPoint) :
  selectedPollutants (chartControls st) = primary :: others ->
  primary <> "" ->
  historicalData st !! primary = Some data ->
  statsNumbers st
  = match presentValues data with
    | [] => Normal None
    | values =>
      if (argumentsLimit <? N.of_nat (length values))%N then Throw "RangeError"
      else
        Normal (Some
          (PrimFloat.div (fold_left PrimFloat.add values 0%float)
                         (numberOfNat (length values)),
           fold_left maxStep values PrimFloat.neg_infinity,
           fold_left minStep values PrimFloat.infinity))
    end.
Proof.
  intros Hsel Hname Hdata.
  assert (String.eqb primary "" = false) as Hne by by apply String.eqb_neq.
  unfold statsNumbers, stats. rewrite Hsel, Hne, Hdata.
  destruct data as [|first data]; [done|].
  rewrite numeric_values.
  destruct (presentValues (first :: data)) as [|v values]; [done|].
  change (map Some (v :: values)) with (Some v :: map Some values).
  cbv iota beta zeta.
  change (Some v :: map Some values) with (map Some (v :: values)).
  rewrite length_map. unfold mathMax, mathMin. rewrite !fold_numbers.
  by destruct (argumentsLimit <? N.of_nat (length (v :: values)))%N.
Qed.

(** C8: the statistics are those of the series of the first selected
    pollutant.  The samples whose value is [null] or [NaN] are left out
    before anything is computed, so removing them from the series changes
    none of the three numbers; when every sample is missing, or the
    series is empty, the statistics are [null]; for the values 10, 20, 30
    the mean is 20, the maximum 30 and the minimum 10.  In general the
    mean is the sum of the remaining values, added from 0 in their order,
    divided by their count; the maximum and the minimum are each one of
    the remaining values, and no remaining value is greater than the
    maximum or smaller than the minimum.  The values are spread into
    [Math.max], which throws on more of them than the engine accepts as
    arguments. *)
Theorem stats_of_the_primary_series
    (st : SidePanelState) (primary : string) (others : list string)
    (data : list HistoricalDataPoint) :
  selectedPollutants (chartControls st) = primary :: others ->
  primary <> "" ->
  historicalData st !! primary = Some data ->
  statsNumbers st
  = statsNumbers
      (withSeries primary (List.filter (fun d => negb (isMissing d)) data) st)
  /\ (Forall (fun d => isMissing d = true) data -> stats st = Normal None)
  /\ ((3 <= argumentsLimit)%N ->
      presentValues data = [10%float; 20%float; 30%float] ->
      statsNumbers st = Normal (Some (20%float, 30%float, 10%float)))
  /\ (presentValues data <> [] ->
      (N.of_nat (length (presentValues data)) <= argumentsLimit)%N ->
      exists avg max min,
        statsNumbers st = Normal (Some (avg, max, min))
        /\ avg = PrimFloat.div
                   (fold_left PrimFloat.add (presentValues data) 0%float)
                   (numberOfNat (length (presentValues data)))
        /\ In max (presentValues data)
        /\ In min (presentValues data)
        /\ forall v, In v (presentValues data) ->
             PrimFloat.leb v max = true /\ PrimFloat.leb min v = true)
  /\ ((argumentsLimit < N.of_nat (length (presentValues data)))%N ->
      exists err, stats st = Throw err).
Proof.
  intros Hsel Hname Hdata.
  pose proof (statsNumbers_of_values st primary others data Hsel Hname Hdata)
    as Hnumbers.
  split; [|split; [|split; [|split]]].
  - rewrite Hnumbers.
    rewrite (statsNumbers_of_values
               (withSeries primary
                  (List.filter (fun d => negb (isMissing d)) data) st)
               primary others
               (List.filter (fun d => negb (isMissing d)) data));
      [by rewrite presentValues_of_present|done|done|].
    unfold withSeries. simpl. apply lookup_insert_eq.
  - intros Hmissing.
    assert (String.eqb primary "" = false) as Hne by by apply String.eqb_neq.
    unfold stats. rewrite Hsel, Hne, Hdata.
    destruct data as [|first data]; [done|].
    by rewrite numeric_values, (presentValues_none _ Hmissing).
  - intros Hlimit Hvalues. rewrite Hnumbers, Hvalues. cbv iota beta zeta.
    assert ((argumentsLimit <? N.of_nat (length [10%float; 20%float; 30%float]))%N
            = false) as -> by (apply N.ltb_ge; simpl; lia).
    reflexivity.
  - intros Hsome Hlimit. rewrite Hnumbers.
    pose proof (presentValues_numbers data) as Hnum.
    destruct (presentValues data) as [|v values] eqn:Hvalues; [done|].
    cbv zeta.
    assert ((argumentsLimit <? N.of_nat (length (v :: values)))%N = false) as ->
      by by apply N.ltb_ge.
    destruct (fold_maxStep (v :: values) PrimFloat.neg_infinity eq_refl Hnum)
      as (_ & Hmax & _ & Hhighest).
    destruct (fold_minStep (v :: values) PrimFloat.infinity eq_refl Hnum)
      as (_ & Hmin & _ & Hlowest).
    eexists _, _, _. split; [done|]. split; [done|].
    split; [|split].
    + destruct Hmax as [Hnone|Hin]; [|done].
      assert (v = PrimFloat.neg_infinity) as ->.
      { apply least_is_neg_infinity. rewrite <- Hnone. apply Hhighest. by left. }
      rewrite Hnone. by left.
    + destruct Hmin as [Hnone|Hin]; [|done].
      assert (v = PrimFloat.infinity) as ->.
      { apply greatest_is_infinity. rewrite <- Hnone. apply Hlowest. by left. }
      rewrite Hnone. by left.
    + intros x Hx. split; [by apply Hhighest|by apply Hlowest].
  - intros Hlimit.
    assert (String.eqb primary "" = false) as Hne by by apply String.eqb_neq.
    unfold stats. rewrite Hsel, Hne, Hdata.
    destruct data as [|first data]; [simpl in Hlimit; lia|].
    rewrite numeric_values.
    destruct (presentValues (first :: data)) as [|v values];
      [simpl in Hlimit; lia|].
    change (map Some (v :: values)) with (Some v :: map Some values).
    cbv iota beta zeta.
    change (Some v :: map Some values) with (map Some (v :: values)).
    rewrite length_map.
    apply N.ltb_lt in Hlimit. rewrite Hlimit. by eexists.
Qed.

(** ** Pollutant toggle *)

(** Toggling a pollutant whose series is in the store starts nothing. *)
Lemma toggle_cached_starts_nothing
    (now : Z) (code : string) (w : Panel) (data : list HistoricalDataPoint) :
  historicalData (state w) !! code = Some data ->
  fetches (handlePollutantToggle now code w) = fetches w
  /\ loads (handlePollutantToggle now code w) = loads w
  /\ historicalData (state (handlePollutantToggle now code w))
     = historicalData (state w).
Proof.
  intros Hdata. unfold handlePollutantToggle. rewrite Hdata.
  destruct (props_selectedStation w); done.
Qed.

(** Toggling a pollutant whose series is not in the store starts one
    fetch, for that pollutant alone, and no load; the store and the
    loading flag are left as they are.  The direction of the toggle plays
    no part. *)
Lemma toggle_uncached_starts_one_fetch
    (now : Z) (code : string) (w : Panel) (station : StationInfo) :
  props_selectedStation w = Some station ->
  historicalData (state w) !! code = None ->
  fetches (handlePollutantToggle now code w)
  = (fetches w ++
     [{| sensorId := station_id station;
         pollutant := code;
         fp_timeStep := timeStep (chartControls (state w));
         fp_startDate := fst (getDateRange now (timeRange (chartControls (state w))));
         fp_endDate := snd (getDateRange now (timeRange (chartControls (state w)))) |}])%list
  /\ loads (handlePollutantToggle now code w) = loads w
  /\ historicalData (state (handlePollutantToggle now code w))
     = historicalData (state w)
  /\ loading (state (handlePollutantToggle now code w)) = loading (state w).
Proof.
  intros Hstation Hdata. unfold handlePollutantToggle.
  rewrite Hstation, Hdata. done.
Qed.

(** The fetch a toggle started, once fulfilled, puts its series in the
    store and leaves the series of the other pollutants. *)
Lemma incremental_fetch_merges
    (now : Z) (w : Panel) (i : nat) (params : FetchParams)
    (data : list HistoricalDataPoint) (other : string) :
  fetches w !! i = Some params ->
  other <> pollutant params ->
  historicalData (state (step now (FetchSettles i (FetchFulfilled data)) w))
    !! pollutant params = Some data
  /\ historicalData (state (step now (FetchSettles i (FetchFulfilled data)) w))
       !! other = historicalData (state w) !! other.
Proof.
  intros Hparams Hother. simpl. rewrite Hparams. simpl.
  rewrite lookup_insert_eq, lookup_insert_ne; done.
Qed.

(** ** The invariant of the chart controls *)

Lemma adjusted_range_fits (now : Z) (range : TimeRange) (stp : string) :
  isTimeStepValidForRange
    (adjustedRange (adjustTimeRangeIfNeeded now range stp)) stp = true.
Proof.
  unfold isTimeStepValidForRange, adjustTimeRangeIfNeeded.
  destruct (maxDaysOf stp) as [maxDays|]; [|done].
  assert (ceilDiv_self : forall e,
    (ceilDiv (getTime e - getTime (e - maxDays)) (1000 * 60 * 60 * 24)
     <=? maxDays) = true).
  { intros e. rewrite ceilDiv_days. apply Z.leb_le. lia. }
  destruct range as [[] [p|] [c|]]; simpl; try done.
  all: match goal with
       | |- context [Qgtb ?a ?b] =>
         unfold Qgtb; destruct (Qle_bool a b) eqn:Hle
       | |- context [?a <? ?b] => destruct (a <? b) eqn:Hlt
       end; simpl;
    rewrite ?Hle, ?isoDate_back, ?isoDate_getTime, ?ceilDiv_self; try done.
  all: apply Z.leb_le; apply Z.ltb_ge in Hlt; done.
Qed.

Lemma loadHistoricalData_controls (now : Z) (station : StationInfo)
    (codes : list string) (range : TimeRange) (stp : string) (w : Panel) :
  chartControls (state (loadHistoricalData now station codes range stp w))
  = chartControls (state w).
Proof. unfold loadHistoricalData. destruct codes; done. Qed.

Lemma applyControls_controls (now : Z) (atCall : bool) (adjusted : Adjusted)
    (stp : string) (w : Panel) :
  chartControls (state (applyControls now atCall adjusted stp w))
  = {| selectedPollutants := selectedPollutants (chartControls (state w));
       timeRange := adjustedRange adjusted;
       timeStep := stp |}.
Proof.
  unfold applyControls. destruct atCall; [done|].
  destruct (props_selectedStation w);
    rewrite ?loadHistoricalData_controls;
    destruct (if wasAdjusted adjusted then _ else _); done.
Qed.

(** A change of the time range keeps the invariant. *)
Lemma handleTimeRangeChange_keeps_invariant
    (now : Z) (atCall : bool) (range : TimeRange) (w : Panel) :
  controlsInvariant (chartControls (state w)) = true ->
  controlsInvariant
    (chartControls (state (handleTimeRangeChange now atCall range w)))
  = true.
Proof.
  unfold controlsInvariant, handleTimeRangeChange.
  rewrite applyControls_controls. intros [Hstep _]%andb_true_iff.
  apply andb_true_iff. split; [done|].
  unfold rangeFitsStep. simpl. apply adjusted_range_fits.
Qed.

(** A change of the time step keeps the invariant. *)
Lemma handleTimeStepChange_keeps_invariant
    (now : Z) (atCall : bool) (stp : string) (w : Panel) :
  controlsInvariant (chartControls (state w)) = true ->
  controlsInvariant
    (chartControls (state (handleTimeStepChange now atCall stp w)))
  = true.
Proof.
  intros Hinv. unfold handleTimeStepChange.
  destruct (includes (supportedTimeSteps_memo w) stp) eqn:Hsup; simpl; [|done].
  rewrite applyControls_controls. unfold controlsInvariant.
  apply andb_true_iff. split; [done|].
  unfold rangeFitsStep. simpl. apply adjusted_range_fits.
Qed.

Lemma toggle_controls (now : Z) (code : string) (w : Panel) :
  chartControls (state (handlePollutantToggle now code w))
  = {| selectedPollutants :=
         toggleSelection (selectedPollutants (chartControls (state w))) code;
       timeRange := timeRange (chartControls (state w));
       timeStep := timeStep (chartControls (state w)) |}.
Proof.
  unfold handlePollutantToggle.
  destruct (props_selectedStation w); [|done].
  destruct (historicalData (state w) !! code); done.
Qed.

(** A toggle keeps the range within the history of the step. *)
Lemma toggle_keeps_range_bound (now : Z) (code : string) (w : Panel) :
  rangeFitsStep (chartControls (state (handlePollutantToggle now code w)))
  = rangeFitsStep (chartControls (state w)).
Proof. by rewrite toggle_controls. Qed.

(** Deselecting a pollutant keeps the step supported. *)
Lemma toggle_off_keeps_step_supported (now : Z) (code : string) (w : Panel) :
  includes (selectedPollutants (chartControls (state w))) code = true ->
  stepSupported (chartControls (state w)) = true ->
  stepSupported (chartControls (state (handlePollutantToggle now code w))) = true.
Proof.
  intros Hsel. rewrite toggle_controls. unfold stepSupported, toggleSelection.
  simpl. rewrite Hsel, !supported_is_intersection. unfold declaredIntersection.
  rewrite !includes_In, !filter_In. intros [Hopt Hall]. split; [done|].
  rewrite forallb_forall in Hall. apply forallb_forall.
  intros other [Hother _]%filter_In. by apply Hall.
Qed.

Lemma new_station_controls (now : Z) (w : Panel) (station : StationInfo) :
  takesStation w ->
  refIs (stationIdRef w) (station_id station) = false ->
  chartControls (state (step now (PropsChange true (Some station)) w))
  = {| selectedPollutants := initialSelection station;
       timeStep :=
         getInitialTimeStepForPollutants (initialSelection station)
           (timeStep (chartControls (state w)));
       timeRange := presetRange P24h |}.
Proof.
  intros Htakes Hnew. simpl. rewrite changeProps_station by done.
  unfold stationEffect. simpl. rewrite Hnew. simpl.
  repeat match goal with |- context [if ?b then _ else _] => destruct b end;
    done.
Qed.

Lemma initial_step_supported (codes : list string) (fallback : string) :
  getSupportedTimeStepsForPollutants codes <> [] ->
  includes (getSupportedTimeStepsForPollutants codes)
           (getInitialTimeStepForPollutants codes fallback) = true.
Proof.
  intros Hne. unfold getInitialTimeStepForPollutants.
  destruct (getSupportedTimeStepsForPollutants codes) as [|first rest] eqn:Hs;
    [done|].
  destruct (includes (first :: rest) fallback) eqn:Hin; [done|].
  apply includes_In. by left.
Qed.

Lemma one_day_fits (stp : string) :
  (forall s d, getMaxHistoryDays s = Some d -> 0 <= d) ->
  isTimeStepValidForRange (presetRange P24h) stp = true.
Proof.
  intros Hpos. unfold isTimeStepValidForRange, maxDaysOf.
  destruct (getMaxHistoryDays stp) as [d|] eqn:Hd; [|done].
  destruct (d =? 0) eqn:Hz; [done|]. simpl.
  apply Z.eqb_neq in Hz. specialize (Hpos _ _ Hd).
  apply Qle_bool_iff. unfold Qle. simpl. lia.
Qed.

(** The selection of another station establishes the invariant, when
    some step is supported for the selection it makes and no history
    limit is negative. *)
Lemma new_station_establishes_invariant
    (now : Z) (w : Panel) (station : StationInfo) :
  takesStation w ->
  refIs (stationIdRef w) (station_id station) = false ->
  (forall s d, getMaxHistoryDays s = Some d -> 0 <= d) ->
  getSupportedTimeStepsForPollutants (initialSelection station) <> [] ->
  controlsInvariant
    (chartControls (state (step now (PropsChange true (Some station)) w)))
  = true.
Proof.
  intros Htakes Hnew Hpos Hsup. rewrite new_station_controls by done.
  unfold controlsInvariant, stepSupported, rangeFitsStep. simpl.
  rewrite initial_step_supported by done. simpl. by apply one_day_fits.
Qed.

(** * Further properties of the panel *)

(** ** Supported steps and the initial step *)

(** The supported steps of a selection are taken from the four options,
    without repetition, and selecting more pollutants never adds one. *)
Theorem supported_steps_only_shrink (codes more : list string) :
  incl (getSupportedTimeStepsForPollutants (codes ++ more))
       (getSupportedTimeStepsForPollutants codes)
  /\ incl (getSupportedTimeStepsForPollutants codes) MODULEAIR_TIMESTEP_OPTIONS
  /\ NoDup (getSupportedTimeStepsForPollutants codes).
Proof.
  rewrite !supported_is_intersection. unfold declaredIntersection.
  split; [|split].
  - intros s [Hopt Hall]%filter_In. apply filter_In. split; [done|].
    rewrite forallb_app in Hall. by apply andb_true_iff in Hall as [Hall _].
  - apply List.incl_filter.
  - apply NoDup_ListNoDup, List.NoDup_filter. unfold MODULEAIR_TIMESTEP_OPTIONS.
    repeat constructor; simpl; intuition discriminate.
Qed.

Lemma forallb_permutation {A} (f : A -> bool) (l l' : list A) :
  Permutation l l' -> forallb f l = forallb f l'.
Proof.
  induction 1 as [|x l l' _ IH|x y l|l l' l'' _ IH1 _ IH2]; simpl.
  - done.
  - by rewrite IH.
  - by destruct (f x), (f y).
  - by rewrite IH1.
Qed.

(** The supported steps depend on which pollutants are selected, not on
    the order in which they were selected. *)
Theorem supported_steps_ignore_selection_order (codes codes' : list string) :
  Permutation codes codes' ->
  getSupportedTimeStepsForPollutants codes
  = getSupportedTimeStepsForPollutants codes'.
Proof.
  intros Hperm. rewrite !supported_is_intersection. unfold declaredIntersection.
  apply filter_ext. intros timeStep. by apply forallb_permutation.
Qed.

(** The initial time step is the fallback when the fallback is supported
    or when no step is; otherwise it is the first supported step.  It is
    supported whenever some step is, and choosing again from it changes
    nothing. *)
Theorem initial_time_step_choice (codes : list string) (fallback : string) :
  (getSupportedTimeStepsForPollutants codes = [] \/
   includes (getSupportedTimeStepsForPollutants codes) fallback = true ->
   getInitialTimeStepForPollutants codes fallback = fallback)
  /\ (getSupportedTimeStepsForPollutants codes <> [] ->
      includes (getSupportedTimeStepsForPollutants codes)
               (getInitialTimeStepForPollutants codes fallback) = true)
  /\ (includes (getSupportedTimeStepsForPollutants codes) fallback = false ->
      head (getSupportedTimeStepsForPollutants codes)
      = Some (getInitialTimeStepForPollutants codes fallback)
      \/ getSupportedTimeStepsForPollutants codes = [])
  /\ getInitialTimeStepForPollutants codes
       (getInitialTimeStepForPollutants codes fallback)
     = getInitialTimeStepForPollutants codes fallback.
Proof.
  unfold getInitialTimeStepForPollutants.
  destruct (getSupportedTimeStepsForPollutants codes) as [|first rest] eqn:Hs.
  - repeat split; try done. intros _. by right.
  - destruct (includes (first :: rest) fallback) eqn:Hin.
    + rewrite Hin. repeat split; try done.
    + assert (includes (first :: rest) first = true) as Hfirst.
      { apply includes_In. by left. }
      rewrite Hfirst. repeat split; try done.
      * intros [|]; done.
      * intros _. by left.
Qed.

(** ** The range policy *)

(** The policy corrects a range exactly when the step is not valid for
    it, in the sense of the check that disables step buttons; a range it
    does not correct is returned as it is; the range it returns is valid
    for the step. *)
Theorem adjustment_mirrors_validity
    (now : Z) (range : TimeRange) (stp : string) :
  wasAdjusted (adjustTimeRangeIfNeeded now range stp)
  = negb (isTimeStepValidForRange range stp)
  /\ (isTimeStepValidForRange range stp = true ->
      adjustedRange (adjustTimeRangeIfNeeded now range stp) = range)
  /\ isTimeStepValidForRange
       (adjustedRange (adjustTimeRangeIfNeeded now range stp)) stp = true.
Proof.
  split; [|split; [|apply adjusted_range_fits]];
    unfold isTimeStepValidForRange, adjustTimeRangeIfNeeded;
    (destruct (maxDaysOf stp) as [maxDays|]; [|done]);
    destruct range as [[] [p|] [c|]]; simpl; try done; unfold Qgtb.
  all: try (destruct (Qle_bool _ _); done).
  all: try (rewrite Z.leb_antisym; destruct (_ <? _); done).
  all: rewrite Z.leb_antisym; destruct (_ <? _); simpl; done.
Qed.

Lemma corrected_range_shape
    (now : Z) (range : TimeRange) (stp : string) :
  wasAdjusted (adjustTimeRangeIfNeeded now range stp) = true ->
  exists maxDays c,
    maxDaysOf stp = Some maxDays
    /\ adjustedRange (adjustTimeRangeIfNeeded now range stp)
       = {| type := custom_t; preset := None; custom := Some c |}
    /\ endDate c - startDate c = maxDays
    /\ endDate c
       = match type range, custom range with
         | custom_t, Some given => endDate given
         | _, _ => isoDate now
         end.
Proof.
  unfold adjustTimeRangeIfNeeded.
  destruct (maxDaysOf stp) as [maxDays|]; [|done].
  destruct range as [[] [p|] [c|]]; simpl; try done.
  all: match goal with
       | |- context [Qgtb ?a ?b] => destruct (Qgtb a b)
       | |- context [?a <? ?b] => destruct (a <? b)
       end; simpl; try done; intros _.
  all: eexists maxDays, _; split; [done|]; split; [done|]; simpl;
    rewrite isoDate_back, ?isoDate_getTime; split; [lia|done].
Qed.

(** A corrected range is a custom range that ends on the day the given
    range ended (today for a preset) and starts the maximum history
    earlier. *)
Theorem corrected_range_spans_the_maximum
    (now : Z) (range : TimeRange) (stp : string) :
  wasAdjusted (adjustTimeRangeIfNeeded now range stp) = true ->
  exists maxDays c,
    maxDaysOf stp = Some maxDays
    /\ adjustedRange (adjustTimeRangeIfNeeded now range stp)
       = {| type := custom_t; preset := None; custom := Some c |}
    /\ endDate c - startDate c = maxDays
    /\ endDate c
       = match type range, custom range with
         | custom_t, Some given => endDate given
         | _, _ => isoDate now
         end.
Proof.
  intros Hadjusted. unfold adjustTimeRangeIfNeeded in *.
  destruct (maxDaysOf stp) as [maxDays|]; [|done].
  exists maxDays.
  destruct range as [[] [p|] [[first last]|]]; simpl in *; try done.
  all: match type of Hadjusted with
       | context [if ?b then _ else _] => destruct b
       end; simpl in *; try done.
  all: eexists; split; [done|]; split; [done|]; simpl.
  all: rewrite isoDate_back, ?isoDate_getTime; split; [lia|done].
Qed.

(** ** The fetched window *)

(** For a range without custom dates the window ends now and is as long
    as the policy table says for its preset, one day when the preset is
    missing. *)
Theorem preset_window_matches_the_policy_table (now : Z) (range : TimeRange) :
  type range = preset_t \/ custom range = None ->
  snd (getDateRange now range) = now
  /\ (inject_Z (now - fst (getDateRange now range))
      == presetDays (default P24h (preset range)) * inject_Z MS_PER_DAY)%Q.
Proof.
  intros Hshape. unfold getDateRange.
  assert (forall c, now - (now - c) = c) as Hsub by (intros; lia).
  destruct range as [[] [[]|] [c|]]; simpl in *;
    try (destruct Hshape; discriminate);
    (split; [done|]); rewrite Hsub; reflexivity.
Qed.

Lemma custom_window_length (now : Z) (range : TimeRange) (c : CustomRange) :
  type range = custom_t ->
  custom range = Some c ->
  (forall a b, localTimeToUtc a - localTimeToUtc b = a - b) ->
  snd (getDateRange now range) - fst (getDateRange now range)
  = (endDate c - startDate c + 1) * MS_PER_DAY - 1.
Proof.
  intros Htype Hcustom Hoffset. unfold getDateRange.
  rewrite Htype, Hcustom. simpl. rewrite Hoffset.
  unfold getTime. lia.
Qed.

(** The window fetched for a corrected range is one day longer than the
    maximum history of the step, less a millisecond. *)
Theorem corrected_window_exceeds_the_maximum
    (now later : Z) (range : TimeRange) (stp : string) :
  (forall a b, localTimeToUtc a - localTimeToUtc b = a - b) ->
  wasAdjusted (adjustTimeRangeIfNeeded now range stp) = true ->
  exists maxDays,
    maxDaysOf stp = Some maxDays
    /\ snd (getDateRange later (adjustedRange (adjustTimeRangeIfNeeded now range stp)))
       - fst (getDateRange later (adjustedRange (adjustTimeRangeIfNeeded now range stp)))
       = (maxDays + 1) * MS_PER_DAY - 1.
Proof.
  intros Hoffset Hadjusted.
  destruct (corrected_range_shape now range stp Hadjusted)
    as (maxDays & c & Hmax & Hrange & Hspan & _).
  exists maxDays. split; [done|].
  rewrite (custom_window_length later _ c); [by rewrite Hspan| | |done];
    by rewrite Hrange.
Qed.

(** ** What every run keeps *)

Lemma includes_false (l : list string) (x : string) :
  includes l x = false -> x ∉ l.
Proof.
  intros Hno Hin%list_elem_of_In%includes_In. by rewrite Hin in Hno.
Qed.

Lemma toggleSelection_NoDup (selected : list string) (code : string) :
  NoDup selected -> NoDup (toggleSelection selected code).
Proof.
  intros Hselected. unfold toggleSelection.
  destruct (includes selected code) eqn:Hin.
  - by apply NoDup_ListNoDup, List.NoDup_filter, NoDup_ListNoDup.
  - apply NoDup_app. split; [done|]. split; [|apply NoDup_singleton].
    intros x Hx ->%list_elem_of_singleton. by apply includes_false in Hin.
Qed.

Lemma initialSelection_NoDup (station : StationInfo) :
  NoDup (initialSelection station).
Proof.
  unfold initialSelection.
  destruct (includes _ initialPollutant); [apply NoDup_singleton|].
  destruct (getAvailablePollutants (Some station));
    [apply NoDup_nil_2|apply NoDup_singleton].
Qed.

Lemma stationEffect_selection (w : Panel) :
  selectedPollutants (chartControls (state (stationEffect w)))
  = selectedPollutants (chartControls (state w))
  \/ exists station,
       selectedPollutants (chartControls (state (stationEffect w)))
       = initialSelection station.
Proof.
  unfold stationEffect.
  destruct (props_isOpen w); simpl; [|by left].
  destruct (props_selectedStation w) as [station|]; [|by left].
  destruct (refIs (stationIdRef w) (station_id station)); simpl; [by left|].
  right. exists station.
  repeat match goal with |- context [if ?b then _ else _] => destruct b end;
    done.
Qed.

(** A change of props either leaves the panel as it is, but for its life,
    or runs the station effect on it. *)
Lemma changeProps_cases (o : bool) (station : option StationInfo) (w : Panel) :
  (exists l, changeProps o station w = setLife l w)
  \/ (exists l,
        changeProps o station w
        = stationEffect (setLife l (setProps o station w))).
Proof.
  unfold changeProps. destruct (life w) eqn:Hlife.
  - right. by exists Mounted.
  - destruct (Bool.eqb _ _).
    + right. exists Mounted. by rewrite setLife_same.
    + left. by exists Unmounted.
  - left. exists Unmounted. by rewrite setLife_same.
Qed.

Lemma step_selection (now : Z) (e : Event) (w : Panel) :
  selectedPollutants (chartControls (state (step now e w)))
  = selectedPollutants (chartControls (state w))
  \/ (exists code,
        selectedPollutants (chartControls (state (step now e w)))
        = toggleSelection (selectedPollutants (chartControls (state w))) code)
  \/ (exists station,
        selectedPollutants (chartControls (state (step now e w)))
        = initialSelection station).
Proof.
  destruct e as [o station| |i outcome|i outcome|code|atCall range|atCall stp|]; simpl.
  - destruct (changeProps_cases o station w) as [[l ->]|[l ->]]; [by left|].
    destruct (stationEffect_selection (setLife l (setProps o station w)))
      as [Hsame|Hnew]; [by left|by right; right].
  - left. destruct (frames w) as [|cb rest]; [done|]. unfold runFrame.
    destruct (_ && _); [|done]. by rewrite loadHistoricalData_controls.
  - left. destruct (loads w !! i); [|done]. by destruct outcome.
  - left. destruct (fetches w !! i); [|done]. by destruct outcome.
  - right. left. exists code. by rewrite toggle_controls.
  - left. unfold handleTimeRangeChange. by rewrite applyControls_controls.
  - left. unfold handleTimeStepChange. destruct (negb _); [done|].
    by rewrite applyControls_controls.
  - left. unfold clearInfoMessage. by destruct (infoTimers w).
Qed.

(** The selection never holds a pollutant twice, whatever the events. *)
Theorem selection_has_no_duplicate (events : list (Z * Event)) :
  NoDup (selectedPollutants (chartControls (state (run events initialPanel)))).
Proof.
  assert (forall w,
    NoDup (selectedPollutants (chartControls (state w))) ->
    NoDup (selectedPollutants (chartControls (state (run events w))))) as Hrun.
  { induction events as [|[now e] events IH]; intros w Hw; [done|].
    simpl. apply IH.
    destruct (step_selection now e w) as [->|[[code ->]|[station ->]]];
      [done|by apply toggleSelection_NoDup|apply initialSelection_NoDup]. }
  apply Hrun. apply NoDup_singleton.
Qed.

Lemma pushed_not_nil {A} (l : list A) (x : A) : (l ++ [x])%list <> [].
Proof. by destruct l. Qed.

Ltac split_cases :=
  repeat match goal with
  | |- context [match ?x with _ => _ end] => destruct x eqn:?; simpl
  end.

Lemma loadHistoricalData_keeps_flags (now : Z) (station : StationInfo)
    (codes : list string) (range : TimeRange) (stp : string) (w : Panel) :
  (loading (state w) = true -> loads w <> []) ->
  (infoMessage (state w) <> None -> infoTimers w <> 0%nat) ->
  isLoading w = loadingRef w ->
  flagsInvariant (loadHistoricalData now station codes range stp w).
Proof.
  intros Hload Hinfo Hsame. unfold loadHistoricalData, flagsInvariant.
  destruct codes as [|code codes]; simpl.
  - repeat split; done.
  - repeat split; try done; intros _; apply pushed_not_nil.
Qed.

Lemma applyControls_keeps_flags (now : Z) (atCall : bool) (adjusted : Adjusted)
    (stp : string) (w : Panel) :
  flagsInvariant w -> flagsInvariant (applyControls now atCall adjusted stp w).
Proof.
  intros (Hload & Hlatch & Hsame & Hinfo). unfold applyControls.
  destruct atCall.
  - unfold loadHistoricalData.
    split_cases; unfold flagsInvariant; simpl; repeat split;
      first [done | intros _; apply pushed_not_nil].
  - split_cases; try (apply loadHistoricalData_keeps_flags; simpl; done);
      unfold flagsInvariant; simpl; repeat split; done.
Qed.

Lemma stationEffect_keeps_flags (w : Panel) :
  flagsInvariant w -> flagsInvariant (stationEffect w).
Proof.
  intros Hinv. pose proof Hinv as (Hload & Hlatch & Hsame & Hinfo).
  unfold stationEffect. destruct (props_isOpen w); simpl.
  - destruct (props_selectedStation w) as [station|]; [|done].
    split_cases; unfold flagsInvariant; simpl; repeat split; done.
  - unfold flagsInvariant. simpl. repeat split; done.
Qed.

Lemma step_keeps_flags (now : Z) (e : Event) (w : Panel) :
  flagsInvariant w -> flagsInvariant (step now e w).
Proof.
  intros Hinv. pose proof Hinv as (Hload & Hlatch & Hsame & Hinfo).
  assert (flagsInvariant (handle now e w)) as Hhandled; [|done].
  destruct e as [o station| |i outcome|i outcome|code|atCall range|atCall stp|]; simpl.
  - destruct (changeProps_cases o station w) as [[l ->]|[l ->]]; [done|].
    by apply stationEffect_keeps_flags.
  - destruct (frames w) as [|cb rest]; [done|]. unfold runFrame. simpl.
    destruct (_ && _); [|done].
    apply loadHistoricalData_keeps_flags; done.
  - destruct (loads w !! i) as [call|]; [|done].
    destruct outcome; unfold flagsInvariant; simpl; repeat split; done.
  - destruct (fetches w !! i) as [params|]; [|done].
    destruct outcome; unfold flagsInvariant; simpl; repeat split; done.
  - unfold handlePollutantToggle.
    split_cases; unfold flagsInvariant; simpl; repeat split; done.
  - by apply applyControls_keeps_flags.
  - unfold handleTimeStepChange. destruct (negb _); [done|].
    by apply applyControls_keeps_flags.
  - unfold clearInfoMessage.
    destruct (infoTimers w) as [|n] eqn:Hn;
      [unfold flagsInvariant; rewrite Hn; repeat split; done|].
    unfold flagsInvariant; simpl; repeat split; first [done|congruence].
Qed.

Lemma run_keeps_flags (events : list (Z * Event)) (w : Panel) :
  flagsInvariant w -> flagsInvariant (run events w).
Proof.
  revert w. induction events as [|[now e] events IH]; intros w Hw; [done|].
  simpl. by apply IH, step_keeps_flags.
Qed.

Lemma initial_flags : flagsInvariant initialPanel.
Proof. unfold flagsInvariant. simpl. repeat split; done. Qed.

(** Whatever the events, the spinner is shown and the latch is set only
    while some load is suspended, whose settlement clears both. *)
Theorem spinner_and_latch_have_a_pending_load (events : list (Z * Event)) :
  (loading (state (run events initialPanel)) = true \/
   loadingRef (run events initialPanel) = true \/
   isLoading (run events initialPanel) = true ->
   loads (run events initialPanel) <> [])
  /\ forall now i outcome,
       is_Some (loads (run events initialPanel) !! i) ->
       loading (state (step now (LoadSettles i outcome) (run events initialPanel)))
       = false
       /\ loadingRef (step now (LoadSettles i outcome) (run events initialPanel))
          = false.
Proof.
  destruct (run_keeps_flags events initialPanel initial_flags)
    as (Hload & Hlatch & Hsame & _).
  split.
  - intros [H|[H|H]]; [by apply Hload|by apply Hlatch|].
    apply Hlatch. by rewrite <- Hsame.
  - intros now i outcome [call Hcall]. simpl. rewrite Hcall.
    by destruct outcome.
Qed.

(** Whatever the events, the adjustment notice is shown only while one of
    its timers is pending, and the timer takes it down. *)
Theorem notice_has_a_pending_timer (events : list (Z * Event)) :
  (infoMessage (state (run events initialPanel)) <> None ->
   infoTimers (run events initialPanel) <> 0%nat)
  /\ forall now,
       infoTimers (run events initialPanel) <> 0%nat ->
       infoMessage (state (step now InfoTimeout (run events initialPanel)))
       = None.
Proof.
  destruct (run_keeps_flags events initialPanel initial_flags)
    as (_ & _ & _ & Hinfo).
  split; [done|].
  intros now Htimers. simpl. unfold clearInfoMessage.
  by destruct (infoTimers (run events initialPanel)).
Qed.

(** ** Station selection and the early return *)

Lemma stationEffect_life (w : Panel) : life (stationEffect w) = life w.
Proof.
  unfold stationEffect.
  repeat match goal with
         | |- context [if ?b then _ else _] => destruct b
         | |- context [match ?x with _ => _ end] => destruct x
         end; done.
Qed.

Lemma stationEffect_props (w : Panel) :
  props_isOpen (stationEffect w) = props_isOpen w
  /\ props_selectedStation (stationEffect w) = props_selectedStation w.
Proof.
  unfold stationEffect.
  destruct (props_isOpen w) eqn:Hopen; simpl; [|by rewrite Hopen].
  destruct (props_selectedStation w) as [station|] eqn:Hstation; [|done].
  repeat match goal with
         | |- context [if ?b then _ else _] => destruct b
         end; simpl; by rewrite ?Hopen, ?Hstation.
Qed.

Lemma stationEffect_twice (o : bool) (station : option StationInfo) (w : Panel) :
  stationEffect (setProps o station (stationEffect (setProps o station w)))
  = stationEffect (setProps o station w).
Proof.
  unfold stationEffect. simpl.
  destruct o; simpl; [|done].
  destruct station as [station|]; simpl; [|done].
  destruct (refIs (stationIdRef w) (station_id station)) eqn:Href; simpl.
  - rewrite Href. done.
  - destruct ((0 <? length (initialSelection station))%nat
              && negb (loadingRef w)); simpl; rewrite String.eqb_refl; done.
Qed.

Lemma changeProps_twice (o : bool) (station : option StationInfo) (w : Panel) :
  changeProps o station (changeProps o station w) = changeProps o station w.
Proof.
  destruct (life w) eqn:Hlife.
  - assert (changeProps o station w
            = stationEffect (setLife Mounted (setProps o station w))) as ->
      by (unfold changeProps; by rewrite Hlife).
    unfold changeProps. rewrite stationEffect_life. simpl.
    destruct (stationEffect_props (setLife Mounted (setProps o station w)))
      as [-> ->]. simpl. rewrite Bool.eqb_reflx.
    apply (stationEffect_twice o station (setLife Mounted w)).
  - destruct (Bool.eqb (shown o station)
                (shown (props_isOpen w) (props_selectedStation w))) eqn:Hsame.
    + assert (changeProps o station w = stationEffect (setProps o station w))
        as -> by (unfold changeProps; by rewrite Hlife, Hsame).
      unfold changeProps. rewrite stationEffect_life. simpl. rewrite Hlife.
      destruct (stationEffect_props (setProps o station w)) as [-> ->]. simpl.
      rewrite Bool.eqb_reflx. apply stationEffect_twice.
    + assert (changeProps o station w = setLife Unmounted w)
        as -> by (unfold changeProps; by rewrite Hlife, Hsame).
      done.
  - assert (changeProps o station w = w) as ->
      by (unfold changeProps; by rewrite Hlife).
    unfold changeProps. by rewrite Hlife.
Qed.

(** The render of a panel either unmounts it or leaves it as it is. *)
Lemma rerender_cases (w : Panel) :
  (renderThrows w = true /\ rerender w = setLife Unmounted w)
  \/ (renderThrows w = false /\ rerender w = w).
Proof.
  unfold rerender. destruct (renderThrows w); [by left|right].
  split; [done|]. by apply setLife_same.
Qed.

(** Running the station effect again with the same props changes
    nothing: no second reset, no second animation frame. *)
Theorem station_effect_is_idempotent
    (now later : Z) (o : bool) (station : option StationInfo) (w : Panel) :
  step later (PropsChange o station) (step now (PropsChange o station) w)
  = step now (PropsChange o station) w.
Proof.
  unfold step. simpl.
  destruct (rerender_cases (changeProps o station w)) as [[_ ->]|[Hrenders ->]].
  - done.
  - rewrite changeProps_twice. unfold rerender. rewrite Hrenders.
    by apply setLife_same.
Qed.










(** ** Pollutant toggle *)

Lemma filter_other_than (selected : list string) (code : string) :
  code ∉ selected ->
  List.filter (fun p => negb (String.eqb p code)) selected = selected.
Proof.
  induction selected as [|x selected IH]; intros Hno; simpl; [done|].
  apply not_elem_of_cons in Hno as [Hx Hrest].
  assert (String.eqb x code = false) as -> by (apply String.eqb_neq; congruence).
  simpl. by rewrite IH.
Qed.

Lemma removed_then_appended (selected : list string) (code : string) :
  NoDup selected ->
  code ∈ selected ->
  Permutation
    (List.filter (fun p => negb (String.eqb p code)) selected ++ [code])
    selected.
Proof.
  induction 1 as [|x selected Hx Hnodup IH]; intros Hin.
  - by apply elem_of_nil in Hin.
  - simpl. destruct (String.eqb x code) eqn:Heq; simpl.
    + apply String.eqb_eq in Heq. subst x.
      rewrite filter_other_than by done.
      symmetry. apply Permutation_cons_append.
    + apply String.eqb_neq in Heq.
      apply elem_of_cons in Hin as [->|Hin]; [done|].
      constructor. by apply IH.
Qed.

Lemma toggled_on_then_off (selected : list string) (code : string) :
  includes selected code = false ->
  toggleSelection (toggleSelection selected code) code = selected.
Proof.
  intros Hin. unfold toggleSelection. rewrite Hin.
  assert (includes (selected ++ [code]) code = true) as ->.
  { apply includes_In, in_or_app. right. by left. }
  rewrite List.filter_app. simpl. rewrite String.eqb_refl. simpl.
  rewrite app_nil_r. apply filter_other_than. by apply includes_false.
Qed.

Lemma toggled_off_then_on (selected : list string) (code : string) :
  NoDup selected ->
  includes selected code = true ->
  Permutation (toggleSelection (toggleSelection selected code) code) selected.
Proof.
  intros Hnodup Hin. unfold toggleSelection. rewrite Hin.
  assert (includes (List.filter (fun p => negb (String.eqb p code)) selected) code
          = false) as ->.
  { apply not_true_iff_false. rewrite includes_In, filter_In.
    intros [_ Hneq]. by rewrite String.eqb_refl in Hneq. }
  apply removed_then_appended; [done|].
  by apply list_elem_of_In, includes_In.
Qed.

Lemma moved_to_the_end (selected : list string) (code : string) :
  NoDup selected ->
  includes selected code = true ->
  exists before after,
    selected = (before ++ code :: after)%list
    /\ toggleSelection (toggleSelection selected code) code
       = (before ++ after ++ [code])%list.
Proof.
  intros Hnodup Hin. pose proof Hin as Hsplit.
  apply includes_In, in_split in Hsplit as (before & after & ->).
  exists before, after. split; [done|].
  apply NoDup_app in Hnodup as (_ & Hbefore & Hafter).
  apply NoDup_cons in Hafter as [Hafter _].
  assert (code ∉ before) as Hnot.
  { intros Hcode. apply (Hbefore code Hcode). by left. }
  unfold toggleSelection at 2. rewrite Hin.
  rewrite List.filter_app. simpl. rewrite String.eqb_refl. simpl.
  rewrite !filter_other_than by done.
  unfold toggleSelection.
  assert (includes (before ++ after) code = false) as ->.
  { apply not_true_iff_false. rewrite includes_In, in_app_iff.
    intros [Hcode|Hcode]; apply list_elem_of_In in Hcode; done. }
  by rewrite <- app_assoc.
Qed.

(** Toggling a pollutant twice gives the selection back: exactly when the
    pollutant was not selected, and with the pollutant moved from its
    place to the end, the others keeping their order, when it was. *)
Theorem toggling_twice_restores_the_selection
    (selected : list string) (code : string) :
  NoDup selected ->
  Permutation (toggleSelection (toggleSelection selected code) code) selected
  /\ (includes selected code = false ->
      toggleSelection (toggleSelection selected code) code = selected)
  /\ (includes selected code = true ->
      exists before after,
        selected = (before ++ code :: after)%list
        /\ toggleSelection (toggleSelection selected code) code
           = (before ++ after ++ [code])%list).
Proof.
  intros Hnodup. split; [|split; [apply toggled_on_then_off|]].
  - destruct (includes selected code) eqn:Hin.
    + by apply toggled_off_then_on.
    + by rewrite toggled_on_then_off.
  - by apply moved_to_the_end.
Qed.

(** Once the fetch of a toggled pollutant is fulfilled its series is in
    the store, and toggling that pollutant again, on or off, starts
    nothing. *)
Theorem fetched_series_is_cached
    (now later : Z) (w : Panel) (i : nat) (params : FetchParams)
    (data : list HistoricalDataPoint) :
  fetches w !! i = Some params ->
  let w' := step now (FetchSettles i (FetchFulfilled data)) w in
  historicalData (state w') !! pollutant params = Some data
  /\ fetches (handlePollutantToggle later (pollutant params) w') = fetches w'
  /\ loads (handlePollutantToggle later (pollutant params) w') = loads w'.
Proof.
  intros Hparams w'.
  assert (historicalData (state w') !! pollutant params = Some data) as Hdata.
  { unfold w'. simpl. rewrite Hparams. simpl. apply lookup_insert_eq. }
  split; [done|].
  destruct (toggle_cached_starts_nothing later _ w' data Hdata) as (? & ? & _).
  done.
Qed.

(** ** Changes of range and step *)

Lemma valid_range_not_adjusted (now : Z) (range : TimeRange) (stp : string) :
  isTimeStepValidForRange range stp = true ->
  adjustTimeRangeIfNeeded now range stp
  = {| adjustedRange := range; wasAdjusted := false |}.
Proof.
  unfold isTimeStepValidForRange, adjustTimeRangeIfNeeded.
  destruct (maxDaysOf stp) as [maxDays|]; [|done].
  destruct range as [[] [p|] [c|]]; simpl; try done; unfold Qgtb.
  all: try (intros ->; done).
  all: rewrite Z.leb_antisym; intros ->%negb_true_iff; done.
Qed.

(** A step button that is not disabled changes the step and nothing else
    of the controls: the range is kept, no notice is shown, and one load
    is dispatched for the kept range at the new step when a pollutant is
    selected. *)
Theorem enabled_step_change_keeps_the_range
    (now : Z) (atCall : bool) (stp : string) (w : Panel) :
  enabled (TimeStepChange atCall stp) w = true ->
  chartControls (state (step now (TimeStepChange atCall stp) w))
  = {| selectedPollutants := selectedPollutants (chartControls (state w));
       timeRange := timeRange (chartControls (state w));
       timeStep := stp |}
  /\ infoMessage (state (step now (TimeStepChange atCall stp) w)) = None
  /\ infoTimers (step now (TimeStepChange atCall stp) w) = infoTimers w
  /\ (selectedPollutants (chartControls (state w)) <> [] ->
      exists call,
        loads (step now (TimeStepChange atCall stp) w) = (loads w ++ [call])%list
        /\ load_timeRange call = timeRange (chartControls (state w))
        /\ load_timeStep call = stp
        /\ load_pollutants call = selectedPollutants (chartControls (state w))).
Proof.
  simpl. intros Henabled.
  apply andb_true_iff in Henabled as [Henabled Hvalid].
  apply andb_true_iff in Henabled as [Henabled Hsupported].
  apply andb_true_iff in Henabled as [Hrendered _].
  unfold controlsRendered in Hrendered.
  apply andb_true_iff in Hrendered as [Hrendered _].
  apply andb_true_iff in Hrendered as [Hrendered _].
  apply andb_true_iff in Hrendered as [_ Hstation].
  apply bool_decide_eq_true in Hstation as [station Hstation].
  unfold handleTimeStepChange. rewrite Hsupported. simpl.
  rewrite (valid_range_not_adjusted _ _ _ Hvalid).
  unfold applyControls. rewrite Hstation. simpl.
  unfold loadHistoricalData.
  destruct atCall;
    destruct (selectedPollutants (chartControls (state w))) as [|code codes]
      eqn:Hselected; simpl; rewrite ?Hselected; repeat split; try done.
  all: intros _; eauto.
Qed.

(** With no pollutant selected, a change of range suspends no load and
    clears the latch.  When React runs the updater in the render, the
    store is emptied at once, cached series included; when it runs the
    updater at the call, the emptying is replaced by the result of the
    updater and the store and the flags of the state stay as they
    were. *)
Theorem reload_with_nothing_selected_empties_the_store
    (now : Z) (atCall : bool) (range : TimeRange) (w : Panel)
    (station : StationInfo) :
  props_selectedStation w = Some station ->
  selectedPollutants (chartControls (state w)) = [] ->
  let w' := handleTimeRangeChange now atCall range w in
  historicalData (state w')
  = (if atCall then historicalData (state w) else ∅)
  /\ loading (state w') = (if atCall then loading (state w) else false)
  /\ error (state w') = (if atCall then error (state w) else None)
  /\ loads w' = loads w
  /\ loadingRef w' = false
  /\ isLoading w' = false.
Proof.
  intros Hstation Hnone. unfold handleTimeRangeChange, applyControls.
  rewrite Hstation, Hnone.
  destruct atCall; destruct (if wasAdjusted _ then _ else _); done.
Qed.

Lemma newHistoricalData_from (codes : list string)
    (responses : string -> list HistoricalDataPoint)
    (acc : gmap string (list HistoricalDataPoint)) (code : string) :
  fold_left (fun acc code => <[code := responses code]> acc) codes acc !! code
  = if includes codes code then Some (responses code) else acc !! code.
Proof.
  revert acc. induction codes as [|first codes IH]; intros acc; [done|].
  simpl. rewrite IH. unfold includes in *.
  destruct (existsb (String.eqb code) codes); simpl.
  - by rewrite orb_true_r.
  - rewrite orb_false_r. destruct (String.eqb code first) eqn:Heq.
    + apply String.eqb_eq in Heq. subst. apply lookup_insert_eq.
    + apply String.eqb_neq in Heq. by apply lookup_insert_ne.
Qed.

(** A fulfilled load replaces the whole store: afterwards the store holds
    the series received for each pollutant of the load and nothing else,
    so the cached series of any other pollutant is gone. *)
Theorem fulfilled_load_replaces_the_store
    (now : Z) (w : Panel) (i : nat) (call : LoadCall)
    (responses : string -> list HistoricalDataPoint) (code : string) :
  loads w !! i = Some call ->
  historicalData (state (step now (LoadSettles i (LoadFulfilled responses)) w))
    !! code
  = if includes (load_pollutants call) code then Some (responses code) else None.
Proof.
  intros Hcall. simpl. rewrite Hcall. simpl. unfold newHistoricalData.
  by rewrite newHistoricalData_from, lookup_empty.
Qed.

(** ** The error notice *)

Lemma step_keeps_error (now : Z) (e : Event) (w : Panel) :
  fromControlsOrSettlement e = true ->
  enabled e w = true ->
  error (state w) <> None ->
  error (state (step now e w)) <> None.
Proof.
  intros Hkind Henabled Herror.
  assert (controlsRendered w = false) as Hhidden.
  { unfold controlsRendered. rewrite (bool_decide_eq_false_2 _ Herror).
    by rewrite andb_false_r. }
  destruct e as [o station| |i outcome|i outcome|code|atCall range|atCall stp|];
    simpl in *; try done; rewrite ?Hhidden in Henabled; try done.
  - destruct (loads w !! i); [|done]. by destruct outcome.
  - destruct (fetches w !! i); [|done]. by destruct outcome.
  - unfold clearInfoMessage. by destruct (infoTimers w).
Qed.

(** While the error notice is up the controls are not rendered, and
    neither a settlement nor a timer takes the notice down: it stays
    until the props change or a scheduled animation frame runs. *)
Theorem error_notice_stays (events : list (Z * Event)) (w : Panel) :
  error (state w) <> None ->
  forallb (fun e => fromControlsOrSettlement (snd e)) events = true ->
  feasible events w = true ->
  error (state (run events w)) <> None.
Proof.
  revert w. induction events as [|[now e] events IH]; intros w Herror Hkind Hfeasible;
    [done|].
  simpl in *. apply andb_true_iff in Hkind as [Hkind Hkinds].
  apply andb_true_iff in Hfeasible as [Henabled Hfeasible].
  apply IH; [|done|done]. by apply step_keeps_error.
Qed.

(** ** Statistics *)

(** The statistics read the series of the first selected pollutant only:
    the series of another pollutant does not change them, and they are
    [null] while the first pollutant has no series. *)
Theorem stats_read_the_primary_series_only
    (st : SidePanelState) (primary : string) (others : list string)
    (other : string) (data : list HistoricalDataPoint) :
  selectedPollutants (chartControls st) = primary :: others ->
  other <> primary ->
  stats (withSeries other data st) = stats st
  /\ (historicalData st !! primary = None -> stats st = Normal None).
Proof.
  intros Hselected Hother. unfold stats, withSeries. simpl.
  rewrite Hselected. destruct (String.eqb primary ""); [done|].
  rewrite lookup_insert_ne by done. split; [done|]. by intros ->.
Qed.

(** ** The age of the last emission *)

Lemma div_lt_iff (a b q : Z) : 0 < b -> a / b < q <-> a < b * q.
Proof.
  intros Hb. split; [|by apply Z.div_lt_upper_bound].
  intros Hlt. destruct (Z.lt_ge_cases a (b * q)) as [|Hge]; [done|].
  apply Z.div_le_lower_bound in Hge; lia.
Qed.

(** The wording of the age goes by the seconds elapsed: under a minute,
    then whole minutes up to the hour, whole hours up to the day, whole
    days up to the week, and the date from a week on; the unit takes its
    plural from two on.  A negative age reads as under a minute. *)
Theorem formatLastSeen_by_seconds (now sec : Z) :
  formatLastSeen now (Some sec)
  = Some
      (if sec <? 60 then "Il y a moins d'une minute"
       else if sec <? 3600 then ilYA (sec / 60) "minute"
       else if sec <? 86400 then ilYA (sec / 3600) "heure"
       else if sec <? 604800 then ilYA (sec / 86400) "jour"
       else "Dernière émission : " ++ toLocaleDateString (now - sec * 1000))
  /\ (60 <= sec < 604800 ->
      exists n unit,
        formatLastSeen now (Some sec) = Some (ilYA n unit)
        /\ 1 <= n < 60
        /\ (unit = "minute" \/ unit = "heure" \/ unit = "jour")).
Proof.
  assert (formatLastSeen now (Some sec)
          = Some
              (if sec <? 60 then "Il y a moins d'une minute"
               else if sec <? 3600 then ilYA (sec / 60) "minute"
               else if sec <? 86400 then ilYA (sec / 3600) "heure"
               else if sec <? 604800 then ilYA (sec / 86400) "jour"
               else "Dernière émission : "
                    ++ toLocaleDateString (now - sec * 1000))) as Hwording.
  { unfold formatLastSeen.
    rewrite !Z.div_div by lia. change (60 * 60) with 3600.
    change (3600 * 24) with 86400. f_equal.
    pose proof (div_lt_iff sec 60 1) as H1.
    pose proof (div_lt_iff sec 60 60) as H2.
    pose proof (div_lt_iff sec 3600 24) as H3.
    pose proof (div_lt_iff sec 86400 7) as H4.
    repeat match goal with
           | |- context [?a <? ?b] => destruct (Z.ltb_spec a b)
           end; try done; lia. }
  split; [done|]. intros Hsec. rewrite Hwording.
  repeat match goal with
         | |- context [?a <? ?b] => destruct (Z.ltb_spec a b)
         end; try lia.
  - exists (sec / 60), "minute". split; [done|]. split; [|by left].
    split; [apply Z.div_le_lower_bound|apply Z.div_lt_upper_bound]; lia.
  - exists (sec / 3600), "heure". split; [done|]. split; [|by right; left].
    split; [apply Z.div_le_lower_bound|apply Z.div_lt_upper_bound]; lia.
  - exists (sec / 86400), "jour". split; [done|]. split; [|by right; right].
    split; [apply Z.div_le_lower_bound|apply Z.div_lt_upper_bound]; lia.
Qed.

(** ** The initial selection *)

Lemma config_of_an_entry (e : string * PollutantConfig) :
  In e pollutants -> is_Some (pollutantConfig (fst e)).
Proof.
  intros Hin. unfold pollutantConfig, lookupPollutant.
  destruct (List.find _ pollutants) as [found|] eqn:Hfind; [by eexists|].
  exfalso. apply (List.find_none _ _ Hfind e) in Hin.
  by rewrite String.eqb_refl in Hin.
Qed.

Lemma available_is_offered (station : StationInfo) (code : string) :
  In code (getAvailablePollutants (Some station)) ->
  isPollutantAvailable (Some station) code = true
  /\ is_Some (pollutantConfig code).
Proof.
  unfold getAvailablePollutants.
  intros (e & <- & [He Havailable]%filter_In)%in_map_iff.
  split; [done|]. by apply config_of_an_entry.
Qed.

(** The selection made for a station holds at most one pollutant, which
    is in service at the station and known to the pollutants table; it
    is empty only when the station offers no pollutant at all. *)
Theorem initial_selection_is_available (station : StationInfo) :
  (length (initialSelection station) <= 1)%nat
  /\ Forall (fun code =>
       isPollutantAvailable (Some station) code = true
       /\ is_Some (pollutantConfig code))
       (initialSelection station)
  /\ (initialSelection station = [] <->
      getAvailablePollutants (Some station) = []).
Proof.
  unfold initialSelection.
  destruct (includes (getAvailablePollutants (Some station)) initialPollutant)
    eqn:Hinitial.
  - apply includes_In in Hinitial as Hin.
    split; [simpl; lia|]. split.
    + constructor; [by apply available_is_offered|constructor].
    + split; [done|]. intros Hnone. by rewrite Hnone in Hin.
  - destruct (getAvailablePollutants (Some station)) as [|first rest] eqn:Hoffered.
    + split; [simpl; lia|]. split; [constructor|done].
    + split; [simpl; lia|]. split; [|done].
      constructor; [|constructor]. apply available_is_offered.
      rewrite Hoffered. by left.
Qed.

(** ** The reload after a change of range *)

(** After a change of range the controls show the range the policy
    returned, which fits the step; with a station and a pollutant
    selected, exactly one load is dispatched, for that same range, the
    selection and the step of the controls; the notice is shown exactly
    when the range was corrected.  The spinner is raised and the error
    cleared when React runs the updater in the render; when it runs the
    updater at the call, the loading flag and the error stay as they
    were, and the load proceeds without a spinner. *)
Theorem range_change_reloads_what_the_controls_show
    (now : Z) (atCall : bool) (range : TimeRange) (w : Panel)
    (station : StationInfo) :
  props_selectedStation w = Some station ->
  selectedPollutants (chartControls (state w)) <> [] ->
  let w' := step now (TimeRangeChange atCall range) w in
  exists call,
    loads w' = (loads w ++ [call])%list
    /\ load_station call = station
    /\ load_pollutants call = selectedPollutants (chartControls (state w'))
    /\ load_timeRange call = timeRange (chartControls (state w'))
    /\ load_timeStep call = timeStep (chartControls (state w'))
    /\ timeStep (chartControls (state w')) = timeStep (chartControls (state w))
    /\ isTimeStepValidForRange (timeRange (chartControls (state w')))
         (timeStep (chartControls (state w'))) = true
    /\ (infoMessage (state w') <> None <->
        timeRange (chartControls (state w')) <> range)
    /\ loading (state w') = (if atCall then loading (state w) else true)
    /\ error (state w') = (if atCall then error (state w) else None).
Proof.
  intros Hstation Hselected. simpl.
  unfold handleTimeRangeChange, applyControls. rewrite Hstation.
  unfold loadHistoricalData.
  destruct (selectedPollutants (chartControls (state w))) as [|code codes]
    eqn:Hcodes; [done|].
  pose proof (adjusted_range_fits now range (timeStep (chartControls (state w))))
    as Hfits.
  pose proof (valid_range_not_adjusted now range
                (timeStep (chartControls (state w)))) as Hkept.
  pose proof (corrected_range_shape now range
                (timeStep (chartControls (state w)))) as Hshape.
  destruct (adjustTimeRangeIfNeeded now range (timeStep (chartControls (state w))))
    as [adjusted [|]] eqn:Hadjust; simpl in *.
  - destruct (Hshape eq_refl) as (maxDays & c & Hmax & Hrange & _).
    rewrite Hmax. destruct atCall; simpl; rewrite ?Hcodes; eexists;
      repeat split; try done.
    all: intros _ Hsame; subst adjusted;
      destruct (isTimeStepValidForRange range (timeStep (chartControls (state w))))
        eqn:Hvalid; [by specialize (Hkept eq_refl)|];
      rewrite Hsame in Hfits; congruence.
  - assert (adjusted = range) as Hunchanged.
    { unfold adjustTimeRangeIfNeeded in Hadjust.
      destruct (maxDaysOf _); [|by injection Hadjust].
      destruct range as [[] [p|] [c|]]; simpl in Hadjust;
        repeat match type of Hadjust with
               | context [if ?b then _ else _] => destruct b
               end; by injection Hadjust. }
    destruct atCall; simpl; rewrite ?Hcodes; eexists; repeat split; try done.
Qed.

End Panel.


(** ** The historical fetch of the service *)

Section ServiceProperties.

Import ModuleAirService.

Variable pollutants : list (string * PollutantConfig).
Variable sensors : list ModuleAirSensorConfig.
Variable parseFloat : RawValue -> float.
Variable makeRequest : Request -> Completion Json.

Local Abbreviation fetch := (fetchHistoricalData pollutants sensors parseFloat makeRequest).
Local Abbreviation mapOne := (mapPoint pollutants parseFloat).

Lemma mapM_normal {A B} (f : A -> Completion B) (l : list A) :
  (forall a, exists b, f a = Normal b) ->
  exists bs, mapM f l = Normal bs.
Proof.
  intros Hf. induction l as [|a l [bs IH]]; simpl; [eauto|].
  destruct (Hf a) as [b Hb]. rewrite Hb. simpl.
  unfold mbind, completion_bind. simpl. rewrite IH. simpl. eauto.
Qed.

Lemma fetch_fulfils (now : Z) (params : FetchParams) :
  exists data, fetch now params = Normal data.
Proof.
  unfold fetchHistoricalData.
  destruct (List.find _ sensors) as [config|]; [|eauto].
  destruct (makeRequest (buildRequest now config params)) as [[points|]|err];
    simpl; eauto.
  unfold mbind, completion_bind. simpl.
  destruct (mapM _ points); simpl; eauto.
Qed.

(** C9: the promise of [fetchHistoricalData] always fulfils.  A sensor
    that is not in the configured list gives the empty array; a request
    that throws gives the empty array; and a load of the panel that goes
    through this service never resumes in its [catch] block. *)
Theorem fetchHistoricalData_never_rejects (now : Z) (params : FetchParams) :
  (exists data, fetch now params = Normal data)
  /\ (List.find (fun s => String.eqb (cfg_sensorId s) (sensorId params)) sensors
      = None -> fetch now params = Normal [])
  /\ (forall config err,
        List.find (fun s => String.eqb (cfg_sensorId s) (sensorId params)) sensors
        = Some config ->
        makeRequest (buildRequest now config params) = Throw err ->
        fetch now params = Normal [])
  /\ (forall call, exists responses,
        outcomeVia (fetch now) call = LoadFulfilled responses).
Proof.
  split; [apply fetch_fulfils|]. split; [|split].
  - intros Hnone. unfold fetchHistoricalData. by rewrite Hnone.
  - intros config err Hconfig Hthrow. unfold fetchHistoricalData.
    rewrite Hconfig. simpl. by rewrite Hthrow.
  - intros call. unfold outcomeVia.
    match goal with
    | |- context [mapM ?f ?l] =>
      destruct (mapM_normal f l) as [bs Hbs]; [|rewrite Hbs; eauto]
    end.
    intros code. apply fetch_fulfils.
Qed.

Lemma mapM_Forall2 {A B} (f : A -> Completion B) (l : list A) (bs : list B) :
  mapM f l = Normal bs -> Forall2 (fun a b => f a = Normal b) l bs.
Proof.
  revert bs. induction l as [|a l IH]; intros bs; simpl.
  - intros [= <-]. constructor.
  - unfold mbind, completion_bind.
    destruct (f a) as [b|] eqn:Hb; simpl; [|done].
    destruct (mapM f l) as [bs'|]; simpl; [|done].
    intros [= <-]. constructor; [done|]. by apply IH.
Qed.

Lemma coalesce_normal (point : JsonPoint) (keys : list string) :
  point <> PointNull -> exists val, coalesce point keys = Normal val.
Proof.
  intros Hpoint. induction keys as [|key keys IH]; simpl; [eauto|].
  destruct point as [|fields|member]; [done| |];
    (destruct keys; simpl; [eauto|]);
    unfold mbind, completion_bind; simpl; destruct (isNullish _); eauto.
Qed.

Lemma firstTruthy_normal (point : JsonPoint) (keys : list string) :
  point <> PointNull -> exists val, firstTruthy point keys = Normal val.
Proof.
  intros Hpoint. induction keys as [|key keys IH]; simpl; [eauto|].
  destruct point as [|fields|member]; [done| |];
    (destruct keys; simpl; [eauto|]);
    unfold mbind, completion_bind; simpl; destruct (truthy _); eauto.
Qed.

Lemma mapPoint_normal (code : string) (point : JsonPoint) :
  point <> PointNull ->
  exists val ts,
    coalesce point (readingKeys code) = Normal val
    /\ mapOne code point
       = Normal {| dp_timestamp := ts;
                   dp_value := Some (readingValue parseFloat val);
                   dp_unit := default "" (lookupPollutant pollutants code ≫= p_unit) |}.
Proof.
  intros Hpoint. unfold mapPoint.
  destruct (coalesce_normal point (readingKeys code) Hpoint) as [val Hval].
  destruct (firstTruthy_normal point ["time"; "timestamp"; "date_debut"] Hpoint)
    as [ts Hts].
  exists val, ts. split; [done|].
  unfold mbind, completion_bind, bind. rewrite Hval, Hts. done.
Qed.

Lemma isReading_false (val : RawValue) :
  isReading val = false <->
  val = RUndefined \/ val = RNull \/ val = RString "-1".
Proof.
  split.
  - destruct val as [| | | |s|]; simpl; try done; eauto.
    intros Hs%negb_false_iff%String.eqb_eq. subst. eauto.
  - intros [->|[->| ->]]; done.
Qed.

Lemma mapPoint_value (code : string) (point : JsonPoint) (s : HistoricalDataPoint) :
  mapOne code point = Normal s -> exists f, dp_value s = Some f.
Proof.
  unfold mapPoint, mbind, completion_bind, bind.
  destruct (coalesce point (readingKeys code)); [|done].
  destruct (firstTruthy point ["time"; "timestamp"; "date_debut"]); [|done].
  intros [= <-]. simpl. eauto.
Qed.

(** Every sample the service returns carries a number that is not [NaN]. *)
Lemma returned_samples_are_numbers
    (now : Z) (params : FetchParams) (data : list HistoricalDataPoint) :
  fetch now params = Normal data ->
  Forall (fun s => exists f, dp_value s = Some f /\ PrimFloat.is_nan f = false) data.
Proof.
  unfold fetchHistoricalData.
  destruct (List.find _ sensors) as [config|]; [|intros [= <-]; constructor].
  destruct (makeRequest (buildRequest now config params)) as [[points|]|err];
    simpl; try (intros [= <-]; constructor).
  unfold mbind, completion_bind. simpl.
  destruct (mapM _ points) as [mapped|] eqn:Hmapped; simpl;
    [|intros [= <-]; constructor].
  intros [= <-]. apply mapM_Forall2 in Hmapped.
  apply List.Forall_forall. intros s [Hs Hkeep]%filter_In.
  assert (exists f, dp_value s = Some f) as [f Hf].
  { clear Hkeep. induction Hmapped as [|point s' points mapped Hp _ IH];
      [done|].
    destruct Hs as [->|Hs]; [by eapply mapPoint_value|by apply IH]. }
  exists f. split; [done|].
  unfold notNaN in Hkeep. rewrite Hf in Hkeep. by apply negb_true_iff.
Qed.

Lemma mapM_points (code : string) (points : list JsonPoint) :
  Forall (fun point => point <> PointNull) points ->
  exists mapped,
    mapM (mapOne code) points = Normal mapped
    /\ Forall2 (fun point s =>
         exists val,
           coalesce point (readingKeys code) = Normal val
           /\ dp_value s = Some (readingValue parseFloat val))
         points mapped.
Proof.
  induction 1 as [|point points Hpoint _ (mapped & Hmapped & Hall)]; simpl.
  - exists []. split; [done|constructor].
  - destruct (mapPoint_normal code point Hpoint) as (val & ts & Hval & Hs).
    eexists (_ :: mapped). unfold mbind, completion_bind, bind.
    rewrite Hs, Hmapped. split; [done|].
    constructor; [|done]. exists val. done.
Qed.

(** Reading a property of a [null] element throws, and the mapping of the
    whole response with it. *)
Lemma mapM_throws (code : string) (points : list JsonPoint) :
  In PointNull points ->
  exists err, mapM (mapOne code) points = Throw err.
Proof.
  induction points as [|point points IH]; intros Hin; [done|]. simpl.
  unfold mbind, completion_bind, bind.
  destruct (mapOne code point) as [s|err] eqn:Hs; [|eauto].
  destruct Hin as [->|Hin]; [done|].
  destruct (IH Hin) as [err ->]. eauto.
Qed.

(** C10, as the code has it: a reading that is [undefined], [null] or the
    string ["-1"] becomes the value 0 and its sample is kept.  When no
    element of the response is [null], the service returns the mapped
    samples whose value is not [NaN], so a sample is dropped exactly when
    its reading was parsed and the parsed value is [NaN].  When some
    element is [null], reading its properties throws and the service
    returns the empty array: every sample is dropped, whatever its
    value.  In all cases every returned sample carries a number that is
    not [NaN]. *)
Theorem missing_readings_become_zero
    (now : Z) (params : FetchParams) (config : ModuleAirSensorConfig)
    (points : list JsonPoint) :
  List.find (fun s => String.eqb (cfg_sensorId s) (sensorId params)) sensors
  = Some config ->
  makeRequest (buildRequest now config params) = Normal (JArray points) ->
  (Forall (fun point => point <> PointNull) points ->
   exists mapped,
     fetch now params = Normal (List.filter notNaN mapped)
     /\ Forall2 (fun point s =>
          exists val,
            coalesce point (readingKeys (pollutant params)) = Normal val
            /\ dp_value s = Some (readingValue parseFloat val)
            /\ (val = RUndefined \/ val = RNull \/ val = RString "-1" ->
                dp_value s = Some 0%float /\ notNaN s = true)
            /\ (notNaN s = false <->
                isReading val = true /\ PrimFloat.is_nan (parseFloat val) = true))
          points mapped)
  /\ (In PointNull points -> fetch now params = Normal [])
  /\ (forall data,
        fetch now params = Normal data ->
        Forall (fun s => exists f, dp_value s = Some f /\ PrimFloat.is_nan f = false)
               data).
Proof.
  intros Hconfig Hresponse. split; [|split].
  - intros Hpoints.
    destruct (mapM_points (pollutant params) points Hpoints)
      as (mapped & Hmapped & Hall).
    exists mapped. split.
    + unfold fetchHistoricalData. rewrite Hconfig. simpl. rewrite Hresponse. simpl.
      unfold mbind, completion_bind, bind. by rewrite Hmapped.
    + eapply Forall2_impl; [exact Hall|].
      intros point s (val & Hval & Hvalue). exists val.
      split; [done|]. split; [done|].
      unfold notNaN, readingValue in *. rewrite Hvalue. split.
      * intros Hmissing%isReading_false. rewrite Hmissing. done.
      * destruct (isReading val); simpl.
        -- rewrite negb_false_iff. tauto.
        -- split; [done|]. intros [? _]. done.
  - intros Hnull. unfold fetchHistoricalData.
    rewrite Hconfig. simpl. rewrite Hresponse. simpl.
    unfold mbind, completion_bind, bind.
    destruct (mapM_throws (pollutant params) points Hnull) as [err ->].
    done.
  - intros data. apply returned_samples_are_numbers.
Qed.

End ServiceProperties.

(** * Further properties of the service *)

Section RequestProperties.

Import ModuleAirService.

Variable pollutants : list (string * PollutantConfig).
Variable sensors : list ModuleAirSensorConfig.
Variable parseFloat : RawValue -> float.
Variable makeRequest : Request -> Completion Json.

Local Abbreviation fetch :=
  (fetchHistoricalData pollutants sensors parseFloat makeRequest).

Lemma ceilDiv_bounds (a b : Z) :
  0 < b -> (ceilDiv a b - 1) * b < a <= ceilDiv a b * b.
Proof.
  intros Hb. unfold ceilDiv.
  pose proof (Z.div_mod (- a) b ltac:(lia)) as Hdiv.
  pose proof (Z.mod_pos_bound (- a) b Hb) as Hmod. nia.
Qed.

(** The window asked of the API reaches back to the requested start: it
    is counted in whole hours when the start is at most 24 hours old and
    in whole days otherwise, rounded up, so it covers the start and
    overshoots it by less than one unit; it always stops now, whatever
    end date the parameters carry. *)
Theorem requested_window_covers_the_start
    (now : Z) (config : ModuleAirSensorConfig) (params : FetchParams) :
  stop (buildRequest now config params) = "now"
  /\ (forall otherEnd,
        buildRequest now config
          {| sensorId := sensorId params; pollutant := pollutant params;
             fp_timeStep := fp_timeStep params;
             fp_startDate := fp_startDate params; fp_endDate := otherEnd |}
        = buildRequest now config params)
  /\ match start (buildRequest now config params) with
     | Hours n =>
       now - fp_startDate params <= 24 * MS_PER_HOUR
       /\ (n - 1) * MS_PER_HOUR < now - fp_startDate params <= n * MS_PER_HOUR
     | Days n =>
       24 * MS_PER_HOUR < now - fp_startDate params
       /\ (n - 1) * MS_PER_DAY < now - fp_startDate params <= n * MS_PER_DAY
     end.
Proof.
  split; [done|]. split; [done|]. unfold buildRequest. simpl.
  pose proof (ceilDiv_bounds (now - fp_startDate params) (1000 * 60 * 60)
                ltac:(lia)) as Hhours.
  pose proof (ceilDiv_bounds (now - fp_startDate params) (1000 * 60 * 60 * 24)
                ltac:(lia)) as Hdays.
  unfold MS_PER_HOUR, MS_PER_DAY.
  destruct (Z.leb_spec (ceilDiv (now - fp_startDate params) (1000 * 60 * 60)) 24);
    lia.
Qed.

Lemma mapM_length {A B} (f : A -> Completion B) (l : list A) (bs : list B) :
  mapM f l = Normal bs -> length bs = length l.
Proof.
  revert bs. induction l as [|a l IH]; intros bs; simpl.
  - by intros [= <-].
  - unfold mbind, completion_bind, bind.
    destruct (f a); [|done]. destruct (mapM f l) as [bs'|]; [|done].
    intros [= <-]. simpl. by rewrite (IH bs').
Qed.

(** The series is never longer than the response, and a single [null]
    element in the response loses the whole series. *)
Theorem one_null_point_empties_the_series
    (now : Z) (params : FetchParams) (config : ModuleAirSensorConfig)
    (points : list JsonPoint) :
  List.find (fun s => String.eqb (cfg_sensorId s) (sensorId params)) sensors
  = Some config ->
  makeRequest (buildRequest now config params) = Normal (JArray points) ->
  (exists data, fetch now params = Normal data /\ (length data <= length points)%nat)
  /\ (In PointNull points -> fetch now params = Normal []).
Proof.
  intros Hconfig Hresponse. unfold fetchHistoricalData.
  rewrite Hconfig. simpl. rewrite Hresponse. simpl.
  unfold mbind, completion_bind, bind. split.
  - destruct (mapM _ points) as [mapped|] eqn:Hmapped; simpl.
    + eexists. split; [done|].
      rewrite <- (mapM_length _ _ _ Hmapped). apply List.filter_length_le.
    + eexists. split; [done|]. simpl. lia.
  - intros Hnull.
    destruct (mapM_throws pollutants parseFloat (pollutant params) points Hnull)
      as [err ->].
    done.
Qed.

(** Each time step of the panel asks for its own frequency.  A step the
    mapping does not list asks for the two-minute one, unless it names a
    member the mapping inherits from [Object.prototype]: that member is
    then what the request carries as frequency. *)
Theorem frequencies_of_the_time_steps (timeStep other : string) :
  (In (convertTimeStepToFreq timeStep)
      [FreqCode "2m"; FreqCode "15m"; FreqCode "1h"; FreqCode "1d"]
   \/ (In timeStep objectPrototypeKeys
       /\ convertTimeStepToFreq timeStep = InheritedMember timeStep))
  /\ (In timeStep MODULEAIR_TIMESTEP_OPTIONS ->
      In other MODULEAIR_TIMESTEP_OPTIONS ->
      convertTimeStepToFreq timeStep = convertTimeStepToFreq other ->
      timeStep = other)
  /\ (~ In timeStep ["instantane"; "deuxMin"; "quartHeure"; "heure"; "jour"] ->
      convertTimeStepToFreq timeStep
      = if includes objectPrototypeKeys timeStep
        then InheritedMember timeStep
        else FreqCode "2m").
Proof.
  split; [|split].
  - unfold convertTimeStepToFreq.
    destruct (includes objectPrototypeKeys timeStep) eqn:Hinherited.
    + apply includes_In in Hinherited.
      repeat match goal with
             | |- context [if String.eqb ?a ?b then _ else _] =>
               destruct (String.eqb a b)
             end; simpl; tauto.
    + repeat match goal with
             | |- context [if String.eqb ?a ?b then _ else _] =>
               destruct (String.eqb a b)
             end; simpl; tauto.
  - unfold MODULEAIR_TIMESTEP_OPTIONS. simpl.
    intros [<-|[<-|[<-|[<-|[]]]]] [<-|[<-|[<-|[<-|[]]]]]; done.
  - intros Hnot. unfold convertTimeStepToFreq.
    repeat match goal with
           | |- context [if String.eqb ?a ?b then _ else _] =>
             destruct (String.eqb_spec a b) as [->|]
           end; try done; exfalso; apply Hnot; simpl; tauto.
Qed.

(** [formatDateForHistorical] gives the first or the last millisecond of
    the UTC day of the instant: the two bracket the instant, lie on its
    day, are a day less a millisecond apart, and formatting them again
    changes nothing. *)
Theorem formatDateForHistorical_brackets_the_day (date : Z) :
  formatDateForHistorical date false <= date <= formatDateForHistorical date true
  /\ isoDate (formatDateForHistorical date false) = isoDate date
  /\ isoDate (formatDateForHistorical date true) = isoDate date
  /\ formatDateForHistorical date true - formatDateForHistorical date false
     = MS_PER_DAY - 1
  /\ formatDateForHistorical (formatDateForHistorical date false) false
     = formatDateForHistorical date false
  /\ formatDateForHistorical (formatDateForHistorical date true) true
     = formatDateForHistorical date true.
Proof.
  unfold formatDateForHistorical, isoDate, MS_PER_DAY.
  pose proof (Z.div_mod date (24 * 60 * 60 * 1000) ltac:(lia)) as Hdiv.
  pose proof (Z.mod_pos_bound date (24 * 60 * 60 * 1000) ltac:(lia)) as Hmod.
  assert (date / (24 * 60 * 60 * 1000) * (24 * 60 * 60 * 1000)
            / (24 * 60 * 60 * 1000) = date / (24 * 60 * 60 * 1000)) as Hfirst
    by (apply Z.div_mul; lia).
  assert ((date / (24 * 60 * 60 * 1000) * (24 * 60 * 60 * 1000)
           + (23 * 60 * 60 * 1000 + 59 * 60 * 1000 + 59 * 1000 + 999))
            / (24 * 60 * 60 * 1000) = date / (24 * 60 * 60 * 1000)) as Hlast.
  { rewrite Z.add_comm, Z.div_add by lia. rewrite Z.div_small; lia. }
  rewrite Hfirst, Hlast. repeat split; lia.
Qed.

End RequestProperties.

Section WindowOfAPreset.

Import ModuleAirService.

Variable localTimeToUtc : Z -> Z.

Lemma ceilDiv_unique (a b n : Z) :
  0 < b -> (n - 1) * b < a <= n * b -> ceilDiv a b = n.
Proof.
  intros Hb Hn. pose proof (ceilDiv_bounds a b Hb) as Hc. nia.
Qed.

(** The panel computes the start of a preset range from its own clock and
    the service counts the window from a later reading of the clock.
    Read at the same millisecond, the presets ask for 3 hours, 24 hours,
    7 days and 30 days; read later, by one millisecond at least and one
    hour at most, the rounding up asks for 4 hours, 2 days, 8 days and
    31 days. *)
Theorem preset_window_is_rounded_up
    (panelNow serviceNow : Z) (config : ModuleAirSensorConfig) (p : Preset)
    (station code stp : string) :
  let dates :=
    getDateRange localTimeToUtc panelNow
      {| type := preset_t; preset := Some p; custom := None |} in
  let params :=
    {| sensorId := station; pollutant := code; fp_timeStep := stp;
       fp_startDate := fst dates; fp_endDate := snd dates |} in
  (serviceNow = panelNow ->
   start (buildRequest serviceNow config params)
   = match p with
     | P3h => Hours 3 | P24h => Hours 24 | P7d => Days 7 | P30d => Days 30
     end)
  /\ (0 < serviceNow - panelNow <= MS_PER_HOUR ->
      start (buildRequest serviceNow config params)
      = match p with
        | P3h => Hours 4 | P24h => Days 2 | P7d => Days 8 | P30d => Days 31
        end).
Proof.
  unfold buildRequest, getDateRange, MS_PER_HOUR. simpl. split.
  - intros ->. destruct p; simpl.
    all: match goal with
         | |- context [ceilDiv ?a (1000 * 60 * 60) <=? 24] =>
           first [ rewrite (ceilDiv_unique a (1000 * 60 * 60) 3) by lia
                 | rewrite (ceilDiv_unique a (1000 * 60 * 60) 24) by lia
                 | rewrite (ceilDiv_unique a (1000 * 60 * 60) 168) by lia
                 | rewrite (ceilDiv_unique a (1000 * 60 * 60) 720) by lia ]
         end; simpl; try done.
    all: f_equal; apply ceilDiv_unique; lia.
  - intros Hdelay. destruct p; simpl.
    all: match goal with
         | |- context [ceilDiv ?a (1000 * 60 * 60) <=? 24] =>
           first [ rewrite (ceilDiv_unique a (1000 * 60 * 60) 4) by lia
                 | rewrite (ceilDiv_unique a (1000 * 60 * 60) 25) by lia
                 | rewrite (ceilDiv_unique a (1000 * 60 * 60) 169) by lia
                 | rewrite (ceilDiv_unique a (1000 * 60 * 60) 721) by lia ]
         end; simpl; try done.
    all: f_equal; apply ceilDiv_unique; lia.
Qed.

End WindowOfAPreset.

Section DeviceProperties.

Import ModuleAirService.

Variable pollutants : list (string * PollutantConfig).
Variable Thresholds : Type.
Variable thresholdsOf : string -> option Thresholds.
Variable getAirQualityLevel : float -> Thresholds -> string.
Variable parseFloat : RawValue -> float.
Variable toText : RawValue -> string.
Variable sourceCode : string.
Variable requestMetadata : ModuleAirSensorConfig -> Completion Json.

Local Abbreviation mapDevice :=
  (mapToMeasurementDevice pollutants Thresholds thresholdsOf getAirQualityLevel
     parseFloat toText sourceCode).
Local Abbreviation collect :=
  (collectDevice pollutants Thresholds thresholdsOf getAirQualityLevel
     parseFloat toText sourceCode requestMetadata).
Local Abbreviation devicesOf :=
  (fun sensors =>
     fetchData pollutants Thresholds thresholdsOf getAirQualityLevel sensors
       parseFloat toText sourceCode requestMetadata).

Lemma collect_appends (code : string) (config : ModuleAirSensorConfig) :
  exists extra,
    (length extra <= 1)%nat
    /\ forall devices, collect code devices config = Normal (devices ++ extra)%list.
Proof.
  unfold collectDevice, mbind, completion_bind, bind.
  destruct (requestMetadata config) as [[[|data rest]|]|err]; simpl;
    try (exists []; split; [simpl; lia|intros; by rewrite app_nil_r]).
  destruct (mapDevice data code config) as [[d|]|err]; simpl.
  - exists [d]. split; [simpl; lia|done].
  - exists []. split; [simpl; lia|intros; by rewrite app_nil_r].
  - exists []. split; [simpl; lia|intros; by rewrite app_nil_r].
Qed.

Lemma loop_appends (code : string) (sensors : list ModuleAirSensorConfig) :
  exists extra,
    (length extra <= length sensors)%nat
    /\ forall devices,
         foldM (collect code) sensors devices = Normal (devices ++ extra)%list.
Proof.
  induction sensors as [|config sensors (rest & Hrest & IH)]; simpl.
  - exists []. split; [simpl; lia|intros; by rewrite app_nil_r].
  - destruct (collect_appends code config) as (extra & Hextra & Hcollect).
    exists (extra ++ rest)%list. split; [rewrite length_app; lia|].
    intros devices. unfold mbind, completion_bind, bind.
    rewrite Hcollect, IH. by rewrite <- app_assoc.
Qed.

Lemma loop_app (code : string) (before after : list ModuleAirSensorConfig)
    (devices : list MeasurementDevice) :
  foldM (collect code) (before ++ after)%list devices
  = bind (foldM (collect code) before devices) (foldM (collect code) after).
Proof.
  revert devices. induction before as [|config before IH]; intros devices;
    simpl; [done|].
  unfold mbind, completion_bind, bind.
  destruct (collect code devices config); [apply IH|done].
Qed.

(** [fetchData] never rejects, gives at most one device per configured
    sensor, and gives none when neither ModuleAir source is selected. *)
Theorem fetchData_gives_at_most_one_device_per_sensor
    (sensors : list ModuleAirSensorConfig) (code : string) (sources : list string) :
  exists devices,
    devicesOf sensors code sources = Normal devices
    /\ (length devices <= length sensors)%nat
    /\ (includes sources "moduleair" = false ->
        includes sources "communautaire.moduleair" = false ->
        devices = []).
Proof.
  unfold fetchData.
  destruct (includes sources "moduleair") eqn:H1; simpl;
    [|destruct (includes sources "communautaire.moduleair") eqn:H2; simpl].
  3: { exists []. repeat split; simpl; first [lia|done]. }
  all: destruct (loop_appends code sensors) as (extra & Hextra & Hloop);
    rewrite Hloop; simpl; exists extra; repeat split; done.
Qed.

(** A sensor whose metadata request throws is skipped: the devices are
    those of the configuration without it. *)
Theorem a_failing_sensor_is_skipped
    (before after : list ModuleAirSensorConfig) (bad : ModuleAirSensorConfig)
    (err : string) (code : string) (sources : list string) :
  requestMetadata bad = Throw err ->
  devicesOf (before ++ bad :: after)%list code sources
  = devicesOf (before ++ after)%list code sources.
Proof.
  intros Hbad. unfold fetchData.
  destruct (negb _); [done|]. f_equal.
  rewrite !loop_app. unfold bind.
  destruct (foldM (collect code) before []) as [devices|]; [|done].
  simpl. unfold mbind, completion_bind, bind, collectDevice at 1.
  by rewrite Hbad.
Qed.

(** A device is built only from coordinates that parse to numbers other
    than zero; when the reading of the pollutant is missing, [null] or
    ["-1"], the device carries the value 0, is inactive, and has the
    default quality level. *)
Theorem mapped_device_is_located
    (data : JsonPoint) (code : string) (config : ModuleAirSensorConfig)
    (device : MeasurementDevice) :
  mapDevice data code config = Normal (Some device) ->
  PrimFloat.is_nan (dev_latitude device) = false
  /\ PrimFloat.is_nan (dev_longitude device) = false
  /\ PrimFloat.eqb (dev_latitude device) 0 = false
  /\ PrimFloat.eqb (dev_longitude device) 0 = false
  /\ dev_pollutant device = code
  /\ (dev_status device = "active" \/ dev_status device = "inactive")
  /\ (forall valueStr,
        getProp data (toUpperCase code) = Normal valueStr ->
        isReading valueStr = false ->
        dev_value device = 0%float
        /\ dev_status device = "inactive"
        /\ dev_qualityLevel device = "default").
Proof.
  unfold mapToMeasurementDevice, mbind, completion_bind, bind.
  generalize (firstTruthy data ["nom_site"; "localisation"; "adresse"]).
  generalize (departmentOf data). intros department address.
  destruct (getProp data "latitude") as [latitude|]; [|done].
  destruct (getProp data "longitude") as [longitude|]; [|done].
  destruct (PrimFloat.is_nan (parseFloat latitude)) eqn:Hlat; [done|].
  destruct (PrimFloat.is_nan (parseFloat longitude)) eqn:Hlon; [done|].
  destruct (PrimFloat.eqb (parseFloat latitude) 0) eqn:Hlat0; [done|].
  destruct (PrimFloat.eqb (parseFloat longitude) 0) eqn:Hlon0; [done|].
  simpl.
  destruct (getProp data (toUpperCase code)) as [valueStr|]; [|done].
  destruct (getProp data "sensorId"); [|done].
  destruct (getProp data "nom_site"); [|done].
  destruct (getProp data "time"); [|done].
  destruct (getProp data "connected") as [connected|]; [|done].
  destruct address; [|done]. destruct department; [|done].
  intros [= <-]. simpl. repeat split; try done.
  - destruct (isReading valueStr); [destruct (truthy connected)|]; eauto.
  - injection H as ->. by rewrite H0.
  - injection H as ->. by rewrite H0.
  - injection H as ->. by rewrite H0.
Qed.

End DeviceProperties.

Section SiteProperties.

Import ModuleAirService.

Variable pollutants : list (string * PollutantConfig).
Variable sensors : list ModuleAirSensorConfig.
Variable requestMetadata : ModuleAirSensorConfig -> Completion Json.

Lemma setKey_fresh {A} (key : string) (value : A) (entries : list (string * A)) :
  ~ In key (map fst entries) ->
  setKey key value entries = (entries ++ [(key, value)])%list.
Proof.
  induction entries as [|[k v] entries IH]; simpl; [done|].
  intros Hfresh. destruct (String.eqb_spec k key) as [->|Hne].
  - exfalso. apply Hfresh. by left.
  - rewrite IH; [done|]. intros Hin. apply Hfresh. by right.
Qed.

Lemma site_loop (codes : list string) (entries : list (string * StationVariable)) :
  List.NoDup (map fst entries ++ map toLowerCase codes) ->
  fold_left
    (fun variables pollutant =>
       match lookupPollutant pollutants (toLowerCase pollutant) with
       | Some pollutantConfig =>
         setKey (toLowerCase pollutant)
                {| label := p_name pollutantConfig;
                   code_iso := pollutant;
                   en_service := true |}
                variables
       | None => variables
       end) codes entries
  = (entries ++
     flat_map
       (fun pollutant =>
          match lookupPollutant pollutants (toLowerCase pollutant) with
          | Some pollutantConfig =>
            [(toLowerCase pollutant,
              {| label := p_name pollutantConfig;
                 code_iso := pollutant;
                 en_service := true |})]
          | None => []
          end) codes)%list.
Proof.
  revert entries. induction codes as [|code codes IH]; intros entries Hnodup;
    simpl; [by rewrite app_nil_r|].
  simpl in Hnodup.
  assert (~ In (toLowerCase code) (map fst entries)) as Hfresh.
  { intros Hin. apply List.NoDup_remove_2 in Hnodup. apply Hnodup.
    apply in_or_app. by left. }
  destruct (lookupPollutant pollutants (toLowerCase code)) as [cfg|].
  - rewrite setKey_fresh by done. rewrite IH.
    + by rewrite <- app_assoc.
    + rewrite map_app. simpl. by rewrite <- app_assoc.
  - simpl. apply IH. by apply List.NoDup_remove_1 in Hnodup.
Qed.

Lemma site_variables_entries (sensorId : string) :
  fetchSiteVariables pollutants sensorId
  = flat_map
      (fun pollutant =>
         match lookupPollutant pollutants (toLowerCase pollutant) with
         | Some pollutantConfig =>
           [(toLowerCase pollutant,
             {| label := p_name pollutantConfig;
                code_iso := pollutant;
                en_service := true |})]
         | None => []
         end) supportedPollutants.
Proof.
  unfold fetchSiteVariables. rewrite site_loop; [done|].
  simpl. repeat constructor; simpl; intuition discriminate.
Qed.

Lemma site_variable_keys (sensorId code : string) :
  In code (map fst (fetchSiteVariables pollutants sensorId)) <->
  In code (map toLowerCase supportedPollutants)
  /\ is_Some (lookupPollutant pollutants code).
Proof.
  rewrite site_variables_entries.
  generalize supportedPollutants as codes.
  induction codes as [|first codes IH]; simpl; [tauto|].
  rewrite map_app, in_app_iff, IH.
  destruct (lookupPollutant pollutants (toLowerCase first)) as [cfg|] eqn:Hcfg;
    simpl; split.
  - intros [[<-|[]]|[Hin Hsome]]; [|tauto]. split; [by left|by rewrite Hcfg].
  - intros [[<-|Hin] Hsome]; [tauto|]. right. done.
  - intros [[]|[Hin Hsome]]. tauto.
  - intros [[<-|Hin] Hsome]; [|tauto]. rewrite Hcfg in Hsome.
    by destruct Hsome.
Qed.

Lemma site_entry_keys (codes : list string) :
  map fst
    (flat_map
       (fun pollutant =>
          match lookupPollutant pollutants (toLowerCase pollutant) with
          | Some pollutantConfig =>
            [(toLowerCase pollutant,
              {| label := p_name pollutantConfig;
                 code_iso := pollutant;
                 en_service := true |})]
          | None => []
          end) codes)
  = List.filter
      (fun code =>
         match lookupPollutant pollutants code with
         | Some _ => true
         | None => false
         end) (map toLowerCase codes).
Proof.
  induction codes as [|code codes IH]; simpl; [done|].
  rewrite map_app, IH.
  by destruct (lookupPollutant pollutants (toLowerCase code)).
Qed.

Lemma site_variables_in_service (sensorId : string) (v : string * StationVariable) :
  In v (fetchSiteVariables pollutants sensorId) -> en_service (snd v) = true.
Proof.
  rewrite site_variables_entries. intros (pollutant & _ & Hv)%in_flat_map.
  destruct (lookupPollutant pollutants (toLowerCase pollutant)); [|done].
  by destruct Hv as [<-|[]].
Qed.

(** The variables of a site are the channels, among the seven the service
    supports, that the pollutants table knows: each under its lower-case
    code, once, in service, with the upper-case code as ISO code. *)
Theorem site_variables_are_the_configured_channels (sensorId code : string) :
  (In code (map fst (fetchSiteVariables pollutants sensorId)) <->
   In code (map toLowerCase supportedPollutants)
   /\ is_Some (lookupPollutant pollutants code))
  /\ Forall (fun e =>
       en_service (snd e) = true
       /\ code_iso (snd e) = toUpperCase (fst e)
       /\ In (code_iso (snd e)) supportedPollutants)
       (fetchSiteVariables pollutants sensorId)
  /\ NoDup (map fst (fetchSiteVariables pollutants sensorId)).
Proof.
  split; [apply site_variable_keys|]. split.
  - apply List.Forall_forall. intros v Hv.
    split; [by apply (site_variables_in_service sensorId)|].
    rewrite site_variables_entries in Hv.
    apply in_flat_map in Hv as (pollutant & Hsupported & Hv).
    destruct (lookupPollutant pollutants (toLowerCase pollutant)); [|done].
    destruct Hv as [<-|[]]. simpl. split; [|done].
    unfold supportedPollutants in Hsupported. simpl in Hsupported.
    destruct Hsupported as [<-|[<-|[<-|[<-|[<-|[<-|[<-|[]]]]]]]]; done.
  - rewrite site_variables_entries, site_entry_keys.
    apply NoDup_ListNoDup, List.NoDup_filter.
    unfold supportedPollutants. simpl.
    repeat constructor; simpl; intuition discriminate.
Qed.

(** [fetchSiteInfo] never rejects and always carries the variables of the
    site; the details of the metadata are left out when the sensor is not
    configured or its request throws. *)
Theorem fetchSiteInfo_always_gives_the_variables (sensorId : string) :
  exists info,
    fetchSiteInfo pollutants sensors requestMetadata sensorId = Normal info
    /\ site_variables info = fetchSiteVariables pollutants sensorId
    /\ (List.find (fun s => String.eqb (cfg_sensorId s) sensorId) sensors = None ->
        site_details info = None)
    /\ (forall config err,
          List.find (fun s => String.eqb (cfg_sensorId s) sensorId) sensors
          = Some config ->
          requestMetadata config = Throw err ->
          site_details info = None).
Proof.
  unfold fetchSiteInfo.
  destruct (List.find _ sensors) as [config|]; [|eexists; repeat split; done].
  destruct (requestMetadata config) as [[[|first rest]|]|err] eqn:Hrequest;
    simpl; try (eexists; repeat split; try done; intros ? ? [= <-]; congruence).
  unfold tryCatch, mbind, completion_bind, bind.
  repeat match goal with
         | |- context [match getProp ?a ?b with _ => _ end] =>
           destruct (getProp a b); simpl
         | |- context [match departmentOf ?a with _ => _ end] =>
           destruct (departmentOf a); simpl
         | |- context [if truthy ?v then _ else _] => destruct (truthy v); simpl
         end;
    eexists; repeat split; try done; intros ? ? [= <-]; congruence.
Qed.

End SiteProperties.

Section SiteAndPanel.

Import ModuleAirService.

Variable pollutants : list (string * PollutantConfig).

Lemma map_fst_filter {A B} (f : A -> bool) (l : list (A * B)) :
  map fst (List.filter (fun e => f (fst e)) l) = List.filter f (map fst l).
Proof.
  induction l as [|e l IH]; simpl; [done|].
  destruct (f (fst e)); simpl; by rewrite IH.
Qed.

(** For a station whose variables are those the service gives for a site,
    the pollutants the panel offers are the entries of the pollutants
    table, in the order of the table, whose code is one of the seven
    lower-case codes of the service. *)
Theorem available_pollutants_of_a_site (station : StationInfo) (sensorId : string) :
  variables station = fetchSiteVariables pollutants sensorId ->
  getAvailablePollutants pollutants (Some station)
  = List.filter (includes (map toLowerCase supportedPollutants))
                (map fst pollutants).
Proof.
  intros Hvariables. unfold getAvailablePollutants.
  rewrite <- map_fst_filter. f_equal. apply filter_ext_in. intros e He.
  apply eq_true_iff_eq. unfold isPollutantAvailable.
  rewrite existsb_exists, includes_In, Hvariables. split.
  - intros (v & Hv & Hcode).
    apply andb_true_iff in Hcode as [Hcode%String.eqb_eq _].
    apply (site_variable_keys pollutants sensorId (fst e)).
    rewrite <- Hcode. by apply in_map.
  - intros Hin.
    assert (In (fst e) (map fst (fetchSiteVariables pollutants sensorId)))
      as (v & Hfst & Hv)%in_map_iff.
    { apply site_variable_keys. split; [done|].
      by apply (config_of_an_entry pollutants). }
    exists v. split; [done|]. rewrite Hfst, String.eqb_refl. simpl.
    apply (site_variables_in_service pollutants sensorId v Hv).
Qed.

End SiteAndPanel.


(** * Worked examples

    The panel of the sample configuration, with ["pm25"] as initial
    pollutant, in a browser whose local time is UTC and whose engine
    accepts 65535 arguments in a call. *)

Local Abbreviation panel0 := (initialPanel samplePollutants "pm25").
Local Abbreviation runSample :=
  (run samplePollutants sampleMaxHistoryDays "pm25" utc sampleArgumentsLimit).
Local Abbreviation stepSample :=
  (step samplePollutants sampleMaxHistoryDays "pm25" utc sampleArgumentsLimit).
Local Abbreviation feasibleSample :=
  (feasible samplePollutants sampleMaxHistoryDays "pm25" utc
     sampleArgumentsLimit).

(** C1, counterexample: station B is selected while the load of station A
    is suspended; the store is empty and no load of station B is
    scheduled.  When the load of station A settles, its series enters the
    store of the panel that now shows station B. *)
Lemma stale_settlement_fills_the_new_station :
  let w := runSample thenSelectB panel0 in
  let w' := stepSample 200 (LoadSettles 0 answerOfA) w in
  feasibleSample (thenSelectB ++ [(200, LoadSettles 0 answerOfA)])%list panel0 = true
  /\ station_id <$> selectedStation (state w) = Some "B"
  /\ stationIdRef w = Some "B"
  /\ requestKey <$> loads w = ["A-pm25-24h-heure"]
  /\ frames w = []
  /\ historicalData (state w) = ∅
  /\ station_id <$> selectedStation (state w') = Some "B"
  /\ historicalData (state w') !! "pm25" = Some seriesOfA
  /\ loads w' = [].
Proof. vm_compute. repeat split; reflexivity. Qed.

(** Witness of [load_settlement_is_applied_unconditionally]: station B is
    selected while the load of station A is suspended, and that load
    settles on the panel of station B. *)
Lemma load_settlement_witness :
  loads (runSample openOnA panel0) !! 0%nat = Some loadOfA
  /\ life (runSample openOnA panel0) = Mounted
  /\ shown (props_isOpen (runSample openOnA panel0))
           (props_selectedStation (runSample openOnA panel0)) = true
  /\ refIs (stationIdRef (runSample openOnA panel0)) (station_id stationB) = false
  /\ loading
       (state (stepSample 100 (LoadSettles 0 answerOfA)
                 (runSample openOnA panel0))) = false
  /\ let selected :=
       stepSample 100 (PropsChange true (Some stationB))
         (runSample openOnA panel0) in
     let settled := stepSample 200 (LoadSettles 0 answerOfA) selected in
     historicalData (state selected) = ∅
     /\ selectedStation (state selected) = Some stationB
     /\ loads selected = loads (runSample openOnA panel0)
     /\ (loadingRef (runSample openOnA panel0) = true ->
         frames selected = frames (runSample openOnA panel0))
     /\ selectedStation (state settled) = Some stationB
     /\ historicalData (state settled)
        = newHistoricalData (load_pollutants loadOfA) (fun _ => seriesOfA).
Proof.
  split; [vm_compute; reflexivity|]. split; [vm_compute; reflexivity|].
  split; [vm_compute; reflexivity|]. split; [vm_compute; reflexivity|].
  destruct (load_settlement_is_applied_unconditionally
              samplePollutants sampleMaxHistoryDays "pm25" utc sampleArgumentsLimit
              100 (runSample openOnA panel0) 0 loadOfA answerOfA
              ltac:(vm_compute; reflexivity)) as [Hsettled Hselected].
  split; [exact (proj1 Hsettled)|].
  exact (Hselected stationB 200 ltac:(vm_compute; reflexivity)
           ltac:(vm_compute; reflexivity) ltac:(vm_compute; reflexivity)).
Defined.

(** C3, counterexample: on station B the seven-day range is chosen twice,
    the loading flag having been cleared in between by the settlement of
    the load of station A; two loads with the same key are suspended
    together. *)
Lemma equal_keys_suspended_together :
  feasibleSample sevenDaysTwice panel0 = true
  /\ requestKey <$> loads (runSample sevenDaysTwice panel0)
     = ["B-pm25-7d-heure"; "B-pm25-7d-heure"].
Proof. vm_compute. split; reflexivity. Qed.

(** Witness of [initial_load_is_latched]: station A is loaded and shown;
    choosing the range of the settled load dispatches it again. *)
Lemma initial_load_latch_witness :
  forallb (fun e => keepsLatch (snd e)) readyOnA = true
  /\ (length (loads (runSample readyOnA panel0)) <= 1)%nat
  /\ exists call,
       loads (handleTimeRangeChange sampleMaxHistoryDays utc 300 true last24h
                (runSample readyOnA panel0))
       = (loads (runSample readyOnA panel0) ++ [call])%list
       /\ requestKey call = "A-pm25-24h-heure".
Proof.
  split; [reflexivity|].
  destruct (initial_load_is_latched samplePollutants sampleMaxHistoryDays
              "pm25" utc sampleArgumentsLimit readyOnA eq_refl) as [Hone Hagain].
  split; [exact Hone|].
  destruct (Hagain 300 true last24h stationA ltac:(vm_compute; reflexivity)
              ltac:(vm_compute; discriminate)) as (call & Hloads & Hkey).
  exists call. split; [exact Hloads|].
  rewrite Hkey. vm_compute. reflexivity.
Defined.

(** C4, counterexample: CO2 declares the hourly and daily steps,
    temperature the instantaneous and quarter-hour ones; the intersection
    is empty, and so is the result, where the specification has the full
    enumerated set. *)
Lemma empty_intersection_is_not_the_full_set :
  declaredIntersection samplePollutants ["co2"; "temp"] = []
  /\ getSupportedTimeStepsForPollutants samplePollutants ["co2"; "temp"] = []
  /\ supportedSteps_spec samplePollutants ["co2"; "temp"]
     = MODULEAIR_TIMESTEP_OPTIONS
  /\ getSupportedTimeStepsForPollutants samplePollutants ["co2"; "temp"]
     <> supportedSteps_spec samplePollutants ["co2"; "temp"].
Proof. vm_compute. repeat split; (reflexivity || discriminate). Qed.

(** Witness of [supported_steps_are_the_declared_intersection]: the empty
    result for CO2 with temperature, and the pollutant that refuses the
    hourly step. *)
Lemma supported_steps_witness :
  getSupportedTimeStepsForPollutants samplePollutants ["co2"; "temp"] = []
  /\ exists code,
       In code ["co2"; "temp"] /\ admitsStep samplePollutants code "heure" = false.
Proof.
  split; [reflexivity|].
  exact (proj1 (proj2 (proj2
           (supported_steps_are_the_declared_intersection samplePollutants
              ["co2"; "temp"])))
           eq_refl "heure" ltac:(vm_compute; tauto)).
Defined.

(** C5, counterexample: station A is shown with its series; the reload
    for the seven-day range is rejected; the error notice is raised and
    the store still holds the series of the previous load. *)
Lemma rejected_reload_keeps_the_old_series :
  feasibleSample reloadRejected panel0 = true
  /\ error (state (runSample reloadRejected panel0)) = Some loadErrorMessage
  /\ historicalData (state (runSample reloadRejected panel0)) !! "pm25"
     = Some seriesOfA
  /\ historicalData (state (runSample reloadRejected panel0)) <> ∅.
Proof.
  split; [vm_compute; reflexivity|]. split; [vm_compute; reflexivity|].
  assert (historicalData (state (runSample reloadRejected panel0)) !! "pm25"
          = Some seriesOfA) as Hseries by (vm_compute; reflexivity).
  split; [exact Hseries|].
  intros Hempty. rewrite Hempty, lookup_empty in Hseries. discriminate.
Qed.

(** Witness of [rejected_load_raises_the_generic_notice]: the rejected
    reload of station A. *)
Lemma rejected_load_witness :
  loads (runSample reloading panel0) !! 0%nat = Some reloadOfA
  /\ let w' := stepSample 400 (LoadSettles 0 (LoadRejected "HTTP 500"))
                 (runSample reloading panel0) in
     error (state w') = Some loadErrorMessage
     /\ loading (state w') = false
     /\ loadingRef w' = false
     /\ isLoading w' = false
     /\ historicalData (state w')
        = historicalData (state (runSample reloading panel0))
     /\ (historicalData (state (runSample reloading panel0)) = ∅ ->
         historicalData (state w') = ∅)
     /\ unhandledRejections w' = unhandledRejections (runSample reloading panel0).
Proof.
  split; [vm_compute; reflexivity|].
  exact (rejected_load_raises_the_generic_notice
           samplePollutants sampleMaxHistoryDays "pm25" utc sampleArgumentsLimit
           400 (runSample reloading panel0) 0 reloadOfA "HTTP 500"
           ltac:(vm_compute; reflexivity)).
Defined.

(** C6, the failing input evaluated: PM10 is switched on, which starts
    its fetch, and switched off before the fetch has settled; the store
    still has no series for it, and the handler starts a second fetch for
    the pollutant it has just deselected. *)
Theorem toggle_off_starts_a_fetch :
  let on := runSample (readyOnA ++ [(300, PollutantToggle "pm10")])%list panel0 in
  let off := runSample pm10OnThenOff panel0 in
  feasibleSample pm10OnThenOff panel0 = true
  /\ selectedPollutants (chartControls (state on)) = ["pm25"; "pm10"]
  /\ pollutant <$> fetches on = ["pm10"]
  /\ selectedPollutants (chartControls (state off)) = ["pm25"]
  /\ pollutant <$> fetches off = ["pm10"; "pm10"]
  /\ loads off = [].
Proof. vm_compute. repeat split; reflexivity. Qed.

(** C2, the failing input evaluated: station A is shown at the hourly
    step with PM2.5 selected, and the invariant holds; the temperature
    channel, which declares the instantaneous and quarter-hour steps
    only, is switched on; the selection grows and the step stays hourly,
    outside the supported set of the new selection. *)
Theorem toggle_on_leaves_an_unsupported_step :
  let before := runSample readyOnA panel0 in
  let after := runSample temperatureOn panel0 in
  feasibleSample temperatureOn panel0 = true
  /\ controlsInvariant samplePollutants sampleMaxHistoryDays
       (chartControls (state before)) = true
  /\ chartControls (state after)
     = {| selectedPollutants := ["pm25"; "temp"];
          timeRange := last24h;
          timeStep := "heure" |}
  /\ getSupportedTimeStepsForPollutants samplePollutants ["pm25"; "temp"]
     = ["instantane"; "quartHeure"]
  /\ stepSupported samplePollutants (chartControls (state after)) = false
  /\ controlsInvariant samplePollutants sampleMaxHistoryDays
       (chartControls (state after)) = false.
Proof. vm_compute. repeat split; reflexivity. Qed.

(** Witness of [stats_of_the_primary_series]: station A shown with the
    values 10, 20, 30. *)
Lemma stats_witness :
  selectedPollutants (chartControls (state (runSample readyOnA panel0)))
  = ["pm25"]
  /\ "pm25" <> ""
  /\ historicalData (state (runSample readyOnA panel0)) !! "pm25"
     = Some seriesOfA
  /\ (3 <= sampleArgumentsLimit)%N
  /\ presentValues seriesOfA = [10%float; 20%float; 30%float]
  /\ statsNumbers samplePollutants sampleArgumentsLimit
       (state (runSample readyOnA panel0))
     = Normal (Some (20%float, 30%float, 10%float)).
Proof.
  assert (3 <= sampleArgumentsLimit)%N as Hlimit
    by (unfold sampleArgumentsLimit; lia).
  split; [vm_compute; reflexivity|]. split; [discriminate|].
  split; [vm_compute; reflexivity|]. split; [exact Hlimit|].
  split; [vm_compute; reflexivity|].
  exact (proj1 (proj2 (proj2
           (stats_of_the_primary_series samplePollutants sampleArgumentsLimit
              (state (runSample readyOnA panel0)) "pm25" [] seriesOfA
              ltac:(vm_compute; reflexivity) ltac:(discriminate)
              ltac:(vm_compute; reflexivity))))
           Hlimit ltac:(vm_compute; reflexivity)).
Defined.

(** Witness of [fetchHistoricalData_never_rejects]: an unknown sensor,
    and a request that throws. *)
Lemma never_rejects_witness :
  ModuleAirService.fetchHistoricalData samplePollutants [] sampleParseFloat
    failingMakeRequest 7200000 paramsOfA = Normal []
  /\ ModuleAirService.fetchHistoricalData samplePollutants sampleSensors
       sampleParseFloat failingMakeRequest 7200000 paramsOfA = Normal [].
Proof.
  split.
  - exact (proj1 (proj2
             (fetchHistoricalData_never_rejects samplePollutants []
                sampleParseFloat failingMakeRequest 7200000 paramsOfA))
             eq_refl).
  - exact (proj1 (proj2 (proj2
             (fetchHistoricalData_never_rejects samplePollutants sampleSensors
                sampleParseFloat failingMakeRequest 7200000 paramsOfA)))
             _ "NetworkError" eq_refl eq_refl).
Defined.

(** C10, counterexample: the first element of the response carries the
    reading 12, which parses to a number, and the second element is
    [null]; mapped alone, the first element gives a sample that the
    filter keeps, and yet the service returns no sample at all. *)
Lemma valid_sample_is_lost_with_a_null_element :
  ModuleAirService.mapPoint samplePollutants sampleParseFloat "pm25"
    (ModuleAirService.PointObject
       [("time", RString "2024-01-01T00:00:00Z"); ("PM25", RNumber 12%float)])
  = Normal (sample 12)
  /\ PrimFloat.is_nan (sampleParseFloat (RNumber 12%float)) = false
  /\ ModuleAirService.notNaN (sample 12) = true
  /\ ModuleAirService.fetchHistoricalData samplePollutants sampleSensors
       sampleParseFloat nullMakeRequest 7200000 paramsOfA = Normal [].
Proof. vm_compute. repeat split; reflexivity. Qed.

(** Witness of [missing_readings_become_zero]: of the four points of the
    sample response, three have no reading; all four samples are
    returned, three of them with the value 0. *)
Lemma missing_readings_witness :
  Forall (fun point => point <> ModuleAirService.PointNull) sampleResponse
  /\ exists mapped,
       ModuleAirService.fetchHistoricalData samplePollutants sampleSensors
         sampleParseFloat sampleMakeRequest 7200000 paramsOfA
       = Normal (List.filter ModuleAirService.notNaN mapped)
       /\ dp_value <$> List.filter ModuleAirService.notNaN mapped
          = [Some 12%float; Some 0%float; Some 0%float; Some 0%float].
Proof.
  assert (Forall (fun point => point <> ModuleAirService.PointNull) sampleResponse)
    as Hpoints by (repeat constructor; discriminate).
  split; [exact Hpoints|].
  destruct (proj1 (missing_readings_become_zero samplePollutants sampleSensors
                     sampleParseFloat sampleMakeRequest 7200000 paramsOfA
                     _ sampleResponse eq_refl eq_refl) Hpoints)
    as (mapped & Hfetch & _).
  exists mapped. split; [exact Hfetch|].
  assert (Normal (List.filter ModuleAirService.notNaN mapped)
          = Normal (List.filter ModuleAirService.notNaN
                      [ {| dp_timestamp := RString "2024-01-01T00:00:00Z";
                           dp_value := Some 12%float; dp_unit := "µg/m³" |};
                        {| dp_timestamp := RString "2024-01-01T01:00:00Z";
                           dp_value := Some 0%float; dp_unit := "µg/m³" |};
                        {| dp_timestamp := RString "2024-01-01T02:00:00Z";
                           dp_value := Some 0%float; dp_unit := "µg/m³" |};
                        {| dp_timestamp := RString "2024-01-01T03:00:00Z";
                           dp_value := Some 0%float; dp_unit := "µg/m³" |} ]))
    as [= ->] by (rewrite <- Hfetch; vm_compute; reflexivity).
  reflexivity.
Defined.

(** The zeros the service makes up enter the statistics: the series of
    the sample response has the mean 3 where its only reading is 12. *)
Lemma made_up_zeros_enter_the_statistics :
  exists data,
    ModuleAirService.fetchHistoricalData samplePollutants sampleSensors
      sampleParseFloat sampleMakeRequest 7200000 paramsOfA = Normal data
    /\ statsNumbers samplePollutants sampleArgumentsLimit
         (withSeries "pm25" data (state (runSample readyOnA panel0)))
       = Normal (Some (3%float, 12%float, 0%float)).
Proof. eexists. split; vm_compute; reflexivity. Qed.

(** ** Witnesses of the further properties *)

Lemma selection_order_witness :
  Permutation ["pm25"; "co2"] ["co2"; "pm25"]
  /\ getSupportedTimeStepsForPollutants samplePollutants ["pm25"; "co2"]
     = getSupportedTimeStepsForPollutants samplePollutants ["co2"; "pm25"].
Proof.
  split; [apply perm_swap|].
  exact (supported_steps_ignore_selection_order samplePollutants
           ["pm25"; "co2"] ["co2"; "pm25"] (perm_swap _ _ _)).
Defined.

Lemma adjustment_validity_witness :
  isTimeStepValidForRange sampleMaxHistoryDays last24h "heure" = true
  /\ adjustedRange (adjustTimeRangeIfNeeded sampleMaxHistoryDays 500 last24h "heure")
     = last24h.
Proof.
  split; [reflexivity|].
  exact (proj1 (proj2 (adjustment_mirrors_validity sampleMaxHistoryDays
                         500 last24h "heure")) eq_refl).
Defined.

Lemma corrected_range_witness :
  wasAdjusted (adjustTimeRangeIfNeeded sampleMaxHistoryDays 1700000000000
                 last7d "instantane") = true
  /\ exists maxDays c,
       maxDaysOf sampleMaxHistoryDays "instantane" = Some maxDays
       /\ adjustedRange (adjustTimeRangeIfNeeded sampleMaxHistoryDays
                           1700000000000 last7d "instantane")
          = {| type := custom_t; preset := None; custom := Some c |}
       /\ endDate c - startDate c = maxDays
       /\ endDate c = isoDate 1700000000000.
Proof.
  split; [reflexivity|].
  exact (corrected_range_spans_the_maximum sampleMaxHistoryDays
           1700000000000 last7d "instantane" eq_refl).
Defined.

Lemma preset_window_witness :
  (type last7d = preset_t \/ custom last7d = None)
  /\ snd (getDateRange utc 1700000000000 last7d) = 1700000000000
  /\ (inject_Z (1700000000000 - fst (getDateRange utc 1700000000000 last7d))
      == presetDays P7d * inject_Z MS_PER_DAY)%Q.
Proof.
  split; [by left|].
  exact (preset_window_matches_the_policy_table utc 1700000000000 last7d
           (or_introl eq_refl)).
Defined.

Lemma corrected_window_witness :
  (forall a b, utc a - utc b = a - b)
  /\ wasAdjusted (adjustTimeRangeIfNeeded sampleMaxHistoryDays 1700000000000
                    last7d "instantane") = true
  /\ exists maxDays,
       maxDaysOf sampleMaxHistoryDays "instantane" = Some maxDays
       /\ snd (getDateRange utc 1700000001000
                 (adjustedRange (adjustTimeRangeIfNeeded sampleMaxHistoryDays
                                   1700000000000 last7d "instantane")))
          - fst (getDateRange utc 1700000001000
                   (adjustedRange (adjustTimeRangeIfNeeded sampleMaxHistoryDays
                                     1700000000000 last7d "instantane")))
          = (maxDays + 1) * MS_PER_DAY - 1.
Proof.
  split; [reflexivity|]. split; [reflexivity|].
  exact (corrected_window_exceeds_the_maximum sampleMaxHistoryDays utc
           1700000000000 1700000001000 last7d "instantane"
           (fun a b => eq_refl) eq_refl).
Defined.

Lemma spinner_witness :
  loading (state (runSample openOnA panel0)) = true
  /\ loads (runSample openOnA panel0) <> [].
Proof.
  split; [reflexivity|].
  exact (proj1 (spinner_and_latch_have_a_pending_load samplePollutants
                  sampleMaxHistoryDays "pm25" utc sampleArgumentsLimit openOnA)
           (or_introl eq_refl)).
Defined.

Lemma notice_witness :
  infoMessage (state (runSample correctedOnA panel0)) <> None
  /\ infoTimers (runSample correctedOnA panel0) <> 0%nat.
Proof.
  assert (infoMessage (state (runSample correctedOnA panel0)) <> None) as Hshown
    by (vm_compute; discriminate).
  split; [exact Hshown|].
  exact (proj1 (notice_has_a_pending_timer samplePollutants
                  sampleMaxHistoryDays "pm25" utc sampleArgumentsLimit correctedOnA) Hshown).
Defined.


Lemma toggling_twice_witness :
  NoDup ["pm25"; "pm10"; "co2"]
  /\ includes ["pm25"; "pm10"; "co2"] "pm10" = true
  /\ exists before after,
       ["pm25"; "pm10"; "co2"] = (before ++ "pm10" :: after)%list
       /\ toggleSelection (toggleSelection ["pm25"; "pm10"; "co2"] "pm10") "pm10"
          = (before ++ after ++ ["pm10"])%list.
Proof.
  assert (NoDup ["pm25"; "pm10"; "co2"]) as Hnodup.
  { apply NoDup_ListNoDup. repeat constructor; simpl; intuition discriminate. }
  split; [exact Hnodup|]. split; [reflexivity|].
  exact (proj2 (proj2 (toggling_twice_restores_the_selection
                         ["pm25"; "pm10"; "co2"] "pm10" Hnodup)) eq_refl).
Defined.

Lemma cached_series_witness :
  fetches (runSample pm10Pending panel0) !! 0%nat = Some fetchOfPm10
  /\ let w' := stepSample 400 (FetchSettles 0 (FetchFulfilled seriesOfB))
                 (runSample pm10Pending panel0) in
     historicalData (state w') !! pollutant fetchOfPm10 = Some seriesOfB
     /\ fetches (handlePollutantToggle utc 500 (pollutant fetchOfPm10) w')
        = fetches w'
     /\ loads (handlePollutantToggle utc 500 (pollutant fetchOfPm10) w')
        = loads w'.
Proof.
  split; [vm_compute; reflexivity|].
  exact (fetched_series_is_cached samplePollutants sampleMaxHistoryDays "pm25"
           utc sampleArgumentsLimit 400 500 (runSample pm10Pending panel0) 0 fetchOfPm10 seriesOfB
           ltac:(vm_compute; reflexivity)).
Defined.

Lemma enabled_step_change_witness :
  enabled samplePollutants sampleMaxHistoryDays (TimeStepChange true "jour")
    (runSample readyOnA panel0) = true
  /\ chartControls (state (stepSample 300 (TimeStepChange true "jour")
                             (runSample readyOnA panel0)))
     = {| selectedPollutants := ["pm25"]; timeRange := last24h; timeStep := "jour" |}.
Proof.
  split; [vm_compute; reflexivity|].
  destruct (enabled_step_change_keeps_the_range samplePollutants
              sampleMaxHistoryDays "pm25" utc sampleArgumentsLimit 300 true "jour"
              (runSample readyOnA panel0) ltac:(vm_compute; reflexivity))
    as [Hcontrols _].
  rewrite Hcontrols. vm_compute. reflexivity.
Defined.

Lemma nothing_selected_witness :
  props_selectedStation (runSample nothingSelected panel0) = Some stationA
  /\ selectedPollutants (chartControls (state (runSample nothingSelected panel0)))
     = []
  /\ historicalData (state (runSample nothingSelected panel0)) !! "pm25"
     = Some seriesOfA
  /\ historicalData
       (state (handleTimeRangeChange sampleMaxHistoryDays utc 400 false last7d
                 (runSample nothingSelected panel0))) = ∅
  /\ historicalData
       (state (handleTimeRangeChange sampleMaxHistoryDays utc 400 true last7d
                 (runSample nothingSelected panel0)))
     = historicalData (state (runSample nothingSelected panel0)).
Proof.
  split; [vm_compute; reflexivity|]. split; [vm_compute; reflexivity|].
  split; [vm_compute; reflexivity|]. split.
  - exact (proj1 (reload_with_nothing_selected_empties_the_store
                    sampleMaxHistoryDays utc 400 false last7d
                    (runSample nothingSelected panel0) stationA
                    ltac:(vm_compute; reflexivity) ltac:(vm_compute; reflexivity))).
  - exact (proj1 (reload_with_nothing_selected_empties_the_store
                    sampleMaxHistoryDays utc 400 true last7d
                    (runSample nothingSelected panel0) stationA
                    ltac:(vm_compute; reflexivity) ltac:(vm_compute; reflexivity))).
Defined.

Lemma replaced_store_witness :
  loads (runSample openOnA panel0) !! 0%nat = Some loadOfA
  /\ historicalData
       (state (stepSample 200 (LoadSettles 0 (LoadFulfilled (fun _ => seriesOfA)))
                 (runSample openOnA panel0))) !! "pm10" = None.
Proof.
  split; [vm_compute; reflexivity|].
  exact (fulfilled_load_replaces_the_store samplePollutants sampleMaxHistoryDays
           "pm25" utc sampleArgumentsLimit 200 (runSample openOnA panel0) 0 loadOfA
           (fun _ => seriesOfA) "pm10" ltac:(vm_compute; reflexivity)).
Defined.

Lemma error_notice_witness :
  error (state (runSample rejectedWithPm10Pending panel0)) <> None
  /\ feasibleSample [(600, FetchSettles 0 (FetchFulfilled seriesOfB))]
       (runSample rejectedWithPm10Pending panel0) = true
  /\ error (state (runSample [(600, FetchSettles 0 (FetchFulfilled seriesOfB))]
                     (runSample rejectedWithPm10Pending panel0))) <> None.
Proof.
  assert (error (state (runSample rejectedWithPm10Pending panel0)) <> None)
    as Herror by (vm_compute; discriminate).
  split; [exact Herror|]. split; [vm_compute; reflexivity|].
  exact (error_notice_stays samplePollutants sampleMaxHistoryDays "pm25" utc sampleArgumentsLimit
           [(600, FetchSettles 0 (FetchFulfilled seriesOfB))]
           (runSample rejectedWithPm10Pending panel0) Herror eq_refl
           ltac:(vm_compute; reflexivity)).
Defined.

Lemma range_change_witness :
  props_selectedStation (runSample readyOnA panel0) = Some stationA
  /\ selectedPollutants (chartControls (state (runSample readyOnA panel0))) <> []
  /\ (exists call,
        loads (stepSample 300 (TimeRangeChange false last7d)
                 (runSample readyOnA panel0))
        = (loads (runSample readyOnA panel0) ++ [call])%list
        /\ load_timeRange call
           = timeRange (chartControls
                          (state (stepSample 300 (TimeRangeChange false last7d)
                                    (runSample readyOnA panel0))))
        /\ loading (state (stepSample 300 (TimeRangeChange false last7d)
                             (runSample readyOnA panel0))) = true)
  /\ (exists call,
        loads (stepSample 300 (TimeRangeChange true last7d)
                 (runSample readyOnA panel0))
        = (loads (runSample readyOnA panel0) ++ [call])%list
        /\ loading (state (stepSample 300 (TimeRangeChange true last7d)
                             (runSample readyOnA panel0))) = false).
Proof.
  assert (selectedPollutants (chartControls (state (runSample readyOnA panel0)))
          <> []) as Hselected by (vm_compute; discriminate).
  split; [vm_compute; reflexivity|]. split; [exact Hselected|]. split.
  - destruct (range_change_reloads_what_the_controls_show samplePollutants
                sampleMaxHistoryDays "pm25" utc sampleArgumentsLimit 300 false last7d
                (runSample readyOnA panel0) stationA
                ltac:(vm_compute; reflexivity) Hselected)
      as (call & Hloads & _ & _ & Hrange & _ & _ & _ & _ & Hloading & _).
    exists call. split; [exact Hloads|]. split; [exact Hrange|exact Hloading].
  - destruct (range_change_reloads_what_the_controls_show samplePollutants
                sampleMaxHistoryDays "pm25" utc sampleArgumentsLimit 300 true last7d
                (runSample readyOnA panel0) stationA
                ltac:(vm_compute; reflexivity) Hselected)
      as (call & Hloads & _ & _ & _ & _ & _ & _ & _ & Hloading & _).
    exists call. split; [exact Hloads|].
    rewrite Hloading. vm_compute. reflexivity.
Defined.

Lemma last_seen_witness :
  60 <= 125 < 604800
  /\ exists n unit,
       formatLastSeen dateOf 1700000000000 (Some 125) = Some (ilYA n unit)
       /\ 1 <= n < 60
       /\ (unit = "minute" \/ unit = "heure" \/ unit = "jour").
Proof.
  split; [lia|].
  exact (proj2 (formatLastSeen_by_seconds dateOf 1700000000000 125)
           ltac:(lia)).
Defined.

Lemma null_point_witness :
  List.find (fun s => String.eqb (ModuleAirService.cfg_sensorId s)
                        (sensorId paramsOfA)) sampleSensors = Some sensorA
  /\ In ModuleAirService.PointNull responseWithNull
  /\ ModuleAirService.fetchHistoricalData samplePollutants sampleSensors
       sampleParseFloat nullMakeRequest 7200000 paramsOfA = Normal [].
Proof.
  split; [reflexivity|]. split; [right; left; reflexivity|].
  exact (proj2 (one_null_point_empties_the_series samplePollutants
                  sampleSensors sampleParseFloat nullMakeRequest 7200000
                  paramsOfA sensorA responseWithNull eq_refl eq_refl)
           (or_intror (or_introl eq_refl))).
Defined.

Lemma rounded_window_witness :
  0 < 1700000000250 - 1700000000000 <= MS_PER_HOUR
  /\ ModuleAirService.start
       (ModuleAirService.buildRequest 1700000000250 sensorA
          {| sensorId := "A"; pollutant := "pm25"; fp_timeStep := "heure";
             fp_startDate := fst (getDateRange utc 1700000000000 last24h);
             fp_endDate := snd (getDateRange utc 1700000000000 last24h) |})
     = ModuleAirService.Days 2.
Proof.
  split; [unfold MS_PER_HOUR; lia|].
  exact (proj2 (preset_window_is_rounded_up utc 1700000000000 1700000000250
                  sensorA P24h "A" "pm25" "heure")
           ltac:(unfold MS_PER_HOUR; lia)).
Defined.

Lemma no_source_witness :
  includes ["atmosud"] "moduleair" = false
  /\ includes ["atmosud"] "communautaire.moduleair" = false
  /\ ModuleAirService.fetchData samplePollutants unit noThresholds anyLevel
       [sensorB; sensorA] sampleParseFloat sampleToText "moduleair"
       sampleRequestMetadata "pm25" ["atmosud"] = Normal [].
Proof.
  split; [reflexivity|]. split; [reflexivity|].
  destruct (fetchData_gives_at_most_one_device_per_sensor samplePollutants unit
              noThresholds anyLevel sampleParseFloat sampleToText "moduleair"
              sampleRequestMetadata [sensorB; sensorA] "pm25" ["atmosud"])
    as (devices & Hdevices & _ & Hnone).
  rewrite Hdevices. f_equal. exact (Hnone eq_refl eq_refl).
Defined.

Lemma failing_sensor_witness :
  sampleRequestMetadata sensorB = Throw "NetworkError"
  /\ ModuleAirService.fetchData samplePollutants unit noThresholds anyLevel
       ([] ++ sensorB :: [sensorA]) sampleParseFloat sampleToText "moduleair"
       sampleRequestMetadata "pm25" ["moduleair"]
     = ModuleAirService.fetchData samplePollutants unit noThresholds anyLevel
         ([] ++ [sensorA]) sampleParseFloat sampleToText "moduleair"
         sampleRequestMetadata "pm25" ["moduleair"].
Proof.
  split; [reflexivity|].
  exact (a_failing_sensor_is_skipped samplePollutants unit noThresholds anyLevel
           sampleParseFloat sampleToText "moduleair" sampleRequestMetadata
           [] [sensorA] sensorB "NetworkError" "pm25" ["moduleair"] eq_refl).
Defined.

Lemma located_device_witness :
  exists device,
    ModuleAirService.mapToMeasurementDevice samplePollutants unit noThresholds
      anyLevel sampleParseFloat sampleToText "moduleair" metadataOfA "pm25"
      sensorA = Normal (Some device)
    /\ PrimFloat.is_nan (ModuleAirService.dev_latitude device) = false
    /\ ModuleAirService.dev_value device = 0%float
    /\ ModuleAirService.dev_status device = "inactive"
    /\ ModuleAirService.dev_qualityLevel device = "default".
Proof.
  eexists. split; [vm_compute; reflexivity|].
  match goal with
  | |- context [ModuleAirService.dev_latitude ?d] =>
    destruct (mapped_device_is_located samplePollutants unit noThresholds
                anyLevel sampleParseFloat sampleToText "moduleair" metadataOfA
                "pm25" sensorA d ltac:(vm_compute; reflexivity))
      as (Hlat & _ & _ & _ & _ & _ & Hmissing)
  end.
  split; [exact Hlat|].
  exact (Hmissing (RString "-1") eq_refl eq_refl).
Defined.

Lemma site_info_witness :
  List.find (fun s => String.eqb (ModuleAirService.cfg_sensorId s) "B")
            [sensorA] = None
  /\ exists info,
       ModuleAirService.fetchSiteInfo samplePollutants [sensorA]
         sampleRequestMetadata "B" = Normal info
       /\ ModuleAirService.site_variables info
          = ModuleAirService.fetchSiteVariables samplePollutants "B"
       /\ ModuleAirService.site_details info = None.
Proof.
  split; [reflexivity|].
  destruct (fetchSiteInfo_always_gives_the_variables samplePollutants [sensorA]
              sampleRequestMetadata "B")
    as (info & Hinfo & Hvariables & Hunknown & _).
  exists info. split; [exact Hinfo|]. split; [exact Hvariables|].
  exact (Hunknown eq_refl).
Defined.

Lemma available_pollutants_witness :
  variables siteA = ModuleAirService.fetchSiteVariables samplePollutants "A"
  /\ getAvailablePollutants samplePollutants (Some siteA)
     = List.filter
         (includes (map toLowerCase ModuleAirService.supportedPollutants))
         (map fst samplePollutants).
Proof.
  split; [reflexivity|].
  exact (available_pollutants_of_a_site samplePollutants siteA "A" eq_refl).
Defined.
